(** * Athena proxy backend: a shallow embedding of [server.js]

    The Express server is a relay between the React frontend and the
    Python service.  Each route handler is an [async] function over three
    pieces of mutable environment: the upload directory on disk, the
    upstream service reached through [axios], and the clock.  The embedding
    threads them through a state-and-exception monad [M]; [try]/[catch] is
    [try_catch], a rejected promise is a [Thrown] outcome.

    Node's own library ([path], [fs], URI coding, [Date], [Math.random]),
    [axios], [multer] and the upstream service are not part of the
    repository: they are the fields of [Runtime], the operations of module
    [Fs] and the upload engine next to the [multer] configuration.
    [console.log] calls are left out. *)

From Stdlib Require Import QArith ZArith Ascii.
From stdpp Require Import gmap strings list fin_maps pretty.

Set Warnings "-register-all".
Local Open Scope string_scope.
Local Open Scope Z_scope.

(** ** JavaScript values *)

Module JS.

(** JSON data as the handlers see it after [express.json()]: numbers are
    rationals (every finite double is one), objects are finite maps. *)
Inductive JSValue : Type :=
  | JUndefined
  | JNull
  | JBool (b : bool)
  | JNum (q : Q)
  | JStr (s : string)
  | JArr (xs : list JSValue)
  | JObj (fields : gmap string JSValue).

(** ToBoolean: [undefined], [null], [false], [0] and [''] are falsy. *)
Definition truthy (v : JSValue) : bool :=
  match v with
  | JUndefined | JNull => false
  | JBool b => b
  | JNum q => negb (Qnum q =? 0)
  | JStr s => negb (String.eqb s "")
  | JArr _ | JObj _ => true
  end.

(** [a || b] *)
Definition js_or (a b : JSValue) : JSValue := if truthy a then a else b.

Definition nullish (v : JSValue) : bool :=
  match v with JUndefined | JNull => true | _ => false end.

(** [v.k] for a key [k] that is neither an index nor a prototype member
    (the handlers read [path], [question], [query], [limit], [detail]):
    an own property of an object, [undefined] on anything else. *)
Definition prop (v : JSValue) (k : string) : JSValue :=
  match v with
  | JObj fields => default JUndefined (fields !! k)
  | _ => JUndefined
  end.

(** [v?.k] *)
Definition opt_prop (v : JSValue) (k : string) : JSValue :=
  if nullish v then JUndefined else prop v k.

(** An object literal [{k1: v1, ...}]. *)
Definition obj (kvs : list (string * JSValue)) : JSValue :=
  JObj (list_to_map kvs).

(** What an [axios] response exposes to the handlers. *)
Record AxiosResponse : Type := { status : Z; data : JSValue }.

(** A thrown [Error]: its [message], and [response] when [axios] raised it
    for an answer outside 2xx. *)
Record JSError : Type := { message : string; response : option AxiosResponse }.

Definition plain_error (msg : string) : JSError :=
  {| message := msg; response := None |}.

Inductive Outcome (A : Type) : Type :=
  | Returned (a : A)
  | Thrown (e : JSError).
Arguments Returned {A} a.
Arguments Thrown {A} e.

(** [Array.prototype.join] on strings. *)
Fixpoint join (sep : string) (xs : list string) : string :=
  match xs with
  | [] => ""
  | [x] => x
  | x :: rest => x +:+ sep +:+ join sep rest
  end.

(** [s.endsWith(suffix)] *)
Definition endsWith (s suffix : string) : bool :=
  let n := String.length s in
  let k := String.length suffix in
  (k <=? n)%nat && String.eqb (String.substring (n - k) k s) suffix.

End JS.
Export JS.

(** ** The file system under the handlers *)

Module Fs.

Record Stats : Type := { size : Z; mtimeMs : Z }.

(** What a path names.  A dangling link shows in its directory's listing
    but cannot be followed. *)
Inductive Node : Type :=
  | File (st : Stats)
  | Dir (st : Stats)
  | DanglingLink.

(** Absolute path to node. *)
Abbreviation Store := (gmap string Node).

Definition enoent (syscall path : string) : JSError :=
  plain_error ("ENOENT: no such file or directory, " +:+ syscall +:+ " '" +:+ path +:+ "'").
Definition eisdir (syscall path : string) : JSError :=
  plain_error ("EISDIR: illegal operation on a directory, " +:+ syscall +:+ " '" +:+ path +:+ "'").
Definition enotdir (syscall path : string) : JSError :=
  plain_error ("ENOTDIR: not a directory, " +:+ syscall +:+ " '" +:+ path +:+ "'").

(** Name resolution; the empty pathname names nothing. *)
Definition lookup (p : string) (s : Store) : option Node :=
  if String.eqb p "" then None else s !! p.

(** [fs.access(p)]: resolves when [p] names something reachable. *)
Definition access (p : string) (s : Store) : Outcome unit :=
  match lookup p s with
  | Some (File _) | Some (Dir _) => Returned tt
  | Some DanglingLink | None => Thrown (enoent "access" p)
  end.

(** [fs.stat(p)] *)
Definition stat (p : string) (s : Store) : Outcome Stats :=
  match lookup p s with
  | Some (File st) | Some (Dir st) => Returned st
  | Some DanglingLink | None => Thrown (enoent "stat" p)
  end.

(** [fs.unlink(p)]: removes a file or a link, refuses a directory. *)
Definition unlink (p : string) (s : Store) : Outcome Store :=
  match lookup p s with
  | Some (File _) | Some DanglingLink => Returned (delete p s)
  | Some (Dir _) => Thrown (eisdir "unlink" p)
  | None => Thrown (enoent "unlink" p)
  end.

(** [strip_prefix p s] is [Some r] when [s = p ++ r]. *)
Fixpoint strip_prefix (p s : string) : option string :=
  match p, s with
  | EmptyString, _ => Some s
  | String a p', String b s' => if Ascii.eqb a b then strip_prefix p' s' else None
  | String _ _, EmptyString => None
  end.

Fixpoint has_slash (s : string) : bool :=
  match s with
  | EmptyString => false
  | String c s' => Ascii.eqb c "/"%char || has_slash s'
  end.

Definition dir_prefix (d : string) : string :=
  if endsWith d "/" then d else d +:+ "/".

(** The entry name of [k] inside directory [d], if [k] lies directly in it. *)
Definition child_name (d k : string) : option string :=
  match strip_prefix (dir_prefix d) k with
  | Some n => if String.eqb n "" || has_slash n then None else Some n
  | None => None
  end.

(** [fs.readdir(d)]: the entry names of [d] (in the store's key order). *)
Definition readdir (d : string) (s : Store) : Outcome (list string) :=
  match lookup d s with
  | Some (Dir _) => Returned (omap (child_name d) (map fst (map_to_list s)))
  | Some (File _) => Thrown (enotdir "scandir" d)
  | Some DanglingLink | None => Thrown (enoent "scandir" d)
  end.

(** Creating (or overwriting) a file inside the existing directory [d]. *)
Definition write_file (d p : string) (st : Stats) (s : Store) : Outcome Store :=
  match lookup d s with
  | Some (Dir _) =>
      match lookup p s with
      | Some (Dir _) => Thrown (eisdir "open" p)
      | _ => if String.eqb p "" then Thrown (enoent "open" p)
             else Returned (<[p := File st]> s)
      end
  | Some (File _) => Thrown (enotdir "open" p)
  | Some DanglingLink | None => Thrown (enoent "open" p)
  end.

End Fs.

(** ** Requests to the upstream service, and the runtime *)

Inductive Method : Type := GET | POST | DELETE.

(** One part of the [FormData] sent to the upstream ingest endpoint: a read
    stream over [fp_source], announced as [fp_filename]. *)
Record FormPart : Type :=
  { fp_field : string; fp_source : string; fp_filename : string; fp_contentType : string }.

Inductive ReqBody : Type :=
  | NoBody
  | JsonBody (v : JSValue)
  | FormBody (parts : list FormPart).

Record UpCall : Type := { method : Method; url : string; body : ReqBody }.

(** ** Multipart uploads *)

(** A file part of a multipart request: the [name] and the [filename] of
    its Content-Disposition, its Content-Type (empty when the part has
    none) and the length of its content.  What the client sent is one such
    record, what [busboy] announces of it to [multer] another (see
    [busboy_file]). *)
Record Part : Type :=
  { part_field : string; part_filename : string; part_mimetype : string; part_bytes : Z }.

(** The parts of a multipart body in the order [busboy] reads them: a file
    part as the client sent it, or a text field as [busboy] announces it
    (its name, if the part has one, and whether [busboy] had to cut the
    name or the value at its limits). *)
Inductive FormItem : Type :=
  | FileItem (sent : Part)
  | FieldItem (name : option string) (nameTruncated valueTruncated : bool).

(** [busboy]'s [basename], applied to the file name of every file part
    ([preservePath] is off): what follows the last '/' or '\', and nothing
    for '.' and '..'. *)
Module Busboy.

Definition is_separator (c : ascii) : bool :=
  Ascii.eqb c "/" || Ascii.eqb c "\".

(** The text after the last separator of [s], [cur] being what has been
    read since the last one. *)
Fixpoint last_component (cur s : string) : string :=
  match s with
  | EmptyString => cur
  | String c s' =>
      if is_separator c then last_component "" s'
      else last_component (cur +:+ String c EmptyString) s'
  end.

Definition basename (path : string) : string :=
  let name := last_component "" path in
  if String.eqb name ".." || String.eqb name "." then "" else name.

End Busboy.

(** The entry [multer] puts in [req.files] for a stored file. *)
Record MulterFile : Type :=
  { fieldname : string; originalname : string; mimetype : string;
    path : string; size : Z }.

(** A request to the ingest route: one that is not multipart, or a
    multipart body, given by the parts [busboy] could read and, for a body
    that is malformed or cut short, the error it raises after them. *)
Inductive IngestRequest : Type :=
  | NotMultipart
  | Multipart (items : list FormItem) (failure : option JSError).

(** Everything the server takes from outside the repository. *)
Record Runtime : Type := {
  (** [path.join(...segments)], [path.resolve(...segments)], [path.extname] *)
  path_join : list string -> string;
  path_resolve : list string -> string;
  path_extname : string -> string;
  (** both raise [URIError] on malformed input *)
  decodeURIComponent : string -> Outcome string;
  encodeURIComponent : string -> Outcome string;
  (** [Date.now()] and [Math.round(Math.random() * 1E9)] at the n-th reading *)
  date_now : nat -> Z;
  math_random_1E9 : nat -> Z;
  (** [new Date(ms).toISOString()] *)
  toISOString : Z -> string;
  (** the answer of the upstream service to a call: a 2xx response, or the
      error [axios] raises (with [response] set when the service answered) *)
  upstream : UpCall -> Outcome AxiosResponse;
  (** the [mimeType] [busboy] announces for a part with this Content-Type:
      type and subtype in lower case, without parameters; text/plain when
      the header is missing or cannot be parsed *)
  busboy_mimeType : string -> string;
  __dirname : string;
  PYTHON_API_URL : string
}.

(** ** The handler monad *)

Record World : Type := {
  store : Fs.Store;          (** the disk *)
  calls : list UpCall;       (** requests sent upstream so far *)
  clock : nat                (** readings of the clock / random source so far *)
}.

Definition M (A : Type) : Type := World -> Outcome A * World.

#[global] Instance M_ret : MRet M := fun A a w => (Returned a, w).
#[global] Instance M_bind : MBind M := fun A B f m w =>
  match m w with
  | (Returned a, w') => f a w'
  | (Thrown e, w') => (Thrown e, w')
  end.

Definition throw {A} (e : JSError) : M A := fun w => (Thrown e, w).

(** [try { m } catch (e) { h e }] *)
Definition try_catch {A} (m : M A) (h : JSError -> M A) : M A := fun w =>
  match m w with
  | (Returned a, w') => (Returned a, w')
  | (Thrown e, w') => h e w'
  end.

(** Run [m] and hand its outcome back as a value. *)
Definition attempt {A} (m : M A) : M (Outcome A) := fun w =>
  let '(o, w') := m w in (Returned o, w').

(** Lift a pure fallible step. *)
Definition lift {A} (o : Outcome A) : M A := fun w => (o, w).

(** A read-only file-system call. *)
Definition fs_read {A} (f : Fs.Store -> Outcome A) : M A := fun w => (f (store w), w).

(** A file-system call that changes the disk when it succeeds. *)
Definition fs_write (f : Fs.Store -> Outcome Fs.Store) : M unit := fun w =>
  match f (store w) with
  | Returned s' => (Returned tt, {| store := s'; calls := calls w; clock := clock w |})
  | Thrown e => (Thrown e, w)
  end.

(** Read the clock (or the random source) once. *)
Definition tick : M nat := fun w =>
  (Returned (clock w), {| store := store w; calls := calls w; clock := S (clock w) |}).

(** What a route hands back to Express. *)
Record Response : Type := { code : Z; payload : JSValue }.

(** [res.json(v)] and [res.status(n).json(v)] *)
Definition res_json (v : JSValue) : Response := {| code := 200; payload := v |}.
Definition res_status_json (n : Z) (v : JSValue) : Response := {| code := n; payload := v |}.

Section Server.

Variable rt : Runtime.

(** [await axios.<method>(url, body)]: the call goes out, then the upstream
    answer is awaited. *)
Definition axios (c : UpCall) : M AxiosResponse := fun w =>
  (upstream rt c, {| store := store w; calls := calls w ++ [c]; clock := clock w |}).

Definition axios_get (u : string) : M AxiosResponse :=
  axios {| method := GET; url := u; body := NoBody |}.
Definition axios_delete (u : string) : M AxiosResponse :=
  axios {| method := DELETE; url := u; body := NoBody |}.
Definition axios_post (u : string) (b : ReqBody) : M AxiosResponse :=
  axios {| method := POST; url := u; body := b |}.

(** [new Date().toISOString()] *)
Definition new_Date_toISOString : M string :=
  t ← tick; mret (toISOString rt (date_now rt t)).

Definition UPLOADS_DIR : string := path_join rt [__dirname rt; ".."; "uploads"].

(** *** [GET /api/health] *)

(** The ping the route sends. *)
Definition health_call : UpCall :=
  {| method := GET; url := PYTHON_API_URL rt +:+ "/health"; body := NoBody |}.

Definition health : M Response :=
  try_catch
    (_ ← axios_get (PYTHON_API_URL rt +:+ "/health");
     ts ← new_Date_toISOString;
     mret (res_json (obj [("status", JStr "ok");
                          ("python_api", JStr "connected");
                          ("timestamp", JStr ts)])))
    (fun error =>
       ts ← new_Date_toISOString;
       mret (res_json (obj [("status", JStr "ok");
                            ("python_api", JStr "disconnected");
                            ("error", JStr (message error));
                            ("timestamp", JStr ts)]))).

(** *** [DELETE /api/uploads/:filename] *)

Definition possiblePaths (filename : string) : list string :=
  [ path_join rt [UPLOADS_DIR; filename];
    path_join rt [__dirname rt; ".."; "uploads"; filename];
    path_resolve rt [UPLOADS_DIR; filename] ].

(** The [for (const testPath of possiblePaths)] loop: [filePath] stays
    [null] until an [fs.access] resolves, then the loop breaks. *)
Fixpoint first_accessible (paths : list string) : M (option string) :=
  match paths with
  | [] => mret None
  | testPath :: rest =>
      try_catch (_ ← fs_read (Fs.access testPath); mret (Some testPath))
                (fun _ => first_accessible rest)
  end.

(** [!filePath] for [filePath] a string or [null]. *)
Definition no_path (filePath : option string) : bool :=
  match filePath with
  | None => true
  | Some p => String.eqb p ""
  end.

(** [param] is [req.params.filename], which Express has already decoded
    once. *)
Definition delete_upload (param : string) : M Response :=
  try_catch
    (filename ← lift (decodeURIComponent rt param);
     filePath ← first_accessible (possiblePaths filename);
     if no_path filePath then
       mret (res_status_json 404 (obj [("error",
         JStr ("File not found: " +:+ filename +:+ ". Checked paths: "
               +:+ join ", " (possiblePaths filename)))]))
     else
       unlinked ← attempt (fs_write (Fs.unlink (default "" filePath)));
       match unlinked with
       | Thrown unlinkError =>
           mret (res_status_json 500 (obj [("error",
             JStr ("Failed to delete file: " +:+ message unlinkError))]))
       | Returned _ =>
           _ ← try_catch
                 (encoded ← lift (encodeURIComponent rt filename);
                  _ ← axios_delete (PYTHON_API_URL rt +:+ "/uploads/" +:+ encoded);
                  mret tt)
                 (fun apiError => mret tt);
           mret (res_json (obj [("message", JStr "File deleted successfully");
                                ("filename", JStr filename)]))
       end)
    (fun error =>
       mret (res_status_json 500 (obj [("error",
         js_or (JStr (message error)) (JStr "Failed to delete file"))]))).

(** *** [GET /api/uploads] *)

(** [Promise.all(xs.map(async x => f x))], the promises settled in order. *)
Fixpoint promise_all_map {A B} (f : A -> M B) (xs : list A) : M (list B) :=
  match xs with
  | [] => mret []
  | x :: rest => y ← f x; ys ← promise_all_map f rest; mret (y :: ys)
  end.

Definition file_record (filename : string) : M JSValue :=
  let filePath := path_join rt [UPLOADS_DIR; filename] in
  stats ← fs_read (Fs.stat filePath);
  mret (obj [("name", JStr filename);
             ("path", JStr filePath);
             ("size", JNum (inject_Z (Fs.size stats)));
             ("updated", JNum (Qmake (Fs.mtimeMs stats) 1000))]).

Definition list_uploads : M Response :=
  try_catch
    (response ← axios_get (PYTHON_API_URL rt +:+ "/uploads");
     mret (res_json (data response)))
    (fun error =>
       try_catch
         (files ← fs_read (Fs.readdir UPLOADS_DIR);
          fileList ← promise_all_map file_record
                        (List.filter (fun f => endsWith f ".pdf") files);
          mret (res_json (obj [("files", JArr fileList)])))
         (fun err => mret (res_status_json 500 (obj [("error", JStr (message err))])))).

(** *** [POST /api/ingest]: the [multer] configuration *)

(** The [file] object [multer] builds from [busboy]'s 'file' event and
    hands to the callbacks below: [originalname] is the base name of the
    file name the client sent, [mimetype] the type [busboy] read from the
    part's Content-Type. *)
Definition busboy_file (sent : Part) : Part :=
  {| part_field := part_field sent;
     part_filename := Busboy.basename (part_filename sent);
     part_mimetype := busboy_mimeType rt (part_mimetype sent);
     part_bytes := part_bytes sent |}.

(** [fileFilter]: [cb(null, true)] for a PDF, [cb(new Error(...), false)]
    for anything else. *)
Definition fileFilter (file : Part) : Outcome bool :=
  if String.eqb (part_mimetype file) "application/pdf"
  then Returned true
  else Thrown (plain_error "Only PDF files are allowed").

(** [limits.fileSize] *)
Definition fileSize : Z := 50 * 1024 * 1024.

(** [storage.destination] *)
Definition storage_destination (file : Part) : string := UPLOADS_DIR.

(** [storage.filename] *)
Definition storage_filename (file : Part) : M string :=
  t ← tick;
  let uniqueSuffix := pretty (date_now rt t) +:+ "-" +:+ pretty (math_random_1E9 rt t) in
  mret (uniqueSuffix +:+ path_extname rt (part_filename file)).

(** **** The [multer] engine

    The middleware itself is library code; what follows is its behaviour on
    the parts of one request, after [make-middleware] and the disk storage
    engine of multer 1.4.5 on busboy 1.x.

    [multer.diskStorage]'s [_handleFile]: ask the two callbacks, then pipe
    the part (cut by busboy once it reaches [limits.fileSize] bytes) into
    [path.join(destination, filename)]. *)
Definition handleFile (file : Part) : M MulterFile :=
  let dest := storage_destination file in
  name ← storage_filename file;
  let finalPath := path_join rt [dest; name] in
  let written := Z.min (part_bytes file) fileSize in
  t ← tick;
  _ ← fs_write (Fs.write_file dest finalPath
                  {| Fs.size := written; Fs.mtimeMs := date_now rt t |});
  mret {| fieldname := part_field file;
          originalname := part_filename file;
          mimetype := part_mimetype file;
          path := finalPath;
          size := written |}.

(** [removeUploadedFiles]: unlink what this request stored; failures are
    collected as [storageErrors], never raised. *)
Fixpoint removeUploadedFiles (uploaded : list MulterFile) : M unit :=
  match uploaded with
  | [] => mret tt
  | f :: rest =>
      _ ← try_catch (fs_write (Fs.unlink (path f))) (fun _ => mret tt);
      removeUploadedFiles rest
  end.

(** [abortWithError]: clean up, then pass the error to [next]. *)
Definition abortWith {A} (uploaded : list MulterFile) (e : JSError) : M A :=
  _ ← removeUploadedFiles uploaded; throw e.

(** The parts of one multipart request, in arrival order.

    A text field goes to [req.body], which the route never reads; it
    aborts the request when it has no name ('Field name missing') or when
    [busboy] had to cut its name or its value.

    A file part without a file name is passed over.  For the others,
    [filesLeft] counts what the one accepted field may still take; any
    other field has none left ('Unexpected field').  A part the filter
    refuses with an error, a part that cannot be written and a part whose
    length reaches the limit ('File too large': [busboy] signals the limit
    as soon as it has counted [limits.fileSize] bytes) abort the request.

    An error of [busboy] itself ([failure]) aborts the request as well. *)
Fixpoint multer_files (field : string) (filesLeft : nat)
    (uploaded : list MulterFile) (items : list FormItem) (failure : option JSError)
    : M (list MulterFile) :=
  match items with
  | [] =>
      match failure with
      | Some e => abortWith uploaded e
      | None => mret uploaded
      end
  | FieldItem name nameTruncated valueTruncated :: rest =>
      match name with
      | None => abortWith uploaded (plain_error "Field name missing")
      | Some _ =>
          if nameTruncated then abortWith uploaded (plain_error "Field name too long")
          else if valueTruncated
          then abortWith uploaded (plain_error "Field value too long")
          else multer_files field filesLeft uploaded rest failure
      end
  | FileItem sent :: rest =>
      let file := busboy_file sent in
      if String.eqb (part_filename file) "" then
        multer_files field filesLeft uploaded rest failure
      else
        match (if String.eqb (part_field file) field then filesLeft else 0%nat) with
        | O => abortWith uploaded (plain_error "Unexpected field")
        | S remaining =>
            match fileFilter file with
            | Thrown e => abortWith uploaded e
            | Returned false => multer_files field remaining uploaded rest failure
            | Returned true =>
                stored ← attempt (handleFile file);
                match stored with
                | Thrown e => abortWith uploaded e
                | Returned info =>
                    if fileSize <=? part_bytes file
                    then abortWith (uploaded ++ [info]) (plain_error "File too large")
                    else multer_files field remaining (uploaded ++ [info]) rest failure
                end
            end
        end
  end.

(** [upload.array(field, maxCount)]: [req.files] for the handler. *)
Definition upload_array (field : string) (maxCount : nat) (req : IngestRequest)
    : M (option (list MulterFile)) :=
  match req with
  | NotMultipart => mret None
  | Multipart items failure =>
      files ← multer_files field maxCount [] items failure; mret (Some files)
  end.

(** **** The route handler *)

Definition form_part (file : MulterFile) : FormPart :=
  {| fp_field := "files"; fp_source := path file;
     fp_filename := originalname file; fp_contentType := "application/pdf" |}.

Definition ingested_entry (f : MulterFile) : JSValue :=
  obj [("file", JStr (originalname f));
       ("path", JStr (path f));
       ("ingested_pages", JStr "unknown")].

(** [!req.files || req.files.length === 0] *)
Definition no_files (req_files : option (list MulterFile)) : bool :=
  match req_files with
  | None | Some [] => true
  | Some (_ :: _) => false
  end.

Definition ingest_handler (req_files : option (list MulterFile)) : M Response :=
  try_catch
    (if no_files req_files then
       mret (res_status_json 400 (obj [("error", JStr "No files uploaded")]))
     else
       let files := default [] req_files in
       let formData := map form_part files in
       try_catch
         (response ← axios_post (PYTHON_API_URL rt +:+ "/ingest") (FormBody formData);
          mret (res_json (data response)))
         (fun apiError =>
            mret (res_json (obj [("ingested", JArr (map ingested_entry files))]))))
    (fun error => mret (res_status_json 500 (obj [("error", JStr (message error))]))).

(** [app.post('/api/ingest', upload.array('files', 10), handler)].  A
    [Thrown] outcome is the error [multer] hands to Express's own error
    handler; the route handler is not entered then. *)
Definition ingest (req : IngestRequest) : M Response :=
  req_files ← upload_array "files" 10 req;
  ingest_handler req_files.

(** *** The JSON passthrough routes *)

(** [const { ... } = req.body]: a [TypeError] when the body is [undefined]
    or [null] (worded after the value), the named properties otherwise. *)
Definition destructure (req_body : JSValue) (k : string) : M JSValue :=
  if nullish req_body
  then throw (plain_error ("Cannot destructure property '" +:+ k
                           +:+ "' of 'req.body' as it is "
                           +:+ match req_body with
                               | JNull => "null"
                               | _ => "undefined"
                               end +:+ "."))
  else mret (prop req_body k).

(** [error.response?.status || 500] *)
Definition error_status (error : JSError) : Z :=
  match response error with
  | Some r => if status r =? 0 then 500 else status r
  | None => 500
  end.

(** [error.response?.data?.detail || error.message] *)
Definition error_detail (error : JSError) : JSValue :=
  js_or (match response error with
         | Some r => opt_prop (data r) "detail"
         | None => JUndefined
         end)
        (JStr (message error)).

(** The [catch] block the five passthrough routes share word for word. *)
Definition catch_upstream (error : JSError) : M Response :=
  mret (res_status_json (error_status error) (obj [("error", error_detail error)])).

Definition bad_request (msg : string) : Response :=
  res_status_json 400 (obj [("error", JStr msg)]).

(** [POST /api/document/ask] *)
Definition document_ask (req_body : JSValue) : M Response :=
  try_catch
    (docPath ← destructure req_body "path";
     question ← destructure req_body "question";
     if negb (truthy docPath) || negb (truthy question) then
       mret (bad_request "Document path and question are required")
     else
       response ← axios_post (PYTHON_API_URL rt +:+ "/document/ask")
                    (JsonBody (obj [("path", docPath); ("question", question)]));
       mret (res_json (data response)))
    catch_upstream.

(** [POST /api/synthesis] *)
Definition synthesis (req_body : JSValue) : M Response :=
  try_catch
    (query ← destructure req_body "query";
     if negb (truthy query) then
       mret (bad_request "Query is required")
     else
       response ← axios_post (PYTHON_API_URL rt +:+ "/synthesis")
                    (JsonBody (obj [("query", query)]));
       mret (res_json (data response)))
    catch_upstream.

(** [POST /api/layman] *)
Definition layman (req_body : JSValue) : M Response :=
  try_catch
    (docPath ← destructure req_body "path";
     if negb (truthy docPath) then
       mret (bad_request "Document path is required")
     else
       response ← axios_post (PYTHON_API_URL rt +:+ "/layman")
                    (JsonBody (obj [("path", docPath)]));
       mret (res_json (data response)))
    catch_upstream.

(** [POST /api/related-papers] *)
Definition related_papers (req_body : JSValue) : M Response :=
  try_catch
    (docPath ← destructure req_body "path";
     limit ← destructure req_body "limit";
     if negb (truthy docPath) then
       mret (bad_request "Document path is required")
     else
       response ← axios_post (PYTHON_API_URL rt +:+ "/related-papers")
                    (JsonBody (obj [("path", docPath);
                                    ("limit", js_or limit (JNum 10))]));
       mret (res_json (data response)))
    catch_upstream.

(** [POST /api/semantic-scholar/search] *)
Definition semantic_scholar_search (req_body : JSValue) : M Response :=
  try_catch
    (query ← destructure req_body "query";
     limit ← destructure req_body "limit";
     if negb (truthy query) then
       mret (bad_request "Search query is required")
     else
       response ← axios_post (PYTHON_API_URL rt +:+ "/semantic-scholar/search")
                    (JsonBody (obj [("query", query);
                                    ("limit", js_or limit (JNum 10))]));
       mret (res_json (data response)))
    catch_upstream.

(** *** Routing *)

(** The five passthrough routes. *)
Inductive Passthrough : Type :=
  | Ask              (** [POST /api/document/ask] *)
  | Synthesis        (** [POST /api/synthesis] *)
  | Layman           (** [POST /api/layman] *)
  | RelatedPapers    (** [POST /api/related-papers] *)
  | CitationSearch.          (** [POST /api/semantic-scholar/search] *)

Definition passthrough (r : Passthrough) : JSValue -> M Response :=
  match r with
  | Ask => document_ask
  | Synthesis => synthesis
  | Layman => layman
  | RelatedPapers => related_papers
  | CitationSearch => semantic_scholar_search
  end.

(** The world after one more request has gone upstream. *)
Definition sent (c : UpCall) (w : World) : World :=
  {| store := store w; calls := calls w ++ [c]; clock := clock w |}.

(** The request a passthrough route sends upstream for a body it accepts. *)
Definition forwarded (r : Passthrough) (req_body : JSValue) : UpCall :=
  let post route payload :=
    {| method := POST; url := PYTHON_API_URL rt +:+ route; body := JsonBody payload |} in
  match r with
  | Ask =>
      post "/document/ask" (obj [("path", prop req_body "path");
                                 ("question", prop req_body "question")])
  | Synthesis =>
      post "/synthesis" (obj [("query", prop req_body "query")])
  | Layman =>
      post "/layman" (obj [("path", prop req_body "path")])
  | RelatedPapers =>
      post "/related-papers" (obj [("path", prop req_body "path");
                                   ("limit", js_or (prop req_body "limit") (JNum 10))])
  | CitationSearch =>
      post "/semantic-scholar/search"
           (obj [("query", prop req_body "query");
                 ("limit", js_or (prop req_body "limit") (JNum 10))])
  end.

(** What a passthrough route makes of the upstream answer. *)
Definition relayed (o : Outcome AxiosResponse) : Response :=
  match o with
  | Returned response => res_json (data response)
  | Thrown error =>
      res_status_json (error_status error) (obj [("error", error_detail error)])
  end.

(** The record of the local listing for the entry [name] with stats [st]:
    name, path, size in bytes, modification time in seconds. *)
Definition local_record (name : string) (st : Fs.Stats) : JSValue :=
  obj [("name", JStr name);
       ("path", JStr (path_join rt [UPLOADS_DIR; name]));
       ("size", JNum (inject_Z (Fs.size st)));
       ("updated", JNum (Qmake (Fs.mtimeMs st) 1000))].

(** The listing request of [GET /api/uploads]. *)
Definition uploads_call : UpCall :=
  {| method := GET; url := PYTHON_API_URL rt +:+ "/uploads"; body := NoBody |}.

(** The answer of [POST /api/ingest] to a request without files. *)
Definition no_files_uploaded : Response :=
  res_status_json 400 (obj [("error", JStr "No files uploaded")]).

(** The forwarding request of [POST /api/ingest] for the stored [files]. *)
Definition ingest_call (files : list MulterFile) : UpCall :=
  {| method := POST; url := PYTHON_API_URL rt +:+ "/ingest";
     body := FormBody (map form_part files) |}.

End Server.

(** The fields each passthrough route requires, as the specification lists
    them: document path for ask, summary and related papers, question for
    ask, query for synthesis and search. *)
Definition required_fields (r : Passthrough) : list string :=
  match r with
  | Ask => ["path"; "question"]
  | Synthesis => ["query"]
  | Layman => ["path"]
  | RelatedPapers => ["path"]
  | CitationSearch => ["query"]
  end.

(** ** Vocabulary of the statements *)

(** The path of each passthrough route on the upstream service. *)
Definition upstream_route (r : Passthrough) : string :=
  match r with
  | Ask => "/document/ask"
  | Synthesis => "/synthesis"
  | Layman => "/layman"
  | RelatedPapers => "/related-papers"
  | CitationSearch => "/semantic-scholar/search"
  end.

(** The fields a passthrough route puts in the body it sends upstream. *)
Definition forwarded_fields (r : Passthrough) : list string :=
  match r with
  | RelatedPapers | CitationSearch => required_fields r ++ ["limit"]
  | _ => required_fields r
  end.

(** The message of the 400 each passthrough route answers with. *)
Definition validation_message (r : Passthrough) : string :=
  match r with
  | Ask => "Document path and question are required"
  | Synthesis => "Query is required"
  | Layman | RelatedPapers => "Document path is required"
  | CitationSearch => "Search query is required"
  end.

(** A route's own validation, as one test over its required fields. *)
Definition passes_validation (r : Passthrough) (req_body : JSValue) : bool :=
  forallb (fun k => truthy (prop req_body k)) (required_fields r).

(** The file parts of a multipart body that [multer] takes up, as the
    client sent them (it passes over a part whose file name has an empty
    base name). *)
Definition file_parts (items : list FormItem) : list Part :=
  omap (fun item =>
          match item with
          | FileItem sent =>
              if String.eqb (Busboy.basename (part_filename sent)) "" then None
              else Some sent
          | FieldItem _ _ _ => None
          end) items.

(** Why [multer] may refuse the parts of a request with the error [e],
    when the accepted [field] can still take [filesLeft] files: a cause
    among the file parts, a cause among the text fields, or the error of
    the parser. *)
Definition rejection_cause (rt : Runtime) (field : string) (filesLeft : nat)
    (items : list FormItem) (failure : option JSError) (e : JSError) : Prop :=
  (e = plain_error "Unexpected field" ∧
   ((∃ p, p ∈ file_parts items ∧ part_field p ≠ field)
    ∨ (filesLeft < length (file_parts items))%nat))
  ∨ (e = plain_error "Only PDF files are allowed" ∧
     ∃ p, p ∈ file_parts items ∧
          busboy_mimeType rt (part_mimetype p) ≠ "application/pdf")
  ∨ (e = plain_error "File too large" ∧
     ∃ p, p ∈ file_parts items ∧ 50 * 1024 * 1024 ≤ part_bytes p)
  ∨ (∃ p w0 w1, p ∈ file_parts items ∧
                handleFile rt (busboy_file rt p) w0 = (Thrown e, w1))
  ∨ (e = plain_error "Field name missing" ∧
     ∃ nameTruncated valueTruncated,
       FieldItem None nameTruncated valueTruncated ∈ items)
  ∨ (e = plain_error "Field name too long" ∧
     ∃ name valueTruncated, FieldItem (Some name) true valueTruncated ∈ items)
  ∨ (e = plain_error "Field value too long" ∧
     ∃ name, FieldItem (Some name) false true ∈ items)
  ∨ failure = Some e.

(** While [multer] works on a request that started on disk [s0]: whatever
    the disk [s] holds beyond [s0] is one of the files stored so far, and
    none of those paths is empty or a directory. *)
Definition tracked (s0 s : Fs.Store) (uploaded : list MulterFile) : Prop :=
  (∀ p n, s !! p = Some n → s0 !! p = Some n ∨ ∃ f, f ∈ uploaded ∧ path f = p) ∧
  (∀ f, f ∈ uploaded → path f ≠ "" ∧ ∀ st, s !! path f ≠ Some (Fs.Dir st)).

(** ** A concrete runtime

    A POSIX instance of the runtime, for running the handlers on examples:
    Node's [path] functions on '/'-separated names, percent coding of
    single-byte characters, a clock that stands still and a random source
    that counts. *)

Module Demo.

(** Split at each '/'. *)
Fixpoint split_slash (cur : string) (s : string) : list string :=
  match s with
  | EmptyString => [cur]
  | String c s' =>
      if Ascii.eqb c "/"%char then cur :: split_slash "" s'
      else split_slash (cur +:+ String c EmptyString) s'
  end.

(** Node's [normalizeString]: drop empty and '.' segments, let '..' cancel
    the segment before it; [done] is the output so far, innermost first. *)
Fixpoint normalize_segments (allowAbove : bool) (done : list string)
    (segs : list string) : list string :=
  match segs with
  | [] => rev done
  | seg :: rest =>
      if String.eqb seg "" || String.eqb seg "." then
        normalize_segments allowAbove done rest
      else if String.eqb seg ".." then
        match done with
        | top :: below =>
            if String.eqb top ".."
            then normalize_segments allowAbove (seg :: done) rest
            else normalize_segments allowAbove below rest
        | [] =>
            if allowAbove then normalize_segments allowAbove [seg] rest
            else normalize_segments allowAbove [] rest
        end
      else normalize_segments allowAbove (seg :: done) rest
  end.

Definition is_absolute (p : string) : bool :=
  match p with String c _ => Ascii.eqb c "/"%char | EmptyString => false end.

(** [path.normalize] *)
Definition normalize (p : string) : string :=
  if String.eqb p "" then "." else
  let absolute := is_absolute p in
  let trailing := endsWith p "/" in
  let body := join "/" (normalize_segments (negb absolute) [] (split_slash "" p)) in
  if String.eqb body "" then
    (if absolute then "/" else if trailing then "./" else ".")
  else
    (if absolute then "/" else "") +:+ body +:+ (if trailing then "/" else "").

(** [path.join] *)
Definition posix_join (segs : list string) : string :=
  let joined := join "/" (List.filter (fun seg => negb (String.eqb seg "")) segs) in
  if String.eqb joined "" then "." else normalize joined.

(** [path.resolve] from the working directory [cwd] (absolute): the
    segments are taken from the right until an absolute one is met. *)
Fixpoint resolve_right (cwd : string) (rsegs : list string) (acc : string) : string :=
  match rsegs with
  | [] => cwd +:+ "/" +:+ acc
  | seg :: rest =>
      if String.eqb seg "" then resolve_right cwd rest acc
      else if is_absolute seg then seg +:+ "/" +:+ acc
      else resolve_right cwd rest (seg +:+ "/" +:+ acc)
  end.

Definition posix_resolve (cwd : string) (segs : list string) : string :=
  "/" +:+ join "/" (normalize_segments false []
                      (split_slash "" (resolve_right cwd (rev segs) ""))).

(** The last index of '.' in [s] at or after position [i]. *)
Fixpoint last_dot (i : nat) (s : string) : option nat :=
  match s with
  | EmptyString => None
  | String c s' =>
      match last_dot (S i) s' with
      | Some j => Some j
      | None => if Ascii.eqb c "."%char then Some i else None
      end
  end.

(** [path.extname]: from the last '.' of the base name, unless the name
    starts with it. *)
Definition posix_extname (p : string) : string :=
  let base := List.last (split_slash "" p) "" in
  match last_dot 0 base with
  | Some (S i) =>
      if String.eqb base ".." then ""
      else String.substring (S i) (String.length base - S i) base
  | _ => ""
  end.

Definition uri_malformed : JSError := plain_error "URI malformed".

Definition hex_value (c : ascii) : option N :=
  let n := N_of_ascii c in
  if ((48 <=? n) && (n <=? 57))%N then Some (n - 48)%N
  else if ((65 <=? n) && (n <=? 70))%N then Some (n - 55)%N
  else if ((97 <=? n) && (n <=? 102))%N then Some (n - 87)%N
  else None.

(** [decodeURIComponent] on escapes of single-byte characters; any other
    escape is refused as malformed. *)
Fixpoint decode_uri (s : string) : Outcome string :=
  match s with
  | EmptyString => Returned ""
  | String c s' =>
      if Ascii.eqb c "%"%char then
        match s' with
        | String h (String l s'') =>
            match hex_value h, hex_value l with
            | Some a, Some b =>
                if (a <? 8)%N then
                  match decode_uri s'' with
                  | Returned r => Returned (String (ascii_of_N (16 * a + b)) r)
                  | Thrown e => Thrown e
                  end
                else Thrown uri_malformed
            | _, _ => Thrown uri_malformed
            end
        | _ => Thrown uri_malformed
        end
      else
        match decode_uri s' with
        | Returned r => Returned (String c r)
        | Thrown e => Thrown e
        end
  end.

Definition hex_digit (n : N) : ascii :=
  ascii_of_N (if (n <? 10)%N then 48 + n else 55 + n).

Definition unreserved (c : ascii) : bool :=
  let n := N_of_ascii c in
  ((48 <=? n) && (n <=? 57))%N || ((65 <=? n) && (n <=? 90))%N
  || ((97 <=? n) && (n <=? 122))%N
  || existsb (Ascii.eqb c) (String.list_ascii_of_string "-_.!~*'()").

(** [encodeURIComponent] on byte strings. *)
Fixpoint encode_bytes (s : string) : string :=
  match s with
  | EmptyString => ""
  | String c s' =>
      if unreserved c then String c (encode_bytes s')
      else
        let n := N_of_ascii c in
        String "%"%char (String (hex_digit (n / 16)) (String (hex_digit (n mod 16))
          (encode_bytes s')))
  end.

Definition encode_uri (s : string) : Outcome string :=
  Returned (encode_bytes s).

Definition lower (c : ascii) : ascii :=
  let n := N_of_ascii c in
  if (65 <=? n)%N && (n <=? 90)%N then ascii_of_N (n + 32) else c.

(** The text before the first ';' or blank, in lower case. *)
Fixpoint media_type (s : string) : string :=
  match s with
  | EmptyString => ""
  | String c s' =>
      if existsb (Ascii.eqb c) [";"; " "; "009"]%char then ""
      else String (lower c) (media_type s')
  end.

(** The type of a part: 'type/subtype' without its parameters, in lower
    case, and text/plain when the header has no such thing. *)
Definition mime_type (header : string) : string :=
  let t := media_type header in
  match String.index 0 "/" t with
  | Some _ => t
  | None => "text/plain"
  end.

(** The server as installed in [/srv/athena/backend], talking to the
    upstream service [up] at the default address. *)
Definition runtime (up : UpCall -> Outcome AxiosResponse) : Runtime :=
  {| path_join := posix_join;
     path_resolve := posix_resolve "/srv/athena/backend";
     path_extname := posix_extname;
     decodeURIComponent := decode_uri;
     encodeURIComponent := encode_uri;
     date_now := fun _ => 1704067200000;
     math_random_1E9 := fun n => 123456789 + Z.of_nat n;
     toISOString := fun _ => "2024-01-01T00:00:00.000Z";
     upstream := up;
     busboy_mimeType := mime_type;
     __dirname := "/srv/athena/backend";
     PYTHON_API_URL := "http://localhost:8000" |}.

(** An upstream service that cannot be reached. *)
Definition offline (c : UpCall) : Outcome AxiosResponse :=
  Thrown (plain_error "connect ECONNREFUSED 127.0.0.1:8000").

(** An upstream service that answers every call with [status] and [data]
    outside 2xx, so that [axios] raises. *)
Definition failing (status : Z) (data : JSValue) (c : UpCall) : Outcome AxiosResponse :=
  Thrown {| message := "Request failed with status code " +:+ pretty status;
            response := Some {| JS.status := status; JS.data := data |} |}.

Definition pdf (bytes mtime : Z) : Fs.Node :=
  Fs.File {| Fs.size := bytes; Fs.mtimeMs := mtime |}.
Definition folder : Fs.Node :=
  Fs.Dir {| Fs.size := 4096; Fs.mtimeMs := 1704000000000 |}.

(** A disk with two stored PDFs and a stray text file. *)
Definition disk : Fs.Store :=
  list_to_map [("/srv/athena/uploads", folder);
               ("/srv/athena/uploads/1700000000000-1.pdf", pdf 1000 1700000000000);
               ("/srv/athena/uploads/1700000000500-2.pdf", pdf 2500 1700000000500);
               ("/srv/athena/uploads/notes.txt", pdf 12 1700000001000)].

Definition world (s : Fs.Store) : World := {| store := s; calls := []; clock := 0 |}.

(** A file part in the field the ingest route reads. *)
Definition part (name type : string) (bytes : Z) : Part :=
  {| part_field := "files"; part_filename := name; part_mimetype := type;
     part_bytes := bytes |}.



End Demo.

(** The deletion as the specification words it: for every request, the
    first candidate path that exists is deleted. *)
Definition deletes_first_existing (rt : Runtime) (param : string) (w : World) : Prop :=
  ∀ filename before p after,
    decodeURIComponent rt param = Returned filename →
    possiblePaths rt filename = (before ++ p :: after)%list →
    (∀ q, q ∈ before → Fs.access q (store w) ≠ Returned tt) →
    Fs.access p (store w) = Returned tt →
    ∃ outcome w',
      delete_upload rt param w = (outcome, w') ∧ store w' !! p = None.

(** What a record of the local listing must carry for the entry [name]:
    its name, its storage path, its size in bytes and its last-modified
    time (in seconds, as the upstream listing reports it). *)
Definition describes (rt : Runtime) (s : Fs.Store) (name : string) (r : JSValue) : Prop :=
  ∃ st, Fs.stat (path_join rt [UPLOADS_DIR rt; name]) s = Returned st ∧
        prop r "name" = JStr name ∧
        prop r "path" = JStr (path_join rt [UPLOADS_DIR rt; name]) ∧
        prop r "size" = JNum (inject_Z (Fs.size st)) ∧
        prop r "updated" = JNum (Qmake (Fs.mtimeMs st) 1000).

(** The fallback as the specification words it: whenever the upstream
    listing call fails, the route answers 200 with the '.pdf' entries of
    the upload directory. *)
Definition fallback_always_lists (rt : Runtime) (w : World) : Prop :=
  ∀ e, upstream rt (uploads_call rt) = Thrown e →
    ∃ resp w' names records,
      list_uploads rt w = (Returned resp, w') ∧
      code resp = 200 ∧
      Fs.readdir (UPLOADS_DIR rt) (store w) = Returned names ∧
      prop (payload resp) "files" = JArr records ∧
      Forall2 (describes rt (store w))
              (List.filter (fun f => endsWith f ".pdf") names) records.

(** What [multer] hands to the route handler for the parts of a request
    (the empty list when it rejects them), and the world afterwards. *)
Definition stored_by_multer (rt : Runtime) (items : list FormItem) (w : World)
    : list MulterFile * World :=
  match multer_files rt "files" 10 [] items None w with
  | (Returned files, w') => (files, w')
  | (Thrown _, w') => ([], w')
  end.

(** * The React frontend

    The views keep their state with [useState] and talk to the proxy with
    [fetch].  A handler is embedded as a function from the state it starts
    in to the state it leaves and the requests it sent; the browser's own
    functions are the fields of [Browser]. *)

Module Frontend.

(** An error as a [catch] block sees it. *)
Record BrowserError : Type := { err_name : string; err_message : string }.

(** [new Error(msg)] *)
Definition new_Error (msg : string) : BrowserError :=
  {| err_name := "Error"; err_message := msg |}.

(** A [fetch] call with a JSON body, if any. *)
Record FetchRequest : Type :=
  { fr_method : Method; fr_url : string; fr_json : option JSValue }.

(** What the handlers read of a response: [ok], [status] and the outcome
    of [response.json()]. *)
Record FetchResponse : Type :=
  { ok : bool; http_status : Z; json : BrowserError + JSValue }.

Inductive FetchResult : Type :=
  | Rejected (e : BrowserError)
  | Resolved (r : FetchResponse).

Record Browser : Type := {
  (** [String.prototype.trim] *)
  trim : string -> string;
  (** [Number.prototype.toString] *)
  Number_toString : Q -> string;
  (** the message of the [TypeError] for reading a property of [null] or
      [undefined] *)
  null_property : string -> string;
  fetch : FetchRequest -> FetchResult;
  API_BASE : string
}.

(** [s.includes(sub)] *)
Fixpoint includes (s sub : string) : bool :=
  if String.prefix sub s then true
  else match s with
       | EmptyString => false
       | String _ s' => includes s' sub
       end.

(** ToString, as in [new Error(v)] and in template literals. *)
Fixpoint ToString (num : Q -> string) (v : JSValue) : string :=
  match v with
  | JUndefined => "undefined"
  | JNull => "null"
  | JBool b => if b then "true" else "false"
  | JNum q => num q
  | JStr s => s
  | JArr xs =>
      join "," (List.map (fun x => match x with
                                   | JUndefined | JNull => ""
                                   | _ => ToString num x
                                   end) xs)
  | JObj _ => "[object Object]"
  end.

(** [JSON.parse(JSON.stringify(v))] for [v] other than [undefined]: an
    [undefined] property is dropped, an [undefined] element becomes
    [null]. *)
Fixpoint jsonify (v : JSValue) : JSValue :=
  match v with
  | JArr xs =>
      JArr (List.map (fun x => match jsonify x with
                               | JUndefined => JNull
                               | y => y
                               end) xs)
  | JObj fields =>
      JObj (omap (fun x => match jsonify x with
                           | JUndefined => None
                           | y => Some y
                           end) fields)
  | _ => v
  end.

(** [v.k], which raises on [null] and [undefined]. *)
Definition read (b : Browser) (v : JSValue) (k : string) : BrowserError + JSValue :=
  if nullish v
  then inl {| err_name := "TypeError"; err_message := null_property b k |}
  else inr (prop v k).

(** ** [App]: the theme *)

(** What the theme code touches of the browser. *)
Record Page : Type := {
  localStorage : gmap string string;
  data_theme : option string      (** the attribute on the document element *)
}.

(** The initial [isDarkMode]: [localStorage.getItem('athena-theme') === 'dark']. *)
Definition initial_isDarkMode (page : Page) : bool :=
  match localStorage page !! "athena-theme" with
  | Some theme => String.eqb theme "dark"
  | None => false
  end.

(** The effect run whenever [isDarkMode] has changed (and on mount). *)
Definition theme_effect (isDarkMode : bool) (page : Page) : Page :=
  let theme := if isDarkMode then "dark" else "light" in
  {| localStorage := <["athena-theme" := theme]> (localStorage page);
     data_theme := Some theme |}.

(** [toggleTheme], followed by its effect. *)
Definition toggleTheme (isDarkMode : bool) (page : Page) : bool * Page :=
  (negb isDarkMode, theme_effect (negb isDarkMode) page).

(** ** [App]: the upload list *)

(** The request of [fetchUploads]. *)
Definition uploads_request (b : Browser) : FetchRequest :=
  {| fr_method := GET; fr_url := API_BASE b +:+ "/uploads"; fr_json := None |}.

(** [fetchUploads]: the new value of [uploads]. *)
Definition fetchUploads (b : Browser) (uploads : JSValue) : JSValue * list FetchRequest :=
  let request := {| fr_method := GET; fr_url := API_BASE b +:+ "/uploads";
                    fr_json := None |} in
  (match fetch b request with
   | Rejected _ => uploads
   | Resolved response =>
       match json response with
       | inl _ => uploads
       | inr data =>
           match read b data "files" with
           | inl _ => uploads
           | inr files => js_or files (JArr [])
           end
       end
   end, [request]).

(** ** [App] and [Sidebar]: uploading *)

(** A [File] of the file input. *)
Record BrowserFile : Type := { file_name : string; file_type : string; file_size : Z }.

(** [Sidebar]'s [handleFileSelect]: the files handed to [onFileUpload], if
    it is called. *)
Definition handleFileSelect (files : option (list BrowserFile)) : option (list BrowserFile) :=
  match files with
  | Some (f :: rest) => Some (f :: rest)
  | _ => None
  end.

(** The multipart body [handleFileUpload] builds: every file under the
    field 'files'.  A file without a type travels as
    application/octet-stream. *)
Definition upload_parts (files : list BrowserFile) : list Part :=
  List.map (fun file =>
         {| part_field := "files";
            part_filename := file_name file;
            part_mimetype := if String.eqb (file_type file) ""
                             then "application/octet-stream" else file_type file;
            part_bytes := file_size file |}) files.

(** ** [SynthesisView] *)

Record SynthesisState : Type :=
  { query : string; result : JSValue; synthesis_loading : bool; synthesis_error : JSValue }.

(** [errorData.error || errorData.detail || fallback] on the body of a
    response that is not ok, where a body that does not parse counts as
    [{ error: 'Unknown error' }]; then [throw new Error(...)]. *)
Definition error_of_response (b : Browser) (fallback : string) (response : FetchResponse)
    : BrowserError :=
  let errorData := match json response with
                   | inr data => data
                   | inl _ => obj [("error", JStr "Unknown error")]
                   end in
  match read b errorData "error" with
  | inl type_error => type_error
  | inr error =>
      new_Error (ToString (Number_toString b)
                   (js_or (js_or error (prop errorData "detail")) (JStr fallback)))
  end.

(** The [try] block of the three views that show the server's message:
    the data of an ok response, or what is thrown. *)
Definition try_fetch (b : Browser) (request : FetchRequest) (fallback : Z -> string)
    : BrowserError + JSValue :=
  match fetch b request with
  | Rejected e => inl e
  | Resolved response =>
      if ok response then json response
      else inl (error_of_response b (fallback (http_status response)) response)
  end.

(** [err.name === 'TypeError' && err.message.includes('fetch')] *)
Definition is_network_error (err : BrowserError) : bool :=
  String.eqb (err_name err) "TypeError" && includes (err_message err) "fetch".

(** [s || fallback] on strings *)
Definition or_string (s fallback : string) : string :=
  if String.eqb s "" then fallback else s.

Definition network_error_message : string :=
  "Network error: Could not connect to server. Please ensure the backend is running.".

(** The [catch] block of [SynthesisView]'s [handleSubmit]. *)
Definition synthesis_catch (err : BrowserError) : string :=
  if is_network_error err then network_error_message
  else if includes (err_message err) "OPENAI_API_KEY" || includes (err_message err) "OpenAI"
  then "OpenAI API key not configured. Please set OPENAI_API_KEY in your .env file or environment variables."
  else or_string (err_message err)
         "Synthesis failed. Make sure documents are ingested and OpenAI API key is configured.".

(** [SynthesisView]'s [handleSubmit]. *)
Definition synthesis_submit (b : Browser) (st : SynthesisState)
    : SynthesisState * list FetchRequest :=
  if String.eqb (trim b (query st)) "" then (st, [])
  else
    let request :=
      {| fr_method := POST; fr_url := API_BASE b +:+ "/synthesis";
         fr_json := Some (obj [("query", JStr (trim b (query st)))]) |} in
    (match try_fetch b request (fun status => "Synthesis failed: " +:+ pretty status) with
     | inr data =>
         {| query := query st; result := data;
            synthesis_loading := false; synthesis_error := JNull |}
     | inl err =>
         {| query := query st; result := JNull;
            synthesis_loading := false; synthesis_error := JStr (synthesis_catch err) |}
     end, [request]).

(** ** [RelatedPapers] *)

Record RelatedState : Type :=
  { searchQuery : string; results : JSValue; relatedPapers : JSValue;
    related_loading : bool; related_error : JSValue }.

(** The [catch] block the two handlers of [RelatedPapers] share but for
    the last message. *)
Definition related_catch (fallback : string) (err : BrowserError) : string :=
  if is_network_error err then network_error_message
  else or_string (err_message err) fallback.

(** [handleRelatedPapers], for the [selectedFile] the view was given. *)
Definition handleRelatedPapers (b : Browser) (selectedFile : JSValue) (st : RelatedState)
    : RelatedState * list FetchRequest :=
  if negb (truthy selectedFile) then
    ({| searchQuery := searchQuery st; results := results st;
        relatedPapers := relatedPapers st; related_loading := related_loading st;
        related_error := JStr "Please select a document first" |}, [])
  else
    let request :=
      {| fr_method := POST; fr_url := API_BASE b +:+ "/related-papers";
         fr_json := Some (obj [("path", selectedFile); ("limit", JNum 10)]) |} in
    (match try_fetch b request
             (fun status => "Failed to find related papers: " +:+ pretty status) with
     | inr data =>
         {| searchQuery := searchQuery st; results := JNull; relatedPapers := data;
            related_loading := false; related_error := JNull |}
     | inl err =>
         {| searchQuery := searchQuery st; results := JNull;
            relatedPapers := relatedPapers st; related_loading := false;
            related_error := JStr (related_catch
              "Failed to find related papers. Please check if Semantic Scholar API key is configured."
              err) |}
     end, [request]).

(** [handleSearch] *)
Definition handleSearch (b : Browser) (st : RelatedState)
    : RelatedState * list FetchRequest :=
  if String.eqb (trim b (searchQuery st)) "" then (st, [])
  else
    let request :=
      {| fr_method := POST; fr_url := API_BASE b +:+ "/semantic-scholar/search";
         fr_json := Some (obj [("query", JStr (trim b (searchQuery st)));
                               ("limit", JNum 10)]) |} in
    (match try_fetch b request (fun status => "Search failed: " +:+ pretty status) with
     | inr data =>
         match read b data "results" with
         | inr found =>
             {| searchQuery := searchQuery st; results := js_or found (JArr []);
                relatedPapers := JNull; related_loading := false;
                related_error := JNull |}
         | inl err =>
             {| searchQuery := searchQuery st; results := results st;
                relatedPapers := JNull; related_loading := false;
                related_error := JStr (related_catch
                  "Search failed. Please check if Semantic Scholar API key is configured."
                  err) |}
         end
     | inl err =>
         {| searchQuery := searchQuery st; results := results st;
            relatedPapers := JNull; related_loading := false;
            related_error := JStr (related_catch
              "Search failed. Please check if Semantic Scholar API key is configured."
              err) |}
     end, [request]).

(** What can happen to the view: the text of the search box changes, or
    one of the two searches is started (with the [selectedFile] of the
    moment). *)
Inductive RelatedEvent : Type :=
  | TypeQuery (text : string)
  | ClickFindRelated (selectedFile : JSValue)
  | SubmitSearch.

Definition related_step (b : Browser) (st : RelatedState) (ev : RelatedEvent) : RelatedState :=
  match ev with
  | TypeQuery text =>
      {| searchQuery := text; results := results st; relatedPapers := relatedPapers st;
         related_loading := related_loading st; related_error := related_error st |}
  | ClickFindRelated selectedFile => (handleRelatedPapers b selectedFile st).1
  | SubmitSearch => (handleSearch b st).1
  end.

(** The state the view starts in. *)
Definition related_initial : RelatedState :=
  {| searchQuery := ""; results := JNull; relatedPapers := JNull;
     related_loading := false; related_error := JNull |}.

(** Not both panes at once. *)
Definition one_pane (st : RelatedState) : Prop :=
  truthy (results st) && truthy (relatedPapers st) = false.

(** ** [DocumentQA] *)

Record QAState : Type :=
  { question : string; answer : JSValue; qa_loading : bool; qa_error : JSValue }.

(** [selectedFile || (uploads.length > 0 ? uploads[0].path : null)] for
    [uploads] an array. *)
Definition fileToUse (b : Browser) (selectedFile : JSValue) (uploads : list JSValue)
    : BrowserError + JSValue :=
  if truthy selectedFile then inr selectedFile
  else match uploads with
       | first :: _ => read b first "path"
       | [] => inr JNull
       end.

(** [DocumentQA]'s [handleSubmit]. *)
Definition qa_submit (b : Browser) (fileToUse : JSValue) (st : QAState)
    : QAState * list FetchRequest :=
  if String.eqb (trim b (question st)) "" || negb (truthy fileToUse) then (st, [])
  else
    let request :=
      {| fr_method := POST; fr_url := API_BASE b +:+ "/document/ask";
         fr_json := Some (obj [("path", fileToUse);
                               ("question", JStr (trim b (question st)))]) |} in
    (match (match fetch b request with
            | Rejected e => inl e
            | Resolved response =>
                if ok response then json response
                else inl (new_Error "Failed to get answer")
            end) with
     | inr data =>
         {| question := question st; answer := data; qa_loading := false;
            qa_error := JNull |}
     | inl err =>
         {| question := question st; answer := JNull; qa_loading := false;
            qa_error := JStr (err_message err) |}
     end, [request]).

End Frontend.

(** ** The proxy as the views reach it *)

(** The POST routes of the proxy that take a JSON body, by path. *)
Definition post_routes : list (string * Passthrough) :=
  [ ("/api/document/ask", Ask);
    ("/api/synthesis", Synthesis);
    ("/api/layman", Layman);
    ("/api/related-papers", RelatedPapers);
    ("/api/semantic-scholar/search", CitationSearch) ].

(** The response as [fetch] sees it: [ok] for 2xx, and the payload after
    [res.json] has serialised it and [response.json()] parsed it back ([res.json(undefined)]
    leaves nothing to parse). *)
Definition wire (resp : Response) : Frontend.FetchResponse :=
  {| Frontend.ok := (200 <=? code resp) && (code resp <=? 299);
     Frontend.http_status := code resp;
     Frontend.json := match payload resp with
                      | JUndefined =>
                          inl {| Frontend.err_name := "SyntaxError";
                                 Frontend.err_message := "Unexpected end of JSON input" |}
                      | v => inr (Frontend.jsonify v)
                      end |}.

(** ** [SynthesisView]: the name of the downloaded report *)

Module Download.

(** [s.split(c)] for a one-character separator: [cur] is the segment being
    read. *)
Fixpoint split_from (c : ascii) (cur : string) (s : string) : list string :=
  match s with
  | EmptyString => [cur]
  | String a s' =>
      if Ascii.eqb a c then cur :: split_from c "" s'
      else split_from c (cur +:+ String a EmptyString) s'
  end.

Definition split (c : ascii) (s : string) : list string := split_from c "" s.

(** [xs.pop()] on what [split] returns (never empty). *)
Definition pop (xs : list string) : string := List.last xs "".

(** [s.includes(c)] for a one-character [c]. *)
Fixpoint has (c : ascii) (s : string) : bool :=
  match s with
  | EmptyString => false
  | String a s' => Ascii.eqb a c || has c s'
  end.

(** The [fileName] that [handleDownload] works out from [result.report],
    a string. *)
Definition fileName (report : string) : string :=
  if has "/" report then pop (split "/" report)
  else if has "\" report then pop (split "\" report)
  else if endsWith report ".tex" then report
  else "athena_report.tex".

End Download.

(** ** A browser to run the views in *)

Module DemoBrowser.

Import Frontend.

Definition is_space (c : ascii) : bool :=
  existsb (N.eqb (N_of_ascii c)) [9; 10; 11; 12; 13; 32]%N.

Fixpoint trim_start (s : string) : string :=
  match s with
  | EmptyString => ""
  | String c s' => if is_space c then trim_start s' else s
  end.

(** [trim] on single-byte white space. *)
Definition trim_ascii (s : string) : string :=
  String.rev (trim_start (String.rev (trim_start s))).

(** The answer of a route handler, as Express sends it. *)
Definition answer_of (run : Outcome Response * World) : Response :=
  match run.1 with
  | Returned resp => resp
  | Thrown e => res_status_json 500 (JStr "Internal Server Error")
  end.

Definition not_found : FetchResult :=
  Resolved {| ok := false; http_status := 404;
              json := inl {| err_name := "SyntaxError";
                             err_message := "Unexpected token '<'" |} |}.

(** [fetch] against the proxy running on [origin] with runtime [rt] in
    world [w]. *)
Definition proxy_fetch (rt : Runtime) (w : World) (origin : string)
    (request : FetchRequest) : FetchResult :=
  match fr_method request, fr_json request with
  | GET, _ =>
      if String.eqb (fr_url request) (origin +:+ "/api/uploads")
      then Resolved (wire (answer_of (list_uploads rt w)))
      else not_found
  | POST, Some sent_json =>
      match List.find (fun route => String.eqb (fr_url request) (origin +:+ route.1))
                      post_routes with
      | Some route =>
          Resolved (wire (answer_of (passthrough rt route.2 (jsonify sent_json) w)))
      | None => not_found
      end
  | _, _ => not_found
  end.

(** A browser on the default address of the proxy. *)
Definition browser (fetch : FetchRequest -> FetchResult) : Browser :=
  {| trim := trim_ascii;
     Number_toString := fun q => pretty (Qnum q / Zpos (Qden q));
     null_property := fun k => "Cannot read properties of null (reading '" +:+ k +:+ "')";
     Frontend.fetch := fetch;
     API_BASE := "http://localhost:3001/api" |}.

(** No connection at all. *)
Definition unreachable (request : FetchRequest) : FetchResult :=
  Rejected {| err_name := "TypeError"; err_message := "Failed to fetch" |}.

End DemoBrowser.

(** A request of a view that the proxy takes on its route [r] and hands on
    to the upstream service, whatever the runtime and the world: the path
    is one of the proxy's, and the body, once parsed by [express.json()],
    passes the route's validation. *)
Definition reaches_upstream (b : Frontend.Browser) (request : Frontend.FetchRequest)
    (r : Passthrough) : Prop :=
  ∃ suffix sent_json,
    Frontend.fr_method request = POST ∧
    Frontend.fr_url request = Frontend.API_BASE b +:+ suffix ∧
    ("/api" +:+ suffix, r) ∈ post_routes ∧
    Frontend.fr_json request = Some sent_json ∧
    ∀ (rt : Runtime) (w : World),
      ∃ resp,
        passthrough rt r (Frontend.jsonify sent_json) w
        = (Returned resp, sent (forwarded rt r (Frontend.jsonify sent_json)) w).


(** * Properties *)

(** ** Running the monad *)

Ltac unfold_M :=
  unfold try_catch, attempt, lift, fs_read, fs_write, tick, throw,
         mbind, mret, M_bind, M_ret in *.

(** Reading a field of an object literal. *)
Ltac read_obj :=
  unfold res_json, res_status_json, bad_request, obj, prop; simpl;
  repeat (rewrite lookup_insert_ne by discriminate);
  rewrite ?lookup_insert_eq; try reflexivity.

(** ** Health check *)

Section Health.

Variable rt : Runtime.

(** C6.  The health route always answers 200 with [status] 'ok';
    [python_api] is 'connected' when the upstream ping succeeded and
    'disconnected' when it failed, and the route never raises. *)
Theorem health_always_ok (w : World) :
  ∃ resp w',
    health rt w = (Returned resp, w') ∧
    code resp = 200 ∧
    prop (payload resp) "status" = JStr "ok" ∧
    prop (payload resp) "python_api" =
      JStr (match upstream rt (health_call rt) with
            | Returned _ => "connected"
            | Thrown _ => "disconnected"
            end).
Proof.
  unfold health, new_Date_toISOString, axios_get, axios. unfold_M.
  fold (health_call rt).
  destruct (upstream rt (health_call rt)) as [r | e]; simpl;
    eexists; eexists; (split; [reflexivity |]);
    (split; [reflexivity |]); split; read_obj.
Qed.

End Health.

(** ** Passthrough routes: validation *)

Section Validation.

Variable rt : Runtime.

Lemma prop_absent (fields : gmap string JSValue) (k : string) :
  fields !! k = None → prop (JObj fields) k = JUndefined.
Proof. intros H. unfold prop. by rewrite H. Qed.

Lemma destructure_object (fields : gmap string JSValue) (k : string) (w : World) :
  destructure (JObj fields) k w = (Returned (prop (JObj fields) k), w).
Proof. reflexivity. Qed.

(** C2.  A request body (the JSON object [express.json()] delivers) that
    lacks a field its route requires is answered 400 with the route's
    [error] message; the world is left as it was, so nothing went upstream,
    and the handler returns rather than raises. *)
Theorem missing_field_is_400 (r : Passthrough) (fields : gmap string JSValue)
    (k : string) (w : World) :
  k ∈ required_fields r →
  fields !! k = None →
  ∃ resp,
    passthrough rt r (JObj fields) w = (Returned resp, w) ∧
    code resp = 400 ∧
    prop (payload resp) "error"
    = JStr (match r with
            | Ask => "Document path and question are required"
            | Synthesis => "Query is required"
            | Layman | RelatedPapers => "Document path is required"
            | CitationSearch => "Search query is required"
            end).
Proof.
  intros Hk Hnone.
  destruct r; simpl in Hk;
    rewrite ?elem_of_cons, elem_of_nil in Hk;
    destruct Hk as [-> | Hk]; try destruct Hk as [-> | []]; try done;
    simpl; unfold document_ask, synthesis, layman, related_papers,
           semantic_scholar_search;
    unfold try_catch, mbind, M_bind; rewrite !destructure_object;
    rewrite (prop_absent _ _ Hnone); simpl; rewrite ?orb_true_r;
    eexists; (split; [reflexivity |]); (split; [reflexivity | read_obj]).
Qed.

End Validation.

Lemma missing_field_is_400_witness :
  let body : gmap string JSValue :=
    {["path" := JStr "/srv/athena/uploads/1700000000000-1.pdf"]} in
  "question" ∈ required_fields Ask ∧
  body !! "question" = None ∧
  ∃ resp,
    passthrough (Demo.runtime Demo.offline) Ask (JObj body) (Demo.world Demo.disk)
    = (Returned resp, Demo.world Demo.disk) ∧
    code resp = 400 ∧
    prop (payload resp) "error" = JStr "Document path and question are required".
Proof.
  assert (H1 : "question" ∈ required_fields Ask)
    by (apply list_elem_of_In; simpl; tauto).
  assert (H2 : ({["path" := JStr "/srv/athena/uploads/1700000000000-1.pdf"]}
                  : gmap string JSValue) !! "question" = None)
    by (vm_compute; reflexivity).
  split; [exact H1 | split; [exact H2 |]].
  exact (missing_field_is_400 (Demo.runtime Demo.offline) Ask _ "question"
           (Demo.world Demo.disk) H1 H2).
Defined.

(** An empty body, and a body that is an array, lack every field. *)
Example empty_bodies_are_400 :
  let rt := Demo.runtime Demo.offline in
  let w := Demo.world Demo.disk in
  ∀ r, (passthrough rt r (obj []) w).2 = w ∧ (passthrough rt r (JArr []) w).2 = w
       ∧ code (default (res_json JNull)
                 (match (passthrough rt r (JArr []) w).1 with
                  | Returned resp => Some resp
                  | Thrown _ => None
                  end)) = 400.
Proof. intros rt w r. destruct r; vm_compute; repeat split; reflexivity. Qed.

(** ** Passthrough routes: forwarding and upstream failures *)

Section Forwarding.

Variable rt : Runtime.

(** With its required fields truthy, a route sends exactly one request,
    [forwarded], and relays the answer. *)
Lemma passthrough_forwards (r : Passthrough) (fields : gmap string JSValue) (w : World) :
  (∀ k, k ∈ required_fields r → truthy (prop (JObj fields) k) = true) →
  passthrough rt r (JObj fields) w
  = (Returned (relayed (upstream rt (forwarded rt r (JObj fields)))),
     sent (forwarded rt r (JObj fields)) w).
Proof.
  intros Hreq.
  assert (Hfield : ∀ k, k ∈ required_fields r →
            negb (truthy (prop (JObj fields) k)) = false)
    by (intros k Hk; by rewrite (Hreq k Hk)).
  destruct r; cbn [passthrough];
    unfold document_ask, synthesis, layman, related_papers,
           semantic_scholar_search, catch_upstream, axios_post, axios, forwarded, sent;
    unfold try_catch, mbind, mret, M_bind, M_ret; rewrite !destructure_object;
    rewrite ?(Hfield "path"), ?(Hfield "question"), ?(Hfield "query")
      by (apply list_elem_of_In; simpl; tauto);
    cbn [orb];
    match goal with |- context [upstream rt ?c] => destruct (upstream rt c) end;
    reflexivity.
Qed.

End Forwarding.

Section UpstreamFailure.

Variable rt : Runtime.

Lemma prop_error_payload (v : JSValue) :
  prop (obj [("error", v)]) "error" = v.
Proof. read_obj. Qed.

Lemma opt_prop_is_prop (v : JSValue) (k : string) : opt_prop v k = prop v k.
Proof. by destruct v. Qed.

(** C8.  With the required fields present, a failed upstream call is
    answered, not raised.  The response code is the upstream status when
    the error carries an upstream response and 500 otherwise; the [error]
    field is the [detail] of the upstream payload when there is one (a
    truthy one) and the local error message otherwise. *)
Theorem upstream_failure_is_mapped (r : Passthrough) (fields : gmap string JSValue)
    (w : World) (e : JSError) :
  (∀ k, k ∈ required_fields r → truthy (prop (JObj fields) k) = true) →
  upstream rt (forwarded rt r (JObj fields)) = Thrown e →
  ∃ resp w',
    passthrough rt r (JObj fields) w = (Returned resp, w') ∧
    (∀ answer, response e = Some answer → status answer ≠ 0 →
       code resp = status answer) ∧
    (∀ answer, response e = Some answer →
       truthy (prop (data answer) "detail") = true →
       prop (payload resp) "error" = prop (data answer) "detail") ∧
    (response e = None →
       code resp = 500 ∧ prop (payload resp) "error" = JStr (message e)) ∧
    (∀ answer, response e = Some answer →
       truthy (prop (data answer) "detail") = false →
       prop (payload resp) "error" = JStr (message e)).
Proof.
  intros Hreq Hfail.
  rewrite (passthrough_forwards rt r fields w Hreq), Hfail.
  eexists; eexists; split; [reflexivity |].
  cbn [relayed code payload res_status_json]. rewrite prop_error_payload.
  unfold error_status, error_detail, js_or.
  split; [| split; [| split]].
  - intros answer -> Hnz. apply Z.eqb_neq in Hnz. by rewrite Hnz.
  - intros answer -> Hdetail. by rewrite opt_prop_is_prop, Hdetail.
  - by intros ->.
  - intros answer -> Hdetail. by rewrite opt_prop_is_prop, Hdetail.
Qed.

(** C10.  The related-papers and citation-search routes forward
    [limit: 10] when the caller left [limit] out or sent a falsy one, and
    the caller's own [limit] when it is truthy. *)
Theorem limit_defaults_to_10 (r : Passthrough) (fields : gmap string JSValue)
    (w : World) :
  r = RelatedPapers ∨ r = CitationSearch →
  (∀ k, k ∈ required_fields r → truthy (prop (JObj fields) k) = true) →
  ∃ o w' forwarded_body,
    passthrough rt r (JObj fields) w = (o, w') ∧
    calls w' = (calls w ++
      [ {| method := POST;
           url := PYTHON_API_URL rt +:+
                  (if r is RelatedPapers then "/related-papers"
                   else "/semantic-scholar/search");
           body := JsonBody forwarded_body |} ])%list ∧
    (fields !! "limit" = None → prop forwarded_body "limit" = JNum 10) ∧
    (∀ l, fields !! "limit" = Some l → truthy l = false →
       prop forwarded_body "limit" = JNum 10) ∧
    (∀ l, fields !! "limit" = Some l → truthy l = true →
       prop forwarded_body "limit" = l).
Proof.
  intros Hr Hreq.
  rewrite (passthrough_forwards rt r fields w Hreq).
  destruct Hr as [-> | ->]; cbn [forwarded sent calls];
    eexists; eexists; eexists; (split; [reflexivity |]);
    (split; [reflexivity |]);
    (assert (Hlimit : ∀ a b : JSValue, ∀ k : string,
               prop (obj [(k, a); ("limit", b)]) "limit" = b ∨ k = "limit")
       by (intros a b k; destruct (decide (k = "limit")) as [-> | Hne];
           [by right | left; unfold obj, prop; simpl;
                       rewrite lookup_insert_ne by done;
                       by rewrite lookup_insert_eq]));
    match goal with
    | |- context [obj [(?k, ?a); ("limit", ?b)]] =>
        destruct (Hlimit a b k) as [-> | Habs]; [| discriminate Habs]
    end;
    unfold js_or, prop; (split; [| split]).
  all: try (intros ->; reflexivity).
  all: intros l -> Hl; cbn [default id]; by rewrite Hl.
Qed.

End UpstreamFailure.

(** Membership in a short literal list, case by case. *)
Ltac each_field Hk :=
  apply list_elem_of_In in Hk; simpl in Hk;
  repeat (destruct Hk as [<- | Hk]; [vm_compute; reflexivity |]);
  destruct Hk.

Lemma upstream_failure_is_mapped_witness :
  let rt := Demo.runtime (Demo.failing 404 (obj [("detail", JStr "Document not found")])) in
  let fields : gmap string JSValue :=
    list_to_map [("path", JStr "/srv/athena/uploads/gone.pdf");
                 ("question", JStr "What is the main result?")] in
  let e := {| message := "Request failed with status code 404";
              response := Some {| status := 404;
                                  data := obj [("detail", JStr "Document not found")] |} |} in
  (∀ k, k ∈ required_fields Ask → truthy (prop (JObj fields) k) = true) ∧
  upstream rt (forwarded rt Ask (JObj fields)) = Thrown e ∧
  ∃ resp w',
    passthrough rt Ask (JObj fields) (Demo.world Demo.disk) = (Returned resp, w') ∧
    (∀ answer, response e = Some answer → status answer ≠ 0 →
       code resp = status answer) ∧
    (∀ answer, response e = Some answer →
       truthy (prop (data answer) "detail") = true →
       prop (payload resp) "error" = prop (data answer) "detail") ∧
    (response e = None →
       code resp = 500 ∧ prop (payload resp) "error" = JStr (message e)) ∧
    (∀ answer, response e = Some answer →
       truthy (prop (data answer) "detail") = false →
       prop (payload resp) "error" = JStr (message e)).
Proof.
  intros rt fields e.
  assert (H1 : ∀ k, k ∈ required_fields Ask → truthy (prop (JObj fields) k) = true)
    by (intros k Hk; each_field Hk).
  assert (H2 : upstream rt (forwarded rt Ask (JObj fields)) = Thrown e)
    by (vm_compute; reflexivity).
  split; [exact H1 | split; [exact H2 |]].
  exact (upstream_failure_is_mapped rt Ask fields (Demo.world Demo.disk) e H1 H2).
Defined.

Lemma limit_defaults_to_10_witness :
  let rt := Demo.runtime Demo.offline in
  let fields : gmap string JSValue :=
    list_to_map [("query", JStr "retrieval augmented generation"); ("limit", JNum 0)] in
  (CitationSearch = RelatedPapers ∨ CitationSearch = CitationSearch) ∧
  (∀ k, k ∈ required_fields CitationSearch → truthy (prop (JObj fields) k) = true) ∧
  ∃ o w' forwarded_body,
    passthrough rt CitationSearch (JObj fields) (Demo.world Demo.disk) = (o, w') ∧
    calls w' = (calls (Demo.world Demo.disk) ++
      [ {| method := POST;
           url := PYTHON_API_URL rt +:+ "/semantic-scholar/search";
           body := JsonBody forwarded_body |} ])%list ∧
    (fields !! "limit" = None → prop forwarded_body "limit" = JNum 10) ∧
    (∀ l, fields !! "limit" = Some l → truthy l = false →
       prop forwarded_body "limit" = JNum 10) ∧
    (∀ l, fields !! "limit" = Some l → truthy l = true →
       prop forwarded_body "limit" = l).
Proof.
  intros rt fields.
  assert (H1 : CitationSearch = RelatedPapers ∨ CitationSearch = CitationSearch)
    by (right; reflexivity).
  assert (H2 : ∀ k, k ∈ required_fields CitationSearch → truthy (prop (JObj fields) k) = true)
    by (intros k Hk; each_field Hk).
  split; [exact H1 | split; [exact H2 |]].
  exact (limit_defaults_to_10 rt CitationSearch fields (Demo.world Demo.disk) H1 H2).
Defined.

(** Three upstream failures of the summary route: an answer with a
    [detail], an answer without one (the status is kept, the message is the
    local one), and no answer at all. *)
Example upstream_failures :
  let body := obj [("path", JStr "/srv/athena/uploads/1700000000000-1.pdf")] in
  let answer rt := (layman rt body (Demo.world Demo.disk)).1 in
  answer (Demo.runtime (Demo.failing 404 (obj [("detail", JStr "Document not found")])))
  = Returned (res_status_json 404 (obj [("error", JStr "Document not found")]))
  ∧ answer (Demo.runtime (Demo.failing 502 (JStr "<html>Bad Gateway</html>")))
  = Returned (res_status_json 502 (obj [("error",
               JStr "Request failed with status code 502")]))
  ∧ answer (Demo.runtime Demo.offline)
  = Returned (res_status_json 500 (obj [("error",
               JStr "connect ECONNREFUSED 127.0.0.1:8000")])).
Proof. vm_compute. repeat split; reflexivity. Qed.

(** A [limit] of 0 is falsy, so it is replaced by 10; a [limit] of 25 is kept. *)
Example limit_zero_becomes_10 :
  let rt := Demo.runtime Demo.offline in
  let sends (limit : JSValue) :=
    calls (related_papers rt (obj [("path", JStr "/srv/athena/uploads/a.pdf");
                                   ("limit", limit)]) (Demo.world Demo.disk)).2 in
  sends (JNum 0) = sends (JNum 10) ∧ sends JNull = sends (JNum 10)
  ∧ sends (JStr "") = sends (JNum 10) ∧ sends (JNum 25) ≠ sends (JNum 10).
Proof. vm_compute. repeat split; try reflexivity. discriminate. Qed.

(** ** Ingest *)

Section Ingest.

Variable rt : Runtime.

(** C9.  An ingest request without files, whether it is not multipart at
    all ([req.files] undefined) or multipart with an empty file list, is
    answered 400 'No files uploaded'; the world is left as it was, so
    nothing went upstream. *)
Theorem ingest_without_files (w : World) :
  ingest_handler rt None w = (Returned no_files_uploaded, w) ∧
  ingest_handler rt (Some []) w = (Returned no_files_uploaded, w) ∧
  ingest rt NotMultipart w = (Returned no_files_uploaded, w) ∧
  ingest rt (Multipart [] None) w = (Returned no_files_uploaded, w) ∧
  code no_files_uploaded = 400 ∧
  prop (payload no_files_uploaded) "error" = JStr "No files uploaded".
Proof.
  repeat split.
Qed.

Lemma ingested_entry_fields (f : MulterFile) :
  prop (ingested_entry f) "file" = JStr (originalname f) ∧
  prop (ingested_entry f) "path" = JStr (path f) ∧
  prop (ingested_entry f) "ingested_pages" = JStr "unknown".
Proof. unfold ingested_entry. repeat split; read_obj. Qed.

Lemma ingest_handler_upstream_down (files : list MulterFile) (w : World) (e : JSError) :
  files ≠ [] →
  upstream rt (ingest_call rt files) = Thrown e →
  ingest_handler rt (Some files) w
  = (Returned (res_json (obj [("ingested", JArr (map ingested_entry files))])),
     sent (ingest_call rt files) w).
Proof.
  intros Hne Hdown. destruct files as [| f files]; [done |].
  unfold ingest_call in Hdown.
  unfold ingest_handler, axios_post, axios, sent, ingest_call. unfold_M.
  cbn [no_files default id]. by rewrite Hdown.
Qed.

(** C5.  When [multer] has stored at least one file and the forwarding
    call to the upstream ingest endpoint fails, the route still answers
    200: one entry per stored file, in order, with the file's original
    name, its local path and [ingested_pages] 'unknown'. *)
Theorem ingest_upstream_down (req : IngestRequest) (w w1 : World)
    (files : list MulterFile) (e : JSError) :
  upload_array rt "files" 10 req w = (Returned (Some files), w1) →
  files ≠ [] →
  upstream rt (ingest_call rt files) = Thrown e →
  ∃ resp records,
    ingest rt req w = (Returned resp, sent (ingest_call rt files) w1) ∧
    code resp = 200 ∧
    prop (payload resp) "ingested" = JArr records ∧
    Forall2 (fun f r => prop r "file" = JStr (originalname f) ∧
                        prop r "path" = JStr (path f) ∧
                        prop r "ingested_pages" = JStr "unknown")
            files records.
Proof.
  intros Hstored Hne Hdown.
  exists (res_json (obj [("ingested", JArr (map ingested_entry files))])),
         (map ingested_entry files).
  split; [| split; [reflexivity | split; [read_obj |]]].
  - unfold ingest. unfold mbind, M_bind. rewrite Hstored.
    by apply ingest_handler_upstream_down with e.
  - clear. induction files as [| f files IH]; constructor; [| exact IH].
    apply ingested_entry_fields.
Qed.

End Ingest.

(** ** The upload middleware *)

Section Multer.

Variable rt : Runtime.

Lemma fs_lookup_nonempty (p : string) (s : Fs.Store) :
  p ≠ "" → Fs.lookup p s = s !! p.
Proof.
  intros Hp. unfold Fs.lookup.
  destruct (String.eqb p "") eqn:E; [| reflexivity].
  apply String.eqb_eq in E. contradiction.
Qed.

Lemma tracked_start (s : Fs.Store) : tracked s s [].
Proof.
  split; [by left |]. intros f Hf. by apply elem_of_nil in Hf.
Qed.

Lemma tracked_done (s0 s : Fs.Store) : tracked s0 s [] → s ⊆ s0.
Proof.
  intros [Ha _]. apply map_subseteq_spec. intros p n Hp.
  destruct (Ha p n Hp) as [H0 | (f & Hf & _)]; [exact H0 |].
  by apply elem_of_nil in Hf.
Qed.

Lemma tracked_insert (s0 s : Fs.Store) (uploaded : list MulterFile)
    (info : MulterFile) (st : Fs.Stats) :
  path info ≠ "" →
  tracked s0 s uploaded →
  tracked s0 (<[path info := Fs.File st]> s) (uploaded ++ [info]).
Proof.
  intros Hne [Ha Hb]. split.
  - intros p n Hp. destruct (decide (path info = p)) as [<- | Hdiff].
    + right. exists info. split; [| reflexivity].
      apply elem_of_app. right. by apply list_elem_of_singleton.
    + rewrite lookup_insert_ne in Hp by done.
      destruct (Ha p n Hp) as [H0 | (f & Hf & Hpath)]; [by left |].
      right. exists f. split; [| exact Hpath]. apply elem_of_app. by left.
  - intros f Hf. apply elem_of_app in Hf as [Hf | Hf].
    + destruct (Hb f Hf) as [Hp Hdir]. split; [exact Hp |].
      intros st'. destruct (decide (path info = path f)) as [E | Hdiff].
      * rewrite <- E, lookup_insert_eq. discriminate.
      * rewrite lookup_insert_ne by done. apply Hdir.
    + apply list_elem_of_singleton in Hf as ->. split; [exact Hne |].
      intros st'. rewrite lookup_insert_eq. discriminate.
Qed.

Lemma tracked_delete (s0 s : Fs.Store) (f : MulterFile) (rest : list MulterFile) :
  tracked s0 s (f :: rest) → tracked s0 (delete (path f) s) rest.
Proof.
  intros [Ha Hb]. split.
  - intros p n Hp. apply lookup_delete_Some in Hp as [Hdiff Hp].
    destruct (Ha p n Hp) as [H0 | (f' & Hf' & Hpath)]; [by left |].
    right. exists f'. split; [| exact Hpath].
    apply elem_of_cons in Hf' as [-> | Hf']; [congruence | exact Hf'].
  - intros f' Hf'. destruct (Hb f' (list_elem_of_further _ _ _ Hf')) as [Hp Hdir].
    split; [exact Hp |]. intros st Hlook.
    apply lookup_delete_Some in Hlook as [_ Hlook]. by apply (Hdir st).
Qed.

Lemma tracked_absent (s0 s : Fs.Store) (f : MulterFile) (rest : list MulterFile) :
  s !! path f = None → tracked s0 s (f :: rest) → tracked s0 s rest.
Proof.
  intros Hnone [Ha Hb]. split.
  - intros p n Hp. destruct (Ha p n Hp) as [H0 | (f' & Hf' & Hpath)]; [by left |].
    right. exists f'. split; [| exact Hpath].
    apply elem_of_cons in Hf' as [-> | Hf']; [congruence | exact Hf'].
  - intros f' Hf'. apply Hb. by apply list_elem_of_further.
Qed.

(** Cleaning up after an abort leaves nothing of the request on the disk. *)
Lemma removeUploadedFiles_clean (s0 : Fs.Store) (uploaded : list MulterFile) (w : World) :
  tracked s0 (store w) uploaded →
  ∃ w', removeUploadedFiles uploaded w = (Returned tt, w')
        ∧ store w' ⊆ s0 ∧ calls w' = calls w.
Proof.
  revert w. induction uploaded as [| f rest IH]; intros w Htr.
  - exists w. split; [reflexivity | split; [by apply tracked_done | reflexivity]].
  - destruct (proj2 Htr f (list_elem_of_here _ _)) as [Hne Hdir].
    cbn [removeUploadedFiles]. unfold_M. unfold Fs.unlink.
    rewrite (fs_lookup_nonempty _ _ Hne).
    destruct (store w !! path f) as [[st | st |] |] eqn:Hlook.
    + apply tracked_delete in Htr.
      destruct (IH {| store := delete (path f) (store w); calls := calls w;
                      clock := clock w |} Htr) as (w' & Hrun & Hsub & Hcalls).
      exists w'. by rewrite Hrun.
    + by destruct (Hdir st).
    + apply tracked_delete in Htr.
      destruct (IH {| store := delete (path f) (store w); calls := calls w;
                      clock := clock w |} Htr) as (w' & Hrun & Hsub & Hcalls).
      exists w'. by rewrite Hrun.
    + apply (tracked_absent _ _ _ _ Hlook) in Htr.
      destruct (IH w Htr) as (w' & Hrun & Hsub & Hcalls).
      exists w'. by rewrite Hrun.
Qed.

Lemma abortWith_clean (s0 : Fs.Store) (uploaded : list MulterFile) (e : JSError)
    (w : World) :
  tracked s0 (store w) uploaded →
  ∃ w', abortWith uploaded e w = (@Thrown (list MulterFile) e, w')
        ∧ store w' ⊆ s0 ∧ calls w' = calls w.
Proof.
  intros Htr. destruct (removeUploadedFiles_clean s0 uploaded w Htr)
    as (w' & Hrun & Hsub & Hcalls).
  exists w'. unfold abortWith, throw, mbind, M_bind. by rewrite Hrun.
Qed.

(** What [handleFile] does to the world: on success exactly one file
    appears (or is overwritten) at the path it reports; on failure the disk
    is as before. *)
Lemma handleFile_spec (file : Part) (w : World) :
  ∃ o w1, handleFile rt file w = (o, w1) ∧ calls w1 = calls w ∧
    match o with
    | Thrown _ => store w1 = store w
    | Returned info =>
        (∃ st, store w1 = <[path info := Fs.File st]> (store w)) ∧
        path info ≠ "" ∧
        fieldname info = part_field file ∧
        originalname info = part_filename file ∧
        mimetype info = part_mimetype file ∧
        size info = Z.min (part_bytes file) fileSize
    end.
Proof.
  unfold handleFile, storage_filename, storage_destination. unfold_M.
  cbn [store clock calls]. unfold Fs.write_file.
  destruct (Fs.lookup (UPLOADS_DIR rt) (store w)) as [[dst | dst |] |];
    try (eexists; eexists; split; [reflexivity | split; reflexivity]).
  match goal with |- context [Fs.lookup ?p (store w)] =>
    destruct (Fs.lookup p (store w)) as [[st | st |] |];
    try (eexists; eexists; split; [reflexivity | split; reflexivity]);
    destruct (String.eqb p "") eqn:Hp;
    try (eexists; eexists; split; [reflexivity | split; reflexivity]);
    apply String.eqb_neq in Hp;
    (eexists; eexists; split; [reflexivity | split; [reflexivity |]]);
    cbn [path fieldname originalname mimetype size store];
    (split; [eexists; reflexivity | split; [exact Hp | done]])
  end.
Qed.

Lemma fileFilter_accepts (file : Part) (b : bool) :
  fileFilter file = Returned b → b = true ∧ part_mimetype file = "application/pdf".
Proof.
  unfold fileFilter. destruct (String.eqb _ _) eqn:E; [| discriminate].
  apply String.eqb_eq in E. intros [= <-]. by split.
Qed.

(** An aborted upload leaves the disk without any file of the request, and
    sends nothing upstream. *)
Lemma multer_files_abort (s0 : Fs.Store) (field : string) (failure : option JSError)
    (items : list FormItem) :
  ∀ (filesLeft : nat) (uploaded : list MulterFile) (w w' : World) (e : JSError),
    tracked s0 (store w) uploaded →
    multer_files rt field filesLeft uploaded items failure w = (Thrown e, w') →
    store w' ⊆ s0 ∧ calls w' = calls w.
Proof.
  induction items as [| item rest IH]; intros filesLeft uploaded w w' e Htr Hrun.
  - cbn [multer_files] in Hrun. destruct failure as [e0 |]; [| discriminate Hrun].
    destruct (abortWith_clean s0 uploaded e0 w Htr) as (w2 & Hw2 & Hsub & Hcalls).
    rewrite Hw2 in Hrun. by injection Hrun as _ <-.
  - assert (Habort : ∀ up e0 w0, tracked s0 (store w0) up →
              abortWith up e0 w0 = (@Thrown (list MulterFile) e, w') →
              store w' ⊆ s0 ∧ calls w' = calls w0).
    { intros up e0 w0 Hup Hab.
      destruct (abortWith_clean s0 up e0 w0 Hup) as (w2 & Hw2 & Hsub & Hcalls).
      rewrite Hw2 in Hab. by injection Hab as _ <-. }
    destruct item as [sent | [name |] [] []]; cbn [multer_files] in Hrun;
      try (by eapply Habort); try (by eapply IH).
    remember (busboy_file rt sent) as file eqn:Hfile.
    destruct (String.eqb (part_filename file) ""); [by eapply IH |].
    destruct (if String.eqb (part_field file) field then filesLeft else 0%nat)
      as [| remaining]; [by eapply Habort |].
    destruct (fileFilter file) as [[] | e1]; [| by eapply IH | by eapply Habort].
    unfold attempt, mbind, M_bind in Hrun.
    destruct (handleFile_spec file w) as (o & w1 & Hhandle & Hcalls1 & Hspec).
    rewrite Hhandle in Hrun. destruct o as [info | e1].
    + destruct Hspec as ((st & Hstore) & Hne & _).
      assert (Htr1 : tracked s0 (store w1) (uploaded ++ [info]))
        by (rewrite Hstore; by apply tracked_insert).
      rewrite <- Hcalls1.
      destruct (fileSize <=? part_bytes file); [by eapply Habort | by eapply IH].
    + rewrite <- Hspec in Htr. rewrite <- Hcalls1. by eapply Habort.
Qed.

Lemma abortWith_never_returns {A} (uploaded : list MulterFile) (e : JSError)
    (w w' : World) (a : A) :
  abortWith uploaded e w ≠ (Returned a, w').
Proof.
  unfold abortWith, throw, mbind, M_bind.
  destruct (removeUploadedFiles uploaded w) as [[] ?]; discriminate.
Qed.

(** An accepted upload stored every file part that has a file name, each
    of them announced as a PDF, shorter than the size limit and sent in
    the expected field, and no more of them than [filesLeft]. *)
Lemma multer_files_accepts (field : string) (failure : option JSError)
    (items : list FormItem) :
  ∀ (filesLeft : nat) (uploaded files : list MulterFile) (w w' : World),
    multer_files rt field filesLeft uploaded items failure w = (Returned files, w') →
    ∃ new, files = (uploaded ++ new)%list ∧ (length new ≤ filesLeft)%nat ∧
      Forall2 (fun p f => part_field p = field ∧
                          busboy_mimeType rt (part_mimetype p) = "application/pdf" ∧
                          part_bytes p < fileSize ∧
                          originalname f = Busboy.basename (part_filename p) ∧
                          mimetype f = "application/pdf" ∧
                          size f = part_bytes p)
              (file_parts items) new.
Proof.
  induction items as [| item rest IH]; intros filesLeft uploaded files w w' Hrun.
  - cbn [multer_files] in Hrun.
    destruct failure as [e0 |]; [by destruct (abortWith_never_returns _ _ _ _ _ Hrun) |].
    injection Hrun as <- <-. exists []. rewrite app_nil_r.
    repeat split; [simpl; lia | constructor].
  - destruct item as [sent | [name |] [] []]; cbn [multer_files] in Hrun;
      try (by destruct (abortWith_never_returns _ _ _ _ _ Hrun));
      try (by apply (IH _ _ _ _ _ Hrun)).
    unfold file_parts. cbn [omap list_omap].
    change (part_filename (busboy_file rt sent))
      with (Busboy.basename (part_filename sent)) in Hrun.
    destruct (String.eqb (Busboy.basename (part_filename sent)) "") eqn:Hname.
    { destruct (IH _ _ _ _ _ Hrun) as (new & -> & Hlen & Hall). by exists new. }
    change (part_field (busboy_file rt sent)) with (part_field sent) in Hrun.
    destruct (String.eqb (part_field sent) field) eqn:Hfield;
      [| by destruct (abortWith_never_returns _ _ _ _ _ Hrun)].
    apply String.eqb_eq in Hfield.
    destruct filesLeft as [| remaining];
      [by destruct (abortWith_never_returns _ _ _ _ _ Hrun) |].
    destruct (fileFilter (busboy_file rt sent)) as [b | e1] eqn:Hfilter;
      [| by destruct (abortWith_never_returns _ _ _ _ _ Hrun)].
    apply fileFilter_accepts in Hfilter as [-> Hmime].
    unfold attempt, mbind, M_bind in Hrun.
    destruct (handleFile_spec (busboy_file rt sent) w)
      as (o & w1 & Hhandle & _ & Hspec).
    rewrite Hhandle in Hrun.
    destruct o as [info | e1];
      [| by destruct (abortWith_never_returns _ _ _ _ _ Hrun)].
    change (part_bytes (busboy_file rt sent)) with (part_bytes sent) in Hrun.
    destruct (fileSize <=? part_bytes sent) eqn:Hsize;
      [by destruct (abortWith_never_returns _ _ _ _ _ Hrun) |].
    apply Z.leb_gt in Hsize.
    destruct Hspec as (_ & _ & _ & Horig & Htype & Hsz).
    cbn [busboy_file part_filename part_mimetype part_bytes] in Horig, Htype, Hsz, Hmime.
    destruct (IH _ _ _ _ _ Hrun) as (new & -> & Hlen & Hall).
    exists (info :: new). rewrite <- app_assoc. split; [reflexivity |].
    split; [simpl; lia |]. constructor; [| exact Hall].
    repeat split; try done; [congruence | rewrite Hsz; lia].
Qed.

(** The name under which [handleFile] stores a part at clock reading [t]:
    time stamp, random number, and the extension of the announced name. *)
Lemma handleFile_path (file : Part) (w w1 : World) (info : MulterFile) :
  handleFile rt file w = (Returned info, w1) →
  path info
  = path_join rt [UPLOADS_DIR rt;
                  (pretty (date_now rt (clock w)) +:+ "-"
                   +:+ pretty (math_random_1E9 rt (clock w)))
                  +:+ path_extname rt (part_filename file)].
Proof.
  unfold handleFile, storage_filename, storage_destination. unfold_M.
  cbn [store clock calls].
  destruct (Fs.write_file _ _ _ _); [| discriminate]. by intros [= <- _].
Qed.

(** What an accepted upload has done to the disk. *)
Lemma multer_files_stores (field : string) (failure : option JSError)
    (items : list FormItem) :
  ∀ (filesLeft : nat) (uploaded files : list MulterFile) (w w' : World),
    multer_files rt field filesLeft uploaded items failure w = (Returned files, w') →
    ∃ new, files = (uploaded ++ new)%list ∧
      calls w' = calls w ∧
      (∀ f, f ∈ new →
         (∃ st, store w' !! path f = Some (Fs.File st)) ∧
         ∃ t, path f
              = path_join rt [UPLOADS_DIR rt;
                              (pretty (date_now rt t) +:+ "-"
                               +:+ pretty (math_random_1E9 rt t))
                              +:+ path_extname rt (originalname f)]) ∧
      (∀ p, p ∉ path <$> new → store w' !! p = store w !! p).
Proof.
  induction items as [| item rest IH]; intros filesLeft uploaded files w w' Hrun.
  - cbn [multer_files] in Hrun.
    destruct failure as [e0 |]; [by destruct (abortWith_never_returns _ _ _ _ _ Hrun) |].
    injection Hrun as <- <-. exists []. rewrite app_nil_r.
    split; [reflexivity |]. split; [reflexivity |].
    split; [| reflexivity]. intros f Hf. by apply elem_of_nil in Hf.
  - destruct item as [sent | [name |] [] []]; cbn [multer_files] in Hrun;
      try (by destruct (abortWith_never_returns _ _ _ _ _ Hrun));
      try (by apply (IH _ _ _ _ _ Hrun)).
    remember (busboy_file rt sent) as file eqn:Hfile.
    destruct (String.eqb (part_filename file) ""); [by eapply IH |].
    destruct (if String.eqb (part_field file) field then filesLeft else 0%nat)
      as [| remaining]; [by destruct (abortWith_never_returns _ _ _ _ _ Hrun) |].
    destruct (fileFilter file) as [[] | e1];
      [| by eapply IH | by destruct (abortWith_never_returns _ _ _ _ _ Hrun)].
    unfold attempt, mbind, M_bind in Hrun.
    destruct (handleFile rt file w) as [o w1] eqn:Hhandle.
    destruct (handleFile_spec file w) as (o' & w1' & Hhandle' & Hcalls & Hspec).
    rewrite Hhandle in Hhandle'. injection Hhandle' as <- <-.
    destruct o as [info | e1];
      [| by destruct (abortWith_never_returns _ _ _ _ _ Hrun)].
    destruct (fileSize <=? part_bytes file);
      [by destruct (abortWith_never_returns _ _ _ _ _ Hrun) |].
    destruct Hspec as ((st & Hstore) & _ & _ & Horig & _).
    destruct (IH _ _ _ _ _ Hrun) as (new & -> & Hcalls' & Hfiles & Hother).
    exists (info :: new). rewrite <- app_assoc. split; [reflexivity |].
    split; [congruence |]. split.
    + intros f Hf. apply elem_of_cons in Hf as [-> | Hf]; [| by apply Hfiles].
      split.
      * destruct (decide (path info ∈ path <$> new)) as [Hin | Hout].
        -- apply list_elem_of_fmap in Hin as (f' & Hpath & Hf').
           rewrite Hpath. by apply Hfiles.
        -- rewrite (Hother _ Hout), Hstore, lookup_insert_eq. by exists st.
      * exists (clock w). rewrite Horig. by apply (handleFile_path file w w1 info).
    + intros p Hp. rewrite fmap_cons in Hp. apply not_elem_of_cons in Hp as [Hne Hp].
      rewrite (Hother p Hp), Hstore. by rewrite lookup_insert_ne.
Qed.

Lemma rejected_upload (items : list FormItem) (failure : option JSError) (w : World) :
  (∀ files w', multer_files rt "files" 10 [] items failure w ≠ (Returned files, w')) →
  ∃ e w', ingest rt (Multipart items failure) w = (Thrown e, w')
          ∧ store w' ⊆ store w ∧ calls w' = calls w.
Proof.
  intros Hnot. unfold ingest, upload_array, mbind, M_bind.
  destruct (multer_files rt "files" 10 [] items failure w) as [[files | e] w'] eqn:Hrun.
  - by destruct (Hnot files w').
  - exists e, w'. split; [reflexivity |].
    eapply multer_files_abort; [apply tracked_start | exact Hrun].
Qed.

Lemma Forall2_and_right {A B} (P : A → B → Prop) (Q : B → Prop)
    (xs : list A) (ys : list B) :
  Forall2 P xs ys → (∀ y, y ∈ ys → Q y) → Forall2 (fun x y => P x y ∧ Q y) xs ys.
Proof.
  induction 1 as [| x y xs ys Hxy Hrest IH]; intros HQ; constructor.
  - split; [exact Hxy | apply HQ, list_elem_of_here].
  - apply IH. intros z Hz. by apply HQ, list_elem_of_further.
Qed.

(** C4.  [upload.array('files', 10)] with the PDF filter and the 50 MiB
    limit, for every multipart body.  A request is accepted only if it
    carries at most 10 files, each announced by [busboy] as
    application/pdf and shorter than 50 MiB (so of at most 50 MiB), and
    then each of them is a file on the disk, reported with its length and
    the base name of the client's file name.  A request with a file of
    another type or of 50 MiB or more (so any file above the ceiling), or
    with more than 10 files, is rejected with an error before the route
    handler runs; afterwards the disk holds nothing it did not hold before
    the request, so the file is not stored, and nothing was sent
    upstream. *)
Theorem upload_limits (items : list FormItem) (failure : option JSError) (w : World) :
  (∀ files w',
     upload_array rt "files" 10 (Multipart items failure) w
     = (Returned (Some files), w') →
     (length files ≤ 10)%nat ∧
     Forall2 (fun p f => (busboy_mimeType rt (part_mimetype p) = "application/pdf" ∧
                          part_bytes p < 50 * 1024 * 1024 ∧
                          originalname f = Busboy.basename (part_filename p) ∧
                          mimetype f = "application/pdf" ∧
                          size f = part_bytes p) ∧
                         ∃ st, store w' !! path f = Some (Fs.File st))
             (file_parts items) files) ∧
  (∀ p, p ∈ file_parts items →
     busboy_mimeType rt (part_mimetype p) ≠ "application/pdf"
     ∨ 50 * 1024 * 1024 ≤ part_bytes p →
     ∃ e w', ingest rt (Multipart items failure) w = (Thrown e, w')
             ∧ store w' ⊆ store w ∧ calls w' = calls w) ∧
  ((10 < length (file_parts items))%nat →
     ∃ e w', ingest rt (Multipart items failure) w = (Thrown e, w')
             ∧ store w' ⊆ store w ∧ calls w' = calls w).
Proof.
  split; [| split].
  - intros files w' Hrun. unfold upload_array, mbind, mret, M_bind, M_ret in Hrun.
    destruct (multer_files rt "files" 10 [] items failure w)
      as [[stored | e] w1] eqn:Hm; [| discriminate Hrun].
    injection Hrun as <- <-.
    destruct (multer_files_accepts _ _ _ _ _ _ _ _ Hm) as (new & -> & Hlen & Hall).
    destruct (multer_files_stores _ _ _ _ _ _ _ _ Hm) as (new' & Hnew & _ & Hdisk & _).
    cbn [app] in Hnew. subst new'.
    split; [exact Hlen |]. cbn [app]. apply Forall2_and_right.
    + eapply Forall2_impl; [exact Hall |].
      intros p f (_ & Hmime & Hsz & Ho & Hm' & Hs). by repeat split.
    + intros f Hf. by apply Hdisk.
  - intros p Hp Hbad. apply rejected_upload. intros files w' Hm.
    destruct (multer_files_accepts _ _ _ _ _ _ _ _ Hm) as (new & _ & _ & Hall).
    apply list_elem_of_lookup in Hp as [i Hi].
    destruct (Forall2_lookup_l _ _ _ _ _ Hall Hi) as (f & _ & _ & Hmime & Hsz & _).
    unfold fileSize in Hsz. destruct Hbad as [Hbad | Hbad]; [contradiction | lia].
  - intros Hmany. apply rejected_upload. intros files w' Hm.
    destruct (multer_files_accepts _ _ _ _ _ _ _ _ Hm) as (new & _ & Hlen & Hall).
    apply Forall2_length in Hall. lia.
Qed.

End Multer.

Lemma upload_limits_witness :
  let rt := Demo.runtime Demo.offline in
  let w := Demo.world Demo.disk in
  let good := [FileItem (Demo.part "survey.pdf" "application/pdf" 1000);
               FieldItem (Some "note") false false;
               FileItem (Demo.part "C:\papers\thesis.pdf" "Application/PDF; x=1"
                           (50 * 1024 * 1024 - 1))] in
  let mixed := [FileItem (Demo.part "survey.pdf" "application/pdf" 1000);
                FileItem (Demo.part "notes.txt" "text/plain" 20)] in
  let heavy := [FileItem (Demo.part "scan.pdf" "application/pdf" (50 * 1024 * 1024))] in
  let many := replicate 11 (FileItem (Demo.part "survey.pdf" "application/pdf" 1000)) in
  (∃ files w',
     upload_array rt "files" 10 (Multipart good None) w = (Returned (Some files), w') ∧
     originalname <$> files = ["survey.pdf"; "thesis.pdf"] ∧
     (length files ≤ 10)%nat ∧
     Forall2 (fun p f => (busboy_mimeType rt (part_mimetype p) = "application/pdf" ∧
                          part_bytes p < 50 * 1024 * 1024 ∧
                          originalname f = Busboy.basename (part_filename p) ∧
                          mimetype f = "application/pdf" ∧
                          size f = part_bytes p) ∧
                         ∃ st, store w' !! path f = Some (Fs.File st))
             (file_parts good) files) ∧
  (∃ e w', ingest rt (Multipart mixed None) w = (Thrown e, w')
           ∧ store w' ⊆ store w ∧ calls w' = calls w) ∧
  (∃ e w', ingest rt (Multipart heavy None) w = (Thrown e, w')
           ∧ store w' ⊆ store w ∧ calls w' = calls w) ∧
  (∃ e w', ingest rt (Multipart many None) w = (Thrown e, w')
           ∧ store w' ⊆ store w ∧ calls w' = calls w).
Proof.
  intros rt w good mixed heavy many.
  split; [| split; [| split]].
  - eexists; eexists.
    assert (Hrun : upload_array rt "files" 10 (Multipart good None) w
                   = (Returned (Some (fst (stored_by_multer rt good w))),
                      snd (stored_by_multer rt good w)))
      by (vm_compute; reflexivity).
    split; [exact Hrun |]. split; [vm_compute; reflexivity |].
    exact (proj1 (upload_limits rt good None w) _ _ Hrun).
  - apply (proj1 (proj2 (upload_limits rt mixed None w))
             (Demo.part "notes.txt" "text/plain" 20)).
    + apply list_elem_of_In. simpl. tauto.
    + left. vm_compute. discriminate.
  - apply (proj1 (proj2 (upload_limits rt heavy None w))
             (Demo.part "scan.pdf" "application/pdf" (50 * 1024 * 1024))).
    + apply list_elem_of_In. simpl. tauto.
    + right. simpl. lia.
  - apply (proj2 (proj2 (upload_limits rt many None w))). simpl. lia.
Defined.

Lemma ingest_upstream_down_witness :
  let rt := Demo.runtime Demo.offline in
  let w := Demo.world Demo.disk in
  let req := Multipart [FileItem (Demo.part "survey.pdf" "application/pdf" 1000)] None in
  let files := [ {| fieldname := "files"; originalname := "survey.pdf";
                    mimetype := "application/pdf";
                    path := "/srv/athena/uploads/1704067200000-123456789.pdf";
                    size := 1000 |} ] in
  let w1 := {| store := <["/srv/athena/uploads/1704067200000-123456789.pdf" :=
                           Demo.pdf 1000 1704067200000]> Demo.disk;
               calls := []; clock := 2 |} in
  let e := plain_error "connect ECONNREFUSED 127.0.0.1:8000" in
  upload_array rt "files" 10 req w = (Returned (Some files), w1) ∧
  files ≠ [] ∧
  upstream rt (ingest_call rt files) = Thrown e ∧
  ∃ resp records,
    ingest rt req w = (Returned resp, sent (ingest_call rt files) w1) ∧
    code resp = 200 ∧
    prop (payload resp) "ingested" = JArr records ∧
    Forall2 (fun f r => prop r "file" = JStr (originalname f) ∧
                        prop r "path" = JStr (path f) ∧
                        prop r "ingested_pages" = JStr "unknown")
            files records.
Proof.
  intros rt w req files w1 e.
  assert (H1 : upload_array rt "files" 10 req w = (Returned (Some files), w1))
    by (vm_compute; reflexivity).
  assert (H2 : files ≠ []) by discriminate.
  assert (H3 : upstream rt (ingest_call rt files) = Thrown e) by reflexivity.
  split; [exact H1 | split; [exact H2 | split; [exact H3 |]]].
  exact (ingest_upstream_down rt req w w1 files e H1 H2 H3).
Defined.

(** ** Listing the uploads *)

Section Listing.

Variable rt : Runtime.

(** The record the fallback builds for the entry [name] with stats [st]. *)
Lemma file_record_ok (name : string) (st : Fs.Stats) (w : World) :
  Fs.stat (path_join rt [UPLOADS_DIR rt; name]) (store w) = Returned st →
  file_record rt name w = (Returned (local_record rt name st), w).
Proof.
  intros Hstat. unfold file_record, local_record. unfold_M. by rewrite Hstat.
Qed.

Lemma file_record_fails (name : string) (err : JSError) (w : World) :
  Fs.stat (path_join rt [UPLOADS_DIR rt; name]) (store w) = Thrown err →
  file_record rt name w = (Thrown err, w).
Proof.
  intros Hstat. unfold file_record. unfold_M. by rewrite Hstat.
Qed.

(** [Promise.all] over the entries: one record each, in order, when every
    entry can be examined; the error of the first that cannot, otherwise.
    The world is only read. *)
Lemma records_run (names : list string) (w : World) :
  ∃ o, promise_all_map (file_record rt) names w = (o, w) ∧
    match o with
    | Returned records =>
        Forall2 (fun name r => ∃ st,
                   Fs.stat (path_join rt [UPLOADS_DIR rt; name]) (store w) = Returned st ∧
                   r = local_record rt name st) names records
    | Thrown err =>
        Exists (fun name =>
                  Fs.stat (path_join rt [UPLOADS_DIR rt; name]) (store w) = Thrown err)
               names
    end.
Proof.
  induction names as [| name names (o & Hrun & Hspec)].
  - exists (Returned []). split; [reflexivity | constructor].
  - cbn [promise_all_map]. unfold mbind, mret, M_bind, M_ret.
    unfold mbind, mret, M_bind, M_ret in Hrun.
    destruct (Fs.stat (path_join rt [UPLOADS_DIR rt; name]) (store w))
      as [st | err] eqn:Hst.
    + rewrite (file_record_ok _ _ _ Hst), Hrun. destruct o as [records | err].
      * exists (Returned (local_record rt name st :: records)).
        split; [reflexivity |]. constructor; [by exists st | exact Hspec].
      * exists (Thrown err). split; [reflexivity |]. by apply Exists_cons_tl.
    + rewrite (file_record_fails _ _ _ Hst). exists (Thrown err).
      split; [reflexivity |]. by apply Exists_cons_hd.
Qed.

Lemma examined_or_not (names : list string) (s : Fs.Store) :
  Forall (fun name => ∃ st,
            Fs.stat (path_join rt [UPLOADS_DIR rt; name]) s = Returned st) names →
  Exists (fun name => ∃ err,
            Fs.stat (path_join rt [UPLOADS_DIR rt; name]) s = Thrown err) names →
  False.
Proof.
  intros Hall Hex. apply Exists_exists in Hex as (name & Hin & err & Herr).
  rewrite Forall_forall in Hall. destruct (Hall name Hin) as [st Hst]. congruence.
Qed.

Lemma local_record_describes (name : string) (st : Fs.Stats) (s : Fs.Store) :
  Fs.stat (path_join rt [UPLOADS_DIR rt; name]) s = Returned st →
  describes rt s name (local_record rt name st).
Proof.
  intros Hst. exists st. split; [exact Hst |].
  unfold local_record. repeat split; read_obj.
Qed.

(** C1 (as amended).  When the upstream listing call fails the route still
    answers, never raises.  If the upload directory can be read and every
    entry ending in '.pdf' can be examined, the answer is 200 with one
    record per such entry, in order, each with the entry's name, path, size
    in bytes and modification time.  If the directory cannot be read, or
    one of those entries cannot be examined, the answer is 500 with the
    error message. *)
Theorem list_uploads_fallback (w : World) (e : JSError) :
  upstream rt (uploads_call rt) = Thrown e →
  ∃ resp,
    list_uploads rt w = (Returned resp, sent (uploads_call rt) w) ∧
    match Fs.readdir (UPLOADS_DIR rt) (store w) with
    | Thrown err =>
        code resp = 500 ∧ prop (payload resp) "error" = JStr (message err)
    | Returned names =>
        let pdfs := List.filter (fun f => endsWith f ".pdf") names in
        (Forall (fun name => ∃ st,
                   Fs.stat (path_join rt [UPLOADS_DIR rt; name]) (store w)
                   = Returned st) pdfs →
         code resp = 200 ∧
         ∃ records, prop (payload resp) "files" = JArr records ∧
                    Forall2 (describes rt (store w)) pdfs records) ∧
        (Exists (fun name => ∃ err,
                   Fs.stat (path_join rt [UPLOADS_DIR rt; name]) (store w)
                   = Thrown err) pdfs →
         code resp = 500 ∧ ∃ msg, prop (payload resp) "error" = JStr msg)
    end.
Proof.
  intros Hdown. unfold uploads_call in Hdown.
  unfold list_uploads, axios_get, axios, sent, uploads_call. unfold_M.
  rewrite Hdown. cbn [store].
  destruct (Fs.readdir (UPLOADS_DIR rt) (store w)) as [names | err].
  - set (pdfs := List.filter (fun f => endsWith f ".pdf") names).
    set (w1 := {| store := store w; calls := _; clock := clock w |}).
    destruct (records_run pdfs w1) as (o & Hrun & Hspec). rewrite Hrun.
    change (store w1) with (store w) in Hspec.
    destruct o as [records | err]; eexists; (split; [reflexivity |]); split.
    + intros _. split; [reflexivity |]. exists records. split; [read_obj |].
      eapply Forall2_impl; [exact Hspec |].
      intros name r (st & Hst & ->). by apply local_record_describes.
    + intros Hex. destruct (examined_or_not pdfs (store w)); [| exact Hex].
      apply Forall_forall. intros name Hin.
      apply list_elem_of_lookup in Hin as [i Hi].
      destruct (Forall2_lookup_l _ _ _ _ _ Hspec Hi) as (r & _ & st & Hst & _).
      by exists st.
    + intros Hall. destruct (examined_or_not pdfs (store w) Hall).
      eapply Exists_impl; [exact Hspec |]. intros name Hname. by exists err.
    + intros _. split; [reflexivity |]. exists (message err). read_obj.
  - eexists. split; [reflexivity |]. split; [reflexivity | read_obj].
Qed.

End Listing.

(** C1, as the specification words it, fails when the upload directory
    is not there (the [mkdir] at start-up failed, or the directory was
    removed since): with the upstream service unreachable the route answers
    500, not a listing. *)
Lemma listing_without_directory :
  ¬ fallback_always_lists (Demo.runtime Demo.offline) (Demo.world ∅).
Proof.
  intros Hclaim.
  destruct (Hclaim (plain_error "connect ECONNREFUSED 127.0.0.1:8000") eq_refl)
    as (resp & w' & names & records & Hrun & Hcode & _).
  assert (Hanswer : code (default (res_json JNull)
            (match (list_uploads (Demo.runtime Demo.offline) (Demo.world ∅)).1 with
             | Returned r => Some r
             | Thrown _ => None
             end)) = 500) by (vm_compute; reflexivity).
  rewrite Hrun in Hanswer. cbn in Hanswer. rewrite Hcode in Hanswer.
  discriminate Hanswer.
Qed.

(** The answer in that situation, and with a '.pdf' entry that cannot be
    followed. *)
Example listing_failures :
  let rt := Demo.runtime Demo.offline in
  let answer s := (list_uploads rt (Demo.world s)).1 in
  let broken : Fs.Store :=
    <["/srv/athena/uploads/lost.pdf" := Fs.DanglingLink]> Demo.disk in
  answer ∅ = Returned (res_status_json 500 (obj [("error",
     JStr "ENOENT: no such file or directory, scandir '/srv/athena/uploads'")]))
  ∧ answer broken = Returned (res_status_json 500 (obj [("error",
     JStr "ENOENT: no such file or directory, stat '/srv/athena/uploads/lost.pdf'")])).
Proof. vm_compute. split; reflexivity. Qed.

Lemma list_uploads_fallback_witness :
  let rt := Demo.runtime Demo.offline in
  let w := Demo.world Demo.disk in
  let e := plain_error "connect ECONNREFUSED 127.0.0.1:8000" in
  upstream rt (uploads_call rt) = Thrown e ∧
  ∃ resp,
    list_uploads rt w = (Returned resp, sent (uploads_call rt) w) ∧
    match Fs.readdir (UPLOADS_DIR rt) (store w) with
    | Thrown err =>
        code resp = 500 ∧ prop (payload resp) "error" = JStr (message err)
    | Returned names =>
        let pdfs := List.filter (fun f => endsWith f ".pdf") names in
        (Forall (fun name => ∃ st,
                   Fs.stat (path_join rt [UPLOADS_DIR rt; name]) (store w)
                   = Returned st) pdfs →
         code resp = 200 ∧
         ∃ records, prop (payload resp) "files" = JArr records ∧
                    Forall2 (describes rt (store w)) pdfs records) ∧
        (Exists (fun name => ∃ err,
                   Fs.stat (path_join rt [UPLOADS_DIR rt; name]) (store w)
                   = Thrown err) pdfs →
         code resp = 500 ∧ ∃ msg, prop (payload resp) "error" = JStr msg)
    end.
Proof.
  intros rt w e.
  assert (H1 : upstream rt (uploads_call rt) = Thrown e) by reflexivity.
  split; [exact H1 |].
  exact (list_uploads_fallback rt w e H1).
Defined.

(** On the example disk the fallback lists the two PDFs and leaves the
    text file out. *)
Example listing_example :
  let rt := Demo.runtime Demo.offline in
  (list_uploads rt (Demo.world Demo.disk)).1
  = Returned (res_json (obj [("files", JArr
      [ obj [("name", JStr "1700000000500-2.pdf");
             ("path", JStr "/srv/athena/uploads/1700000000500-2.pdf");
             ("size", JNum 2500);
             ("updated", JNum (1700000000500 # 1000))];
        obj [("name", JStr "1700000000000-1.pdf");
             ("path", JStr "/srv/athena/uploads/1700000000000-1.pdf");
             ("size", JNum 1000);
             ("updated", JNum (1700000000000 # 1000))] ])])).
Proof. vm_compute. reflexivity. Qed.

(** ** Deleting an upload *)

Section Delete.

Variable rt : Runtime.

Lemma access_nonempty (p : string) (s : Fs.Store) :
  Fs.access p s = Returned tt → p ≠ "".
Proof.
  unfold Fs.access, Fs.lookup. intros Hacc ->. cbn in Hacc. discriminate Hacc.
Qed.

(** The loop leaves [filePath] null when no candidate can be accessed. *)
Lemma first_accessible_none (paths : list string) (w : World) :
  (∀ p, p ∈ paths → Fs.access p (store w) ≠ Returned tt) →
  first_accessible paths w = (Returned None, w).
Proof.
  induction paths as [| p paths IH]; intros Hnone; [reflexivity |].
  cbn [first_accessible]. unfold_M.
  destruct (Fs.access p (store w)) as [[] | e] eqn:Hacc.
  - by destruct (Hnone p (list_elem_of_here _ _)).
  - apply IH. intros q Hq. apply Hnone. by apply list_elem_of_further.
Qed.

(** The loop stops at the first candidate that can be accessed. *)
Lemma first_accessible_first (before after : list string) (p : string) (w : World) :
  (∀ q, q ∈ before → Fs.access q (store w) ≠ Returned tt) →
  Fs.access p (store w) = Returned tt →
  first_accessible (before ++ p :: after) w = (Returned (Some p), w).
Proof.
  induction before as [| q before IH]; intros Hbefore Hacc.
  - cbn [app first_accessible]. unfold_M. by rewrite Hacc.
  - cbn [app first_accessible]. unfold_M.
    destruct (Fs.access q (store w)) as [[] | e] eqn:Hq.
    + by destruct (Hbefore q (list_elem_of_here _ _)).
    + apply IH; [| exact Hacc]. intros q' Hq'. apply Hbefore.
      by apply list_elem_of_further.
Qed.

Lemma no_path_found (p : string) (s : Fs.Store) :
  Fs.access p s = Returned tt → no_path (Some p) = false.
Proof.
  intros Hacc. apply access_nonempty in Hacc. cbn [no_path].
  by apply String.eqb_neq.
Qed.

(** C3.  The route decodes the name and tries the three candidate paths
    in order.  When none of them can be accessed it answers 404 with a
    message that lists the three paths, and the world (the upload store
    included) is left as it was.  Otherwise the first candidate that can
    be accessed is the one it unlinks: when the unlink succeeds the answer
    is 200 and the store is the old one without that path; when it fails
    (the candidate is a directory) the answer is 500 and nothing is
    deleted.  A name that does not decode is answered 500 as well, with
    nothing deleted. *)
Theorem delete_upload_candidates (param : string) (w : World) :
  (∀ e, decodeURIComponent rt param = Thrown e →
     ∃ resp, delete_upload rt param w = (Returned resp, w) ∧ code resp = 500)
  ∧
  (∀ filename, decodeURIComponent rt param = Returned filename →
     ((∀ p, p ∈ possiblePaths rt filename → Fs.access p (store w) ≠ Returned tt) →
      ∃ resp,
        delete_upload rt param w = (Returned resp, w) ∧
        code resp = 404 ∧
        prop (payload resp) "error"
        = JStr ("File not found: " +:+ filename +:+ ". Checked paths: "
                +:+ path_join rt [UPLOADS_DIR rt; filename] +:+ ", "
                +:+ path_join rt [__dirname rt; ".."; "uploads"; filename] +:+ ", "
                +:+ path_resolve rt [UPLOADS_DIR rt; filename]))
     ∧
     (∀ before p after,
        possiblePaths rt filename = (before ++ p :: after)%list →
        (∀ q, q ∈ before → Fs.access q (store w) ≠ Returned tt) →
        Fs.access p (store w) = Returned tt →
        (∀ s', Fs.unlink p (store w) = Returned s' →
           ∃ resp w',
             delete_upload rt param w = (Returned resp, w') ∧
             store w' = delete p (store w) ∧
             code resp = 200)
        ∧
        (∀ e, Fs.unlink p (store w) = Thrown e →
           ∃ resp,
             delete_upload rt param w = (Returned resp, w) ∧
             code resp = 500))).
Proof.
  split.
  - intros e Hdecode. unfold delete_upload. unfold_M. rewrite Hdecode.
    eexists. split; reflexivity.
  - intros filename Hdecode. split.
    + intros Hnone. unfold delete_upload. unfold_M. rewrite Hdecode.
      rewrite (first_accessible_none _ _ Hnone). cbn [no_path].
      eexists. split; [reflexivity |]. split; [reflexivity | read_obj].
    + intros before p after Hsplit Hbefore Hacc. split.
      * intros s' Hunlink.
        assert (Hs' : s' = delete p (store w)).
        { unfold Fs.unlink in Hunlink.
          destruct (Fs.lookup p (store w)) as [[st | st |] |]; congruence. }
        unfold delete_upload. unfold_M. rewrite Hdecode, Hsplit.
        rewrite (first_accessible_first _ _ _ _ Hbefore Hacc).
        rewrite (no_path_found _ _ Hacc). cbn [default id]. rewrite Hunlink, Hs'.
        unfold axios_delete, axios.
        destruct (encodeURIComponent rt filename) as [encoded | e1];
          [match goal with |- context [upstream rt ?c] => destruct (upstream rt c) end |];
          eexists; eexists; (split; [reflexivity |]); by split.
      * intros e Hunlink. unfold delete_upload. unfold_M. rewrite Hdecode, Hsplit.
        rewrite (first_accessible_first _ _ _ _ Hbefore Hacc).
        rewrite (no_path_found _ _ Hacc). cbn [default id]. rewrite Hunlink.
        eexists. split; reflexivity.
Qed.

(** C7.  When the first accessible candidate is found and unlinked, the
    route answers 200 with the success message and the file name, whatever
    becomes of the notification to the upstream service: its failure (or a
    failure to encode the name for it) is swallowed. *)
Theorem delete_ignores_upstream (param filename : string) (w : World)
    (before after : list string) (p : string) (s' : Fs.Store) :
  decodeURIComponent rt param = Returned filename →
  possiblePaths rt filename = (before ++ p :: after)%list →
  (∀ q, q ∈ before → Fs.access q (store w) ≠ Returned tt) →
  Fs.access p (store w) = Returned tt →
  Fs.unlink p (store w) = Returned s' →
  ∃ resp w',
    delete_upload rt param w = (Returned resp, w') ∧
    store w' = s' ∧
    code resp = 200 ∧
    prop (payload resp) "message" = JStr "File deleted successfully" ∧
    prop (payload resp) "filename" = JStr filename.
Proof.
  intros Hdecode Hsplit Hbefore Hacc Hunlink.
  unfold delete_upload. unfold_M. rewrite Hdecode, Hsplit.
  rewrite (first_accessible_first _ _ _ _ Hbefore Hacc).
  rewrite (no_path_found _ _ Hacc). cbn [default id]. rewrite Hunlink.
  unfold axios_delete, axios.
  destruct (encodeURIComponent rt filename) as [encoded | e1];
    [match goal with |- context [upstream rt ?c] => destruct (upstream rt c) end |];
    eexists; eexists; (split; [reflexivity |]); (split; [reflexivity |]);
    (split; [reflexivity |]); split; read_obj.
Qed.

End Delete.

Lemma delete_upload_candidates_witness :
  let rt := Demo.runtime Demo.offline in
  let w := Demo.world Demo.disk in
  (decodeURIComponent rt "100%.pdf" = Thrown Demo.uri_malformed ∧
   ∃ resp, delete_upload rt "100%.pdf" w = (Returned resp, w) ∧ code resp = 500)
  ∧
  (decodeURIComponent rt "missing%20paper.pdf" = Returned "missing paper.pdf" ∧
   (∀ p, p ∈ possiblePaths rt "missing paper.pdf" →
      Fs.access p (store w) ≠ Returned tt) ∧
   ∃ resp,
     delete_upload rt "missing%20paper.pdf" w = (Returned resp, w) ∧
     code resp = 404 ∧
     prop (payload resp) "error"
     = JStr ("File not found: missing paper.pdf. Checked paths: "
             +:+ "/srv/athena/uploads/missing paper.pdf, "
             +:+ "/srv/athena/uploads/missing paper.pdf, "
             +:+ "/srv/athena/uploads/missing paper.pdf"))
  ∧
  (decodeURIComponent rt "notes.txt" = Returned "notes.txt" ∧
   possiblePaths rt "notes.txt"
   = ([] ++ "/srv/athena/uploads/notes.txt"
         :: ["/srv/athena/uploads/notes.txt"; "/srv/athena/uploads/notes.txt"])%list ∧
   Fs.access "/srv/athena/uploads/notes.txt" (store w) = Returned tt ∧
   Fs.unlink "/srv/athena/uploads/notes.txt" (store w)
   = Returned (delete "/srv/athena/uploads/notes.txt" (store w)) ∧
   ∃ resp w',
     delete_upload rt "notes.txt" w = (Returned resp, w') ∧
     store w' = delete "/srv/athena/uploads/notes.txt" (store w) ∧ code resp = 200)
  ∧
  (decodeURIComponent rt "%2E" = Returned "." ∧
   possiblePaths rt "."
   = ([] ++ "/srv/athena/uploads"
         :: ["/srv/athena/uploads"; "/srv/athena/uploads"])%list ∧
   Fs.access "/srv/athena/uploads" (store w) = Returned tt ∧
   Fs.unlink "/srv/athena/uploads" (store w)
   = Thrown (Fs.eisdir "unlink" "/srv/athena/uploads") ∧
   ∃ resp, delete_upload rt "%2E" w = (Returned resp, w) ∧ code resp = 500).
Proof.
  intros rt w.
  assert (Hnil : ∀ q, q ∈ ([] : list string) → Fs.access q (store w) ≠ Returned tt)
    by (intros q Hq; by apply elem_of_nil in Hq).
  split; [| split; [| split]].
  - assert (H1 : decodeURIComponent rt "100%.pdf" = Thrown Demo.uri_malformed)
      by reflexivity.
    split; [exact H1 |].
    exact (proj1 (delete_upload_candidates rt "100%.pdf" w) _ H1).
  - assert (H1 : decodeURIComponent rt "missing%20paper.pdf"
                 = Returned "missing paper.pdf") by reflexivity.
    assert (H2 : ∀ p, p ∈ possiblePaths rt "missing paper.pdf" →
                 Fs.access p (store w) ≠ Returned tt).
    { intros p Hp. apply list_elem_of_In in Hp. vm_compute in Hp.
      destruct Hp as [<- | [<- | [<- | []]]]; vm_compute; discriminate. }
    split; [exact H1 | split; [exact H2 |]].
    exact (proj1 (proj2 (delete_upload_candidates rt _ w) _ H1) H2).
  - assert (H1 : decodeURIComponent rt "notes.txt" = Returned "notes.txt")
      by reflexivity.
    assert (H2 : possiblePaths rt "notes.txt"
                 = ([] ++ "/srv/athena/uploads/notes.txt"
                       :: ["/srv/athena/uploads/notes.txt";
                           "/srv/athena/uploads/notes.txt"])%list)
      by (vm_compute; reflexivity).
    assert (H4 : Fs.access "/srv/athena/uploads/notes.txt" (store w) = Returned tt)
      by (vm_compute; reflexivity).
    assert (H5 : Fs.unlink "/srv/athena/uploads/notes.txt" (store w)
                 = Returned (delete "/srv/athena/uploads/notes.txt" (store w)))
      by (vm_compute; reflexivity).
    split; [exact H1 | split; [exact H2 | split; [exact H4 | split; [exact H5 |]]]].
    exact (proj1 (proj2 (proj2 (delete_upload_candidates rt _ w) _ H1)
                    _ _ _ H2 Hnil H4) _ H5).
  - assert (H1 : decodeURIComponent rt "%2E" = Returned ".") by reflexivity.
    assert (H2 : possiblePaths rt "."
                 = ([] ++ "/srv/athena/uploads"
                       :: ["/srv/athena/uploads"; "/srv/athena/uploads"])%list)
      by (vm_compute; reflexivity).
    assert (H4 : Fs.access "/srv/athena/uploads" (store w) = Returned tt)
      by (vm_compute; reflexivity).
    assert (H5 : Fs.unlink "/srv/athena/uploads" (store w)
                 = Thrown (Fs.eisdir "unlink" "/srv/athena/uploads"))
      by (vm_compute; reflexivity).
    split; [exact H1 | split; [exact H2 | split; [exact H4 | split; [exact H5 |]]]].
    exact (proj2 (proj2 (proj2 (delete_upload_candidates rt _ w) _ H1)
                    _ _ _ H2 Hnil H4) _ H5).
Defined.

(** C3, as the specification words it, fails for a candidate that exists
    but is a directory: asked to delete '%2E' (the name '.'), the route
    finds the upload directory itself as its first candidate, cannot
    unlink it, and answers 500 with the directory still there. *)
Lemma directory_candidate_is_kept :
  ¬ deletes_first_existing (Demo.runtime Demo.offline) "%2E" (Demo.world Demo.disk).
Proof.
  intros Hclaim.
  destruct (Hclaim "." [] "/srv/athena/uploads"
              ["/srv/athena/uploads"; "/srv/athena/uploads"])
    as (outcome & w' & Hrun & Hgone).
  - reflexivity.
  - vm_compute. reflexivity.
  - intros q Hq. by apply elem_of_nil in Hq.
  - vm_compute. reflexivity.
  - assert (Hkept : store (delete_upload (Demo.runtime Demo.offline) "%2E"
                             (Demo.world Demo.disk)).2 !! "/srv/athena/uploads"
                    = Some Demo.folder) by (vm_compute; reflexivity).
    rewrite Hrun in Hkept. cbn [snd] in Hkept. rewrite Hgone in Hkept.
    discriminate Hkept.
Qed.

Lemma delete_ignores_upstream_witness :
  let rt := Demo.runtime Demo.offline in
  let w := Demo.world Demo.disk in
  let p := "/srv/athena/uploads/1700000000000-1.pdf" in
  let s' : Fs.Store := delete p Demo.disk in
  decodeURIComponent rt "1700000000000-1.pdf" = Returned "1700000000000-1.pdf" ∧
  possiblePaths rt "1700000000000-1.pdf" = ([] ++ p :: [p; p])%list ∧
  (∀ q, q ∈ ([] : list string) → Fs.access q (store w) ≠ Returned tt) ∧
  Fs.access p (store w) = Returned tt ∧
  Fs.unlink p (store w) = Returned s' ∧
  upstream rt {| method := DELETE;
                 url := "http://localhost:8000/uploads/1700000000000-1.pdf";
                 body := NoBody |}
  = Thrown (plain_error "connect ECONNREFUSED 127.0.0.1:8000") ∧
  ∃ resp w',
    delete_upload rt "1700000000000-1.pdf" w = (Returned resp, w') ∧
    store w' = s' ∧
    code resp = 200 ∧
    prop (payload resp) "message" = JStr "File deleted successfully" ∧
    prop (payload resp) "filename" = JStr "1700000000000-1.pdf".
Proof.
  intros rt w p s'.
  assert (H1 : decodeURIComponent rt "1700000000000-1.pdf"
               = Returned "1700000000000-1.pdf") by reflexivity.
  assert (H2 : possiblePaths rt "1700000000000-1.pdf" = ([] ++ p :: [p; p])%list)
    by (vm_compute; reflexivity).
  assert (H3 : ∀ q, q ∈ ([] : list string) → Fs.access q (store w) ≠ Returned tt)
    by (intros q Hq; by apply elem_of_nil in Hq).
  assert (H4 : Fs.access p (store w) = Returned tt) by (vm_compute; reflexivity).
  assert (H5 : Fs.unlink p (store w) = Returned s') by (vm_compute; reflexivity).
  split; [exact H1 | split; [exact H2 | split; [exact H3 | split; [exact H4 |
    split; [exact H5 | split; [reflexivity |]]]]]].
  exact (delete_ignores_upstream rt _ _ w [] [p; p] p s' H1 H2 H3 H4 H5).
Defined.

(** A directory among the candidates is found but cannot be unlinked, and
    a name that does not decode never reaches the candidates: both are
    answered 500, with the store untouched. *)
Example delete_failures :
  let rt := Demo.runtime Demo.offline in
  let run param := delete_upload rt param (Demo.world Demo.disk) in
  run "%2E" = (Returned (res_status_json 500 (obj [("error",
     JStr "Failed to delete file: EISDIR: illegal operation on a directory, unlink '/srv/athena/uploads'")])),
     Demo.world Demo.disk)
  ∧ run "100%.pdf" = (Returned (res_status_json 500 (obj [("error",
     JStr "URI malformed")])), Demo.world Demo.disk).
Proof. vm_compute. split; reflexivity. Qed.

(** * Further properties of the routes *)

(** ** The listing route as a whole *)

Section ListingEffects.

Variable rt : Runtime.

(** X1.  [GET /api/uploads] always answers and never raises; it sends
    exactly one request upstream and leaves the disk and the clock alone.
    When the upstream service answers, its data is relayed as it is with
    200, whatever the local directory holds; when it does not, the answer
    is 200 or 500. *)
Theorem list_uploads_read_only (w : World) :
  ∃ resp,
    list_uploads rt w = (Returned resp, sent (uploads_call rt) w) ∧
    match upstream rt (uploads_call rt) with
    | Returned answer => resp = res_json (data answer)
    | Thrown _ => code resp = 200 ∨ code resp = 500
    end.
Proof.
  unfold list_uploads, axios_get, axios, sent, uploads_call. unfold_M.
  destruct (upstream rt _) as [answer | e].
  - eexists. split; reflexivity.
  - cbn [store].
    destruct (Fs.readdir (UPLOADS_DIR rt) (store w)) as [names | err].
    + match goal with |- context [promise_all_map ?f ?l ?w1] =>
        destruct (records_run rt l w1) as (o & Hrun & _); rewrite Hrun
      end.
      destruct o; eexists; (split; [reflexivity |]); [by left | by right].
    + eexists. split; [reflexivity | by right].
Qed.

End ListingEffects.

(** ** The delete route as a whole *)

Section DeleteEffects.

Variable rt : Runtime.

(** The loop only reads the disk; what it returns is a candidate that can
    be accessed, and it returns nothing only when no candidate can. *)
Lemma first_accessible_spec (paths : list string) (w : World) :
  ∃ found,
    first_accessible paths w = (Returned found, w) ∧
    match found with
    | Some p => p ∈ paths ∧ Fs.access p (store w) = Returned tt
    | None => ∀ p, p ∈ paths → Fs.access p (store w) ≠ Returned tt
    end.
Proof.
  induction paths as [| p paths (found & Hrun & Hspec)].
  - exists None. split; [reflexivity |]. intros p Hp. by apply elem_of_nil in Hp.
  - cbn [first_accessible]. unfold_M.
    destruct (Fs.access p (store w)) as [[] | e] eqn:Hacc.
    + exists (Some p). split; [reflexivity |]. split; [apply list_elem_of_here | exact Hacc].
    + exists found. split; [exact Hrun |]. destruct found as [q |].
      * destruct Hspec as [Hq Hqacc]. split; [by apply list_elem_of_further | exact Hqacc].
      * intros q Hq. apply elem_of_cons in Hq as [-> | Hq]; [congruence | by apply Hspec].
Qed.

(** X2.  [DELETE /api/uploads/:filename] always answers and never raises,
    with 200, 404 or 500.  With 404 and 500 the world is exactly as before:
    nothing was removed and nothing was sent upstream.  With 200 the disk
    has lost exactly one path, a candidate built from the decoded name that
    could be accessed, and at most one request, a DELETE for the encoded
    name, went upstream. *)
Theorem delete_upload_effects (param : string) (w : World) :
  ∃ resp w',
    delete_upload rt param w = (Returned resp, w') ∧
    (((code resp = 404 ∨ code resp = 500) ∧ w' = w)
     ∨
     (code resp = 200 ∧ clock w' = clock w ∧
      ∃ filename p,
        decodeURIComponent rt param = Returned filename ∧
        p ∈ possiblePaths rt filename ∧
        Fs.access p (store w) = Returned tt ∧
        store w' = delete p (store w) ∧
        (calls w' = calls w
         ∨ ∃ encoded,
             encodeURIComponent rt filename = Returned encoded ∧
             calls w' = (calls w ++
               [ {| method := DELETE;
                    url := PYTHON_API_URL rt +:+ "/uploads/" +:+ encoded;
                    body := NoBody |} ])%list))).
Proof.
  unfold delete_upload. unfold_M.
  destruct (decodeURIComponent rt param) as [filename | e] eqn:Hdecode;
    [| eexists; eexists; split; [reflexivity | left; split; [by right | reflexivity]]].
  destruct (first_accessible_spec (possiblePaths rt filename) w)
    as (found & Hrun & Hspec).
  rewrite Hrun. destruct found as [p |];
    [| eexists; eexists; split; [reflexivity | left; split; [by left | reflexivity]]].
  destruct Hspec as [Hp Hacc]. rewrite (no_path_found _ _ Hacc).
  cbn [default id]. unfold Fs.unlink.
  destruct (Fs.lookup p (store w)) as [[st | st |] |];
    try (eexists; eexists; split; [reflexivity | left; split; [by right | reflexivity]]).
  - unfold axios_delete, axios.
    destruct (encodeURIComponent rt filename) as [encoded | e1] eqn:Hencode;
      [match goal with |- context [upstream rt ?c] => destruct (upstream rt c) end |];
      eexists; eexists; (split; [reflexivity |]); right;
      (split; [reflexivity |]); (split; [reflexivity |]);
      exists filename, p; repeat (split; [done |]);
      first [by left | right; by exists encoded].
  - unfold axios_delete, axios.
    destruct (encodeURIComponent rt filename) as [encoded | e1] eqn:Hencode;
      [match goal with |- context [upstream rt ?c] => destruct (upstream rt c) end |];
      eexists; eexists; (split; [reflexivity |]); right;
      (split; [reflexivity |]); (split; [reflexivity |]);
      exists filename, p; repeat (split; [done |]);
      first [by left | right; by exists encoded].
Qed.

(** X3.  When the first accessible candidate cannot be unlinked (it is a
    directory, say), the route answers 500 'Failed to delete file: ' with
    the reason, and the world is as before: nothing is removed and the
    upstream service is not notified. *)
Theorem delete_unlink_failure (param filename : string) (w : World)
    (before after : list string) (p : string) (e : JSError) :
  decodeURIComponent rt param = Returned filename →
  possiblePaths rt filename = (before ++ p :: after)%list →
  (∀ q, q ∈ before → Fs.access q (store w) ≠ Returned tt) →
  Fs.access p (store w) = Returned tt →
  Fs.unlink p (store w) = Thrown e →
  ∃ resp,
    delete_upload rt param w = (Returned resp, w) ∧
    code resp = 500 ∧
    prop (payload resp) "error" = JStr ("Failed to delete file: " +:+ message e).
Proof.
  intros Hdecode Hsplit Hbefore Hacc Hunlink.
  unfold delete_upload. unfold_M. rewrite Hdecode, Hsplit.
  rewrite (first_accessible_first _ _ _ _ Hbefore Hacc).
  rewrite (no_path_found _ _ Hacc). cbn [default id]. rewrite Hunlink.
  eexists. split; [reflexivity |]. split; [reflexivity | read_obj].
Qed.

(** X4.  The route decodes its parameter once more; a parameter that does
    not decode (a name with a bare '%') is answered 500 with the decoder's
    message, or 'Failed to delete file' when that is empty, and the world
    is as before. *)
Theorem delete_undecodable_name (param : string) (w : World) (e : JSError) :
  decodeURIComponent rt param = Thrown e →
  ∃ resp,
    delete_upload rt param w = (Returned resp, w) ∧
    code resp = 500 ∧
    prop (payload resp) "error"
    = JStr (if String.eqb (message e) "" then "Failed to delete file" else message e).
Proof.
  intros Hdecode. unfold delete_upload. unfold_M. rewrite Hdecode.
  eexists. split; [reflexivity |]. split; [reflexivity |].
  unfold res_status_json, obj, prop. cbn [payload list_to_map foldr uncurry].
  rewrite lookup_insert_eq. cbn [default]. unfold js_or. cbn [truthy].
  by destruct (String.eqb (message e) "").
Qed.

End DeleteEffects.

Lemma delete_unlink_failure_witness :
  let rt := Demo.runtime Demo.offline in
  let w := Demo.world Demo.disk in
  let p := "/srv/athena/uploads" in
  let e := Fs.eisdir "unlink" p in
  decodeURIComponent rt "%2E" = Returned "." ∧
  possiblePaths rt "." = ([] ++ p :: [p; p])%list ∧
  (∀ q, q ∈ ([] : list string) → Fs.access q (store w) ≠ Returned tt) ∧
  Fs.access p (store w) = Returned tt ∧
  Fs.unlink p (store w) = Thrown e ∧
  ∃ resp,
    delete_upload rt "%2E" w = (Returned resp, w) ∧
    code resp = 500 ∧
    prop (payload resp) "error" = JStr ("Failed to delete file: " +:+ message e).
Proof.
  intros rt w p e.
  assert (H1 : decodeURIComponent rt "%2E" = Returned ".") by reflexivity.
  assert (H2 : possiblePaths rt "." = ([] ++ p :: [p; p])%list)
    by (vm_compute; reflexivity).
  assert (H3 : ∀ q, q ∈ ([] : list string) → Fs.access q (store w) ≠ Returned tt)
    by (intros q Hq; by apply elem_of_nil in Hq).
  assert (H4 : Fs.access p (store w) = Returned tt) by (vm_compute; reflexivity).
  assert (H5 : Fs.unlink p (store w) = Thrown e) by (vm_compute; reflexivity).
  split; [exact H1 | split; [exact H2 | split; [exact H3 | split; [exact H4 |
    split; [exact H5 |]]]]].
  exact (delete_unlink_failure rt _ _ w [] [p; p] p e H1 H2 H3 H4 H5).
Defined.

Lemma delete_undecodable_name_witness :
  let rt := Demo.runtime Demo.offline in
  let w := Demo.world Demo.disk in
  decodeURIComponent rt "100%.pdf" = Thrown Demo.uri_malformed ∧
  ∃ resp,
    delete_upload rt "100%.pdf" w = (Returned resp, w) ∧
    code resp = 500 ∧
    prop (payload resp) "error" = JStr "URI malformed".
Proof.
  intros rt w.
  assert (H1 : decodeURIComponent rt "100%.pdf" = Thrown Demo.uri_malformed)
    by reflexivity.
  split; [exact H1 |].
  exact (delete_undecodable_name rt "100%.pdf" w Demo.uri_malformed H1).
Defined.

(** ** The passthrough routes as a whole *)

Section PassthroughEffects.

Variable rt : Runtime.

Lemma destructure_value (req_body : JSValue) (k : string) (w : World) :
  nullish req_body = false →
  destructure req_body k w = (Returned (prop req_body k), w).
Proof. intros Hbody. unfold destructure. by rewrite Hbody. Qed.

(** What any body whatsoever gets from a passthrough route. *)
Lemma passthrough_cases (r : Passthrough) (req_body : JSValue) (w : World) :
  passthrough rt r req_body w
  = if nullish req_body then
      (Returned (res_status_json 500 (obj [("error",
         JStr ("Cannot destructure property '" +:+ hd "" (required_fields r)
               +:+ "' of 'req.body' as it is "
               +:+ match req_body with
                   | JNull => "null"
                   | _ => "undefined"
                   end +:+ "."))])), w)
    else if passes_validation r req_body then
      (Returned (relayed (upstream rt (forwarded rt r req_body))),
       sent (forwarded rt r req_body) w)
    else (Returned (bad_request (validation_message r)), w).
Proof.
  destruct (nullish req_body) eqn:Hbody.
  - destruct r; cbn [passthrough];
      unfold document_ask, synthesis, layman, related_papers,
             semantic_scholar_search, catch_upstream, destructure;
      unfold_M; rewrite Hbody; reflexivity.
  - unfold passes_validation.
    destruct r; cbn [passthrough required_fields forallb validation_message];
      unfold document_ask, synthesis, layman, related_papers,
             semantic_scholar_search, catch_upstream, axios_post, axios,
             forwarded, sent;
      unfold try_catch, mbind, mret, M_bind, M_ret;
      rewrite !(destructure_value _ _ _ Hbody);
      repeat match goal with
             | |- context [truthy (prop req_body ?k)] =>
                 destruct (truthy (prop req_body k)); cbn [negb orb andb]
             end;
      try reflexivity;
      match goal with |- context [upstream rt ?c] => destruct (upstream rt c) end;
      reflexivity.
Qed.

(** X5.  A required field that is present but falsy (an empty string, 0,
    [false], [null]) is refused like a missing one: the route answers 400
    with its message and the world is as before, so nothing went upstream.
    This holds for any body that is not [undefined] or [null], arrays and
    scalars included. *)
Theorem falsy_field_is_400 (r : Passthrough) (req_body : JSValue) (k : string)
    (w : World) :
  nullish req_body = false →
  k ∈ required_fields r →
  truthy (prop req_body k) = false →
  ∃ resp,
    passthrough rt r req_body w = (Returned resp, w) ∧
    code resp = 400 ∧
    prop (payload resp) "error"
    = JStr (match r with
            | Ask => "Document path and question are required"
            | Synthesis => "Query is required"
            | Layman | RelatedPapers => "Document path is required"
            | CitationSearch => "Search query is required"
            end).
Proof.
  intros Hbody Hk Hfalsy. rewrite passthrough_cases, Hbody.
  assert (Hfails : passes_validation r req_body = false).
  { unfold passes_validation. apply not_true_is_false. intros Hall.
    rewrite forallb_forall in Hall. apply list_elem_of_In in Hk.
    rewrite (Hall k Hk) in Hfalsy. discriminate Hfalsy. }
  rewrite Hfails. eexists. split; [reflexivity |].
  split; [reflexivity |]. destruct r; read_obj.
Qed.

(** X6.  A passthrough route answers every body and never raises.  It never
    touches the disk or the clock, and sends upstream either nothing or the
    one request of the route.  A body that is [undefined] or [null] is
    answered 500 with nothing sent; otherwise the answer is the 400 of the
    validation, with nothing sent, or the relayed upstream answer. *)
Theorem passthrough_effects (r : Passthrough) (req_body : JSValue) (w : World) :
  ∃ resp w',
    passthrough rt r req_body w = (Returned resp, w') ∧
    store w' = store w ∧ clock w' = clock w ∧
    ((nullish req_body = true ∧ code resp = 500 ∧ w' = w)
     ∨ (nullish req_body = false ∧ code resp = 400 ∧ w' = w)
     ∨ (nullish req_body = false ∧
        calls w' = (calls w ++
          [ {| method := POST;
               url := PYTHON_API_URL rt +:+ upstream_route r;
               body := body (forwarded rt r req_body) |} ])%list ∧
        match upstream rt (forwarded rt r req_body) with
        | Returned answer => resp = res_json (data answer)
        | Thrown error => code resp = error_status error
        end)).
Proof.
  rewrite passthrough_cases. destruct (nullish req_body).
  - eexists; eexists. split; [reflexivity |]. repeat (split; [reflexivity |]).
    by left.
  - destruct (passes_validation r req_body).
    + eexists; eexists. split; [reflexivity |]. repeat (split; [reflexivity |]).
      right; right. split; [reflexivity |]. split.
      * by destruct r.
      * by destruct (upstream rt _).
    + eexists; eexists. split; [reflexivity |]. repeat (split; [reflexivity |]).
      right; left. by repeat split.
Qed.

Lemma prop_obj_other (kvs : list (string * JSValue)) (k : string) :
  k ∉ kvs.*1 → prop (obj kvs) k = JUndefined.
Proof.
  intros Hk. unfold prop, obj.
  by rewrite (not_elem_of_list_to_map_1 (M := gmap string) kvs k).
Qed.

(** X7.  When the required fields are there and the upstream service
    answers, the route relays the answer's data untouched with 200.  The
    body it sent carries the route's own fields and nothing else: whatever
    else the caller put in the request is not passed on. *)
Theorem passthrough_relays_success (r : Passthrough) (fields : gmap string JSValue)
    (w : World) (answer : AxiosResponse) :
  (∀ k, k ∈ required_fields r → truthy (prop (JObj fields) k) = true) →
  upstream rt (forwarded rt r (JObj fields)) = Returned answer →
  ∃ w' sent_body,
    passthrough rt r (JObj fields) w = (Returned (res_json (data answer)), w') ∧
    calls w' = (calls w ++
      [ {| method := POST;
           url := PYTHON_API_URL rt +:+ upstream_route r;
           body := JsonBody sent_body |} ])%list ∧
    (∀ k, k ∈ required_fields r → prop sent_body k = prop (JObj fields) k) ∧
    (∀ k, k ∉ forwarded_fields r → prop sent_body k = JUndefined).
Proof.
  intros Hreq Hanswer.
  rewrite (passthrough_forwards rt r fields w Hreq), Hanswer.
  destruct r; cbn [forwarded sent calls relayed upstream_route];
    eexists; eexists; (split; [reflexivity |]); (split; [reflexivity |]); split.
  all: try (intros k Hk; apply prop_obj_other; exact Hk).
  all: intros k Hk; cbn [required_fields] in Hk;
    rewrite ?elem_of_cons, elem_of_nil in Hk;
    destruct Hk as [-> | Hk]; try destruct Hk as [-> | []]; try done; read_obj.
Qed.

End PassthroughEffects.

Lemma falsy_field_is_400_witness :
  let rt := Demo.runtime Demo.offline in
  let w := Demo.world Demo.disk in
  let req_body := obj [("path", JStr "/srv/athena/uploads/1700000000000-1.pdf");
                       ("question", JStr "")] in
  nullish req_body = false ∧
  "question" ∈ required_fields Ask ∧
  truthy (prop req_body "question") = false ∧
  ∃ resp,
    passthrough rt Ask req_body w = (Returned resp, w) ∧
    code resp = 400 ∧
    prop (payload resp) "error" = JStr "Document path and question are required".
Proof.
  intros rt w req_body.
  assert (H1 : nullish req_body = false) by reflexivity.
  assert (H2 : "question" ∈ required_fields Ask)
    by (apply list_elem_of_In; simpl; tauto).
  assert (H3 : truthy (prop req_body "question") = false) by (vm_compute; reflexivity).
  split; [exact H1 | split; [exact H2 | split; [exact H3 |]]].
  exact (falsy_field_is_400 rt Ask req_body "question" w H1 H2 H3).
Defined.

Lemma passthrough_relays_success_witness :
  let answer := {| status := 200;
                   data := obj [("summary", JStr "A survey of retrieval methods.")] |} in
  let rt := Demo.runtime (fun _ => Returned answer) in
  let w := Demo.world Demo.disk in
  let fields : gmap string JSValue :=
    list_to_map [("path", JStr "/srv/athena/uploads/1700000000000-1.pdf");
                 ("style", JStr "brief")] in
  (∀ k, k ∈ required_fields Layman → truthy (prop (JObj fields) k) = true) ∧
  upstream rt (forwarded rt Layman (JObj fields)) = Returned answer ∧
  ∃ w' sent_body,
    passthrough rt Layman (JObj fields) w = (Returned (res_json (data answer)), w') ∧
    calls w' = (calls w ++
      [ {| method := POST;
           url := PYTHON_API_URL rt +:+ upstream_route Layman;
           body := JsonBody sent_body |} ])%list ∧
    (∀ k, k ∈ required_fields Layman → prop sent_body k = prop (JObj fields) k) ∧
    (∀ k, k ∉ forwarded_fields Layman → prop sent_body k = JUndefined).
Proof.
  intros answer rt w fields.
  assert (H1 : ∀ k, k ∈ required_fields Layman → truthy (prop (JObj fields) k) = true)
    by (intros k Hk; each_field Hk).
  assert (H2 : upstream rt (forwarded rt Layman (JObj fields)) = Returned answer)
    by reflexivity.
  split; [exact H1 | split; [exact H2 |]].
  exact (passthrough_relays_success rt Layman fields w answer H1 H2).
Defined.

(** ** The ingest route as a whole *)

Section IngestEffects.

Variable rt : Runtime.

(** X8.  When the upstream ingest endpoint answers, the route relays its
    data with 200 and leaves the disk alone.  What it sent is one multipart
    request with one 'files' part per stored file, in order: a stream over
    the file's local path, announced under the file's original name (not
    the generated one) as application/pdf. *)
Theorem ingest_forwards_originals (files : list MulterFile) (w : World)
    (answer : AxiosResponse) :
  files ≠ [] →
  upstream rt (ingest_call rt files) = Returned answer →
  ∃ w' parts,
    ingest_handler rt (Some files) w = (Returned (res_json (data answer)), w') ∧
    store w' = store w ∧
    calls w' = (calls w ++
      [ {| method := POST;
           url := PYTHON_API_URL rt +:+ "/ingest";
           body := FormBody parts |} ])%list ∧
    Forall2 (fun f part => fp_field part = "files" ∧
                           fp_source part = path f ∧
                           fp_filename part = originalname f ∧
                           fp_contentType part = "application/pdf")
            files parts.
Proof.
  intros Hne Hanswer. destruct files as [| f files]; [done |].
  unfold ingest_call in Hanswer.
  unfold ingest_handler, axios_post, axios. unfold_M.
  cbn [no_files default id]. rewrite Hanswer.
  eexists; eexists. split; [reflexivity |]. split; [reflexivity |].
  split; [reflexivity |].
  generalize (f :: files). clear. intros l.
  induction l as [| f l IH]; constructor; [by repeat split | exact IH].
Qed.

Lemma removeUploadedFiles_returns (uploaded : list MulterFile) (w : World) :
  ∃ w', removeUploadedFiles uploaded w = (Returned tt, w').
Proof.
  revert w. induction uploaded as [| f rest IH]; intros w.
  - by exists w.
  - cbn [removeUploadedFiles]. unfold_M.
    destruct (Fs.unlink (path f) (store w)) as [s' | e].
    + destruct (IH {| store := s'; calls := calls w; clock := clock w |})
        as [w' Hrun]. exists w'. by rewrite Hrun.
    + destruct (IH w) as [w' Hrun]. exists w'. by rewrite Hrun.
Qed.

Lemma abortWith_throws (uploaded : list MulterFile) (e0 e : JSError) (w w' : World) :
  abortWith uploaded e0 w = (@Thrown (list MulterFile) e, w') → e = e0.
Proof.
  unfold abortWith, throw, mbind, M_bind.
  destruct (removeUploadedFiles_returns uploaded w) as [w1 Hrun]. rewrite Hrun.
  by intros [= <- _].
Qed.

Lemma ingest_handler_returns (req_files : option (list MulterFile)) (w : World) :
  ∃ resp w', ingest_handler rt req_files w = (Returned resp, w').
Proof.
  unfold ingest_handler, axios_post, axios. unfold_M.
  destruct (no_files req_files); [by eexists; eexists |].
  destruct (upstream rt _); by eexists; eexists.
Qed.

Lemma file_parts_cons (item : FormItem) (rest : list FormItem) :
  file_parts (item :: rest) = file_parts rest
  ∨ ∃ sent, item = FileItem sent ∧
            String.eqb (Busboy.basename (part_filename sent)) "" = false ∧
            file_parts (item :: rest) = sent :: file_parts rest.
Proof.
  unfold file_parts. cbn [omap list_omap].
  destruct item as [sent | name n v]; [| by left].
  destruct (String.eqb (Busboy.basename (part_filename sent)) "") eqn:Hname;
    [by left | right; by exists sent].
Qed.

(** A cause found among the later parts is a cause for the whole body. *)
Lemma rejection_cause_cons (field : string) (n m : nat) (item : FormItem)
    (rest : list FormItem) (failure : option JSError) (e : JSError) :
  ((n < length (file_parts rest))%nat → (m < length (file_parts (item :: rest)))%nat) →
  rejection_cause rt field n rest failure e →
  rejection_cause rt field m (item :: rest) failure e.
Proof.
  intros Hlen.
  assert (Hin : ∀ p, p ∈ file_parts rest → p ∈ file_parts (item :: rest)).
  { intros p Hp. destruct (file_parts_cons item rest) as [-> | (sent & _ & _ & ->)];
      [exact Hp | by apply list_elem_of_further]. }
  unfold rejection_cause.
  intros [(-> & [(p & Hp & Hf) | Hmany]) | [(-> & p & Hp & Hm) | [(-> & p & Hp & Hs)
    | [(p & wa & wb & Hp & Hh) | [(-> & nt & vt & Hi) | [(-> & name & vt & Hi)
    | [(-> & name & Hi) | Hfail]]]]]]].
  - left. split; [reflexivity |]. left. exists p. split; [by apply Hin | exact Hf].
  - left. split; [reflexivity |]. right. by apply Hlen.
  - right; left. split; [reflexivity |]. exists p. split; [by apply Hin | exact Hm].
  - right; right; left. split; [reflexivity |]. exists p.
    split; [by apply Hin | exact Hs].
  - right; right; right; left. exists p, wa, wb. split; [by apply Hin | exact Hh].
  - right; right; right; right; left. split; [reflexivity |]. exists nt, vt.
    by apply list_elem_of_further.
  - right; right; right; right; right; left. split; [reflexivity |]. exists name, vt.
    by apply list_elem_of_further.
  - right; right; right; right; right; right; left. split; [reflexivity |].
    exists name. by apply list_elem_of_further.
  - by repeat right.
Qed.

(** Every rejection of an upload has a cause among the parts, or is the
    parser's own error. *)
Lemma multer_files_rejection (field : string) (failure : option JSError)
    (items : list FormItem) :
  ∀ (filesLeft : nat) (uploaded : list MulterFile) (w w' : World) (e : JSError),
    multer_files rt field filesLeft uploaded items failure w = (Thrown e, w') →
    rejection_cause rt field filesLeft items failure e.
Proof.
  induction items as [| item rest IH]; intros filesLeft uploaded w w' e Hrun.
  - cbn [multer_files] in Hrun. destruct failure as [e0 |]; [| discriminate Hrun].
    apply abortWith_throws in Hrun as ->. unfold rejection_cause. by repeat right.
  - destruct item as [sent | [name |] nt vt]; cbn [multer_files] in Hrun.
    + change (part_filename (busboy_file rt sent))
        with (Busboy.basename (part_filename sent)) in Hrun.
      change (part_field (busboy_file rt sent)) with (part_field sent) in Hrun.
      change (part_bytes (busboy_file rt sent)) with (part_bytes sent) in Hrun.
      destruct (file_parts_cons (FileItem sent) rest)
        as [Hskip | (sent' & [= <-] & Hname & Hparts)].
      { assert (Hname : String.eqb (Busboy.basename (part_filename sent)) "" = true).
        { unfold file_parts in Hskip. cbn [omap list_omap] in Hskip.
          destruct (String.eqb (Busboy.basename (part_filename sent)) "");
            [reflexivity |].
          apply (f_equal length) in Hskip. cbn [length] in Hskip. lia. }
        rewrite Hname in Hrun.
        eapply rejection_cause_cons; [| by eapply IH]. by rewrite Hskip. }
      rewrite Hname in Hrun.
      assert (Hhere : sent ∈ file_parts (FileItem sent :: rest))
        by (rewrite Hparts; apply list_elem_of_here).
      assert (Hlater : ∀ n up w0,
                multer_files rt field n up rest failure w0 = (Thrown e, w') →
                (filesLeft ≤ S n)%nat →
                rejection_cause rt field filesLeft (FileItem sent :: rest) failure e).
      { intros n up w0 Hrest Hn. eapply rejection_cause_cons; [| by eapply IH].
        rewrite Hparts. cbn [length]. lia. }
      unfold rejection_cause.
      destruct (String.eqb (part_field sent) field) eqn:Hfield.
      * destruct filesLeft as [| remaining].
        { apply abortWith_throws in Hrun as ->. left. split; [reflexivity |].
          right. rewrite Hparts. cbn [length]. lia. }
        destruct (fileFilter (busboy_file rt sent)) as [[] | e1] eqn:Hfilter.
        -- unfold attempt, mbind, M_bind in Hrun.
           destruct (handleFile rt (busboy_file rt sent) w)
             as [[info | e1] w1] eqn:Hhandle.
           ++ destruct (fileSize <=? part_bytes sent) eqn:Hsize.
              ** apply abortWith_throws in Hrun as ->. apply Z.leb_le in Hsize.
                 right; right; left. split; [reflexivity |]. exists sent.
                 split; [exact Hhere | exact Hsize].
              ** eapply Hlater; [exact Hrun | lia].
           ++ apply abortWith_throws in Hrun as ->. right; right; right; left.
              exists sent, w, w1. split; [exact Hhere | exact Hhandle].
        -- eapply Hlater; [exact Hrun | lia].
        -- apply abortWith_throws in Hrun as ->.
           unfold fileFilter in Hfilter.
           change (part_mimetype (busboy_file rt sent))
             with (busboy_mimeType rt (part_mimetype sent)) in Hfilter.
           destruct (String.eqb (busboy_mimeType rt (part_mimetype sent))
                       "application/pdf") eqn:Hmime; [discriminate Hfilter |].
           injection Hfilter as <-. apply String.eqb_neq in Hmime.
           right; left. split; [reflexivity |]. exists sent.
           split; [exact Hhere | exact Hmime].
      * apply abortWith_throws in Hrun as ->. apply String.eqb_neq in Hfield.
        left. split; [reflexivity |]. left. exists sent.
        split; [exact Hhere | exact Hfield].
    + destruct nt.
      { apply abortWith_throws in Hrun as ->. unfold rejection_cause.
        right; right; right; right; right; left. split; [reflexivity |].
        exists name, vt. apply list_elem_of_here. }
      destruct vt.
      { apply abortWith_throws in Hrun as ->. unfold rejection_cause.
        right; right; right; right; right; right; left. split; [reflexivity |].
        exists name. apply list_elem_of_here. }
      eapply rejection_cause_cons; [| by eapply IH]. done.
    + apply abortWith_throws in Hrun as ->. unfold rejection_cause.
      right; right; right; right; left. split; [reflexivity |].
      exists nt, vt. apply list_elem_of_here.
Qed.

(** X9.  An ingest request fails (its error goes to Express, the handler
    does not run) only for one of these reasons.  Among its file parts: a
    file in a field other than 'files' or more than 10 files ('Unexpected
    field'), a file not announced as application/pdf ('Only PDF files are
    allowed'), a file of 50 MiB or more ('File too large'), or a file that
    could not be written to the upload directory.  Among its text fields:
    a field without a name, or one whose name or value [busboy] had to cut.
    Or the body itself: the error is the one [busboy] raised. *)
Theorem rejection_has_cause (items : list FormItem) (failure : option JSError)
    (w w' : World) (e : JSError) :
  ingest rt (Multipart items failure) w = (Thrown e, w') →
  (message e = "Unexpected field" ∧
   ((∃ p, p ∈ file_parts items ∧ part_field p ≠ "files")
    ∨ (10 < length (file_parts items))%nat))
  ∨ (message e = "Only PDF files are allowed" ∧
     ∃ p, p ∈ file_parts items ∧
          busboy_mimeType rt (part_mimetype p) ≠ "application/pdf")
  ∨ (message e = "File too large" ∧
     ∃ p, p ∈ file_parts items ∧ 50 * 1024 * 1024 ≤ part_bytes p)
  ∨ (∃ p w0 w1, p ∈ file_parts items ∧
                handleFile rt (busboy_file rt p) w0 = (Thrown e, w1))
  ∨ (message e = "Field name missing" ∧
     ∃ nameTruncated valueTruncated,
       FieldItem None nameTruncated valueTruncated ∈ items)
  ∨ (message e = "Field name too long" ∧
     ∃ name valueTruncated, FieldItem (Some name) true valueTruncated ∈ items)
  ∨ (message e = "Field value too long" ∧
     ∃ name, FieldItem (Some name) false true ∈ items)
  ∨ failure = Some e.
Proof.
  intros Hrun. unfold ingest, upload_array, mbind, mret, M_bind, M_ret in Hrun.
  destruct (multer_files rt "files" 10 [] items failure w)
    as [[files | e1] w1] eqn:Hm.
  - destruct (ingest_handler_returns (Some files) w1) as (resp & w2 & Hh).
    rewrite Hh in Hrun. discriminate Hrun.
  - injection Hrun as -> ->.
    destruct (multer_files_rejection _ _ _ _ _ _ _ _ Hm)
      as [(-> & H) | [(-> & H) | [(-> & H) | [H | [(-> & H) | [(-> & H)
         | [(-> & H) | H]]]]]]]; tauto.
Qed.

End IngestEffects.

Lemma ingest_forwards_originals_witness :
  let answer := {| status := 200;
                   data := obj [("ingested", JArr [obj [("file", JStr "survey.pdf");
                                                        ("ingested_pages", JNum 12)]])] |} in
  let rt := Demo.runtime (fun _ => Returned answer) in
  let w := Demo.world Demo.disk in
  let files := [ {| fieldname := "files"; originalname := "survey.pdf";
                    mimetype := "application/pdf";
                    path := "/srv/athena/uploads/1704067200000-123456789.pdf";
                    size := 1000 |} ] in
  files ≠ [] ∧
  upstream rt (ingest_call rt files) = Returned answer ∧
  ∃ w' parts,
    ingest_handler rt (Some files) w = (Returned (res_json (data answer)), w') ∧
    store w' = store w ∧
    calls w' = (calls w ++
      [ {| method := POST;
           url := PYTHON_API_URL rt +:+ "/ingest";
           body := FormBody parts |} ])%list ∧
    Forall2 (fun f part => fp_field part = "files" ∧
                           fp_source part = path f ∧
                           fp_filename part = originalname f ∧
                           fp_contentType part = "application/pdf")
            files parts.
Proof.
  intros answer rt w files.
  assert (H1 : files ≠ []) by discriminate.
  assert (H2 : upstream rt (ingest_call rt files) = Returned answer) by reflexivity.
  split; [exact H1 | split; [exact H2 |]].
  exact (ingest_forwards_originals rt files w answer H1 H2).
Defined.

Lemma rejection_has_cause_witness :
  let rt := Demo.runtime Demo.offline in
  let w := Demo.world Demo.disk in
  let items := [FileItem (Demo.part "survey.pdf" "application/pdf" 1000);
                FieldItem (Some "note") false false;
                FileItem (Demo.part "scan.pdf" "application/pdf" (50 * 1024 * 1024))] in
  let e := plain_error "File too large" in
  let w' := {| store := Demo.disk; calls := []; clock := 4 |} in
  ingest rt (Multipart items None) w = (Thrown e, w') ∧
  ((message e = "Unexpected field" ∧
    ((∃ p, p ∈ file_parts items ∧ part_field p ≠ "files")
     ∨ (10 < length (file_parts items))%nat))
   ∨ (message e = "Only PDF files are allowed" ∧
      ∃ p, p ∈ file_parts items ∧
           busboy_mimeType rt (part_mimetype p) ≠ "application/pdf")
   ∨ (message e = "File too large" ∧
      ∃ p, p ∈ file_parts items ∧ 50 * 1024 * 1024 ≤ part_bytes p)
   ∨ (∃ p w0 w1, p ∈ file_parts items ∧
                 handleFile rt (busboy_file rt p) w0 = (Thrown e, w1))
   ∨ (message e = "Field name missing" ∧
      ∃ nameTruncated valueTruncated,
        FieldItem None nameTruncated valueTruncated ∈ items)
   ∨ (message e = "Field name too long" ∧
      ∃ name valueTruncated, FieldItem (Some name) true valueTruncated ∈ items)
   ∨ (message e = "Field value too long" ∧
      ∃ name, FieldItem (Some name) false true ∈ items)
   ∨ None = Some e).
Proof.
  intros rt w items e w'.
  assert (H1 : ingest rt (Multipart items None) w = (Thrown e, w'))
    by (vm_compute; reflexivity).
  split; [exact H1 |].
  exact (rejection_has_cause rt items None w w' e H1).
Defined.

(** ** What an accepted upload leaves on the disk *)

Section UploadStores.

Variable rt : Runtime.

(** X10.  After an accepted upload every file handed to the route handler
    is a file on the disk, stored in the upload directory under a generated
    name that takes nothing from the client's name but its extension.  No
    other path of the disk has changed, and the middleware has sent nothing
    upstream. *)
Theorem upload_stores_reported_files (items : list FormItem)
    (failure : option JSError) (w w' : World) (files : list MulterFile) :
  upload_array rt "files" 10 (Multipart items failure) w
  = (Returned (Some files), w') →
  calls w' = calls w ∧
  (∀ f, f ∈ files →
     (∃ st, store w' !! path f = Some (Fs.File st)) ∧
     ∃ t, path f
          = path_join rt [UPLOADS_DIR rt;
                          (pretty (date_now rt t) +:+ "-"
                           +:+ pretty (math_random_1E9 rt t))
                          +:+ path_extname rt (originalname f)]) ∧
  (∀ p, p ∉ path <$> files → store w' !! p = store w !! p).
Proof.
  intros Hrun. unfold upload_array, mbind, mret, M_bind, M_ret in Hrun.
  destruct (multer_files rt "files" 10 [] items failure w)
    as [[stored | e] w1] eqn:Hm; [| discriminate Hrun].
  injection Hrun as <- <-.
  destruct (multer_files_stores rt _ _ _ _ _ _ _ _ Hm) as (new & -> & H).
  exact H.
Qed.

End UploadStores.

Lemma upload_stores_reported_files_witness :
  let rt := Demo.runtime Demo.offline in
  let w := Demo.world Demo.disk in
  let items := [FileItem (Demo.part "survey.pdf" "application/pdf" 1000);
                FileItem (Demo.part "Thesis Final.PDF" "application/pdf" 2000)] in
  let files := (stored_by_multer rt items w).1 in
  let w' := (stored_by_multer rt items w).2 in
  upload_array rt "files" 10 (Multipart items None) w = (Returned (Some files), w') ∧
  path <$> files = ["/srv/athena/uploads/1704067200000-123456789.pdf";
                    "/srv/athena/uploads/1704067200000-123456791.PDF"] ∧
  calls w' = calls w ∧
  (∀ f, f ∈ files →
     (∃ st, store w' !! path f = Some (Fs.File st)) ∧
     ∃ t, path f
          = path_join rt [UPLOADS_DIR rt;
                          (pretty (date_now rt t) +:+ "-"
                           +:+ pretty (math_random_1E9 rt t))
                          +:+ path_extname rt (originalname f)]) ∧
  (∀ p, p ∉ path <$> files → store w' !! p = store w !! p).
Proof.
  intros rt w items files w'.
  assert (H1 : upload_array rt "files" 10 (Multipart items None) w
               = (Returned (Some files), w')) by (vm_compute; reflexivity).
  split; [exact H1 |]. split; [vm_compute; reflexivity |].
  exact (upload_stores_reported_files rt items None w w' files H1).
Defined.

(** ** Deleting, then listing *)

Section DeleteThenList.

Variable rt : Runtime.

Lemma strip_prefix_Some (p s r : string) :
  Fs.strip_prefix p s = Some r → s = p +:+ r.
Proof.
  revert s. induction p as [| a p IH]; intros s; cbn [Fs.strip_prefix].
  - by intros [= ->].
  - destruct s as [| b s]; [discriminate |].
    destruct (Ascii.eqb a b) eqn:Hab; [| discriminate].
    apply Ascii.eqb_eq in Hab as ->. intros Hs. cbn. by rewrite (IH _ Hs).
Qed.

Lemma child_name_key (d k n : string) :
  Fs.child_name d k = Some n → k = Fs.dir_prefix d +:+ n.
Proof.
  unfold Fs.child_name.
  destruct (Fs.strip_prefix (Fs.dir_prefix d) k) as [r |] eqn:Hstrip; [| discriminate].
  destruct (String.eqb r "" || Fs.has_slash r); [discriminate |].
  intros [= <-]. by apply strip_prefix_Some.
Qed.

(** Every name a directory listing returns is a key of the store. *)
Lemma readdir_entry (d : string) (s : Fs.Store) (names : list string) (n : string) :
  Fs.readdir d s = Returned names → n ∈ names →
  is_Some (s !! (Fs.dir_prefix d +:+ n)).
Proof.
  unfold Fs.readdir. destruct (Fs.lookup d s) as [[st | st |] |]; try discriminate.
  intros [= <-] Hn. apply list_elem_of_omap in Hn as (k & Hk & Hchild).
  apply child_name_key in Hchild as ->.
  apply list_elem_of_In, in_map_iff in Hk as ([k' node] & Hfst & Hin).
  cbn in Hfst. subst k'. apply list_elem_of_In, elem_of_map_to_list in Hin.
  by exists node.
Qed.

(** The route once the first candidate has been found and unlinked. *)
Lemma delete_upload_first_candidate (param filename : string) (w : World)
    (s' : Fs.Store) :
  decodeURIComponent rt param = Returned filename →
  Fs.access (path_join rt [UPLOADS_DIR rt; filename]) (store w) = Returned tt →
  Fs.unlink (path_join rt [UPLOADS_DIR rt; filename]) (store w) = Returned s' →
  ∃ resp w',
    delete_upload rt param w = (Returned resp, w') ∧
    code resp = 200 ∧
    store w' = delete (path_join rt [UPLOADS_DIR rt; filename]) (store w).
Proof.
  intros Hdecode Hacc Hunlink.
  assert (Hs' : s' = delete (path_join rt [UPLOADS_DIR rt; filename]) (store w)).
  { unfold Fs.unlink in Hunlink.
    destruct (Fs.lookup _ (store w)) as [[st | st |] |]; congruence. }
  unfold delete_upload. unfold_M. rewrite Hdecode.
  unfold possiblePaths. cbn [first_accessible]. unfold_M. rewrite Hacc.
  rewrite (no_path_found _ _ Hacc). cbn [default id]. rewrite Hunlink, Hs'.
  unfold axios_delete, axios.
  destruct (encodeURIComponent rt filename) as [encoded | e1];
    [match goal with |- context [upstream rt ?c] => destruct (upstream rt c) end |];
    eexists; eexists; (split; [reflexivity |]); by split.
Qed.

(** X11.  Deleting, then listing.  Take a parameter that decodes to
    [filename], where [path.join(UPLOADS_DIR, filename)] is the entry
    [filename] of the upload directory, found there and unlinked.  The
    route answers 200, and a listing taken afterwards from the local
    directory (the upstream service being unreachable) has no record of
    that name. *)
Theorem delete_then_list (param filename : string) (w : World) (s' : Fs.Store)
    (e : JSError) :
  decodeURIComponent rt param = Returned filename →
  path_join rt [UPLOADS_DIR rt; filename] = Fs.dir_prefix (UPLOADS_DIR rt) +:+ filename →
  Fs.access (path_join rt [UPLOADS_DIR rt; filename]) (store w) = Returned tt →
  Fs.unlink (path_join rt [UPLOADS_DIR rt; filename]) (store w) = Returned s' →
  upstream rt (uploads_call rt) = Thrown e →
  ∃ resp w' listing w'',
    delete_upload rt param w = (Returned resp, w') ∧
    code resp = 200 ∧
    list_uploads rt w' = (Returned listing, w'') ∧
    ∀ records r,
      prop (payload listing) "files" = JArr records →
      r ∈ records →
      prop r "name" ≠ JStr filename.
Proof.
  intros Hdecode Hjoin Hacc Hunlink Hdown.
  destruct (delete_upload_first_candidate _ _ _ _ Hdecode Hacc Hunlink)
    as (resp & w' & Hrun & Hcode & Hstore).
  exists resp, w'. unfold uploads_call in Hdown.
  unfold list_uploads, axios_get, axios. unfold_M. rewrite Hdown. cbn [store].
  destruct (Fs.readdir (UPLOADS_DIR rt) (store w')) as [names | err] eqn:Hdir.
  - match goal with |- context [promise_all_map ?f ?l ?w1] =>
      destruct (records_run rt l w1) as (o & Hlist & Hspec); rewrite Hlist
    end.
    destruct o as [found | err]; eexists; eexists;
      (split; [exact Hrun |]); (split; [exact Hcode |]);
      (split; [reflexivity |]); intros records r Hfiles Hr.
    + assert (Hpay : prop (obj [("files", JArr found)]) "files" = JArr found)
        by read_obj.
      cbn [payload res_json] in Hfiles. rewrite Hpay in Hfiles.
      injection Hfiles as <-.
      apply list_elem_of_lookup in Hr as [i Hi].
      destruct (Forall2_lookup_r _ _ _ _ _ Hspec Hi) as (name & Hname & st & _ & ->).
      assert (Hin : name ∈ names).
      { apply list_elem_of_lookup_2 in Hname. apply list_elem_of_In, filter_In in Hname.
        apply list_elem_of_In. tauto. }
      assert (Hrec : prop (local_record rt name st) "name" = JStr name)
        by (unfold local_record; read_obj).
      rewrite Hrec. intros [= ->].
      destruct (readdir_entry _ _ _ _ Hdir Hin) as [node Hnode].
      cbn [store] in Hnode. rewrite Hstore, <- Hjoin, lookup_delete_eq in Hnode.
      discriminate Hnode.
    + assert (Hpay : ∀ v, prop (obj [("error", v)]) "files" = JUndefined)
        by (intros v; read_obj).
      cbn [payload res_status_json] in Hfiles. rewrite Hpay in Hfiles.
      discriminate Hfiles.
  - eexists; eexists. split; [exact Hrun |]. split; [exact Hcode |].
    split; [reflexivity |]. intros records r Hfiles _.
    assert (Hpay : ∀ v, prop (obj [("error", v)]) "files" = JUndefined)
      by (intros v; read_obj).
    cbn [payload res_status_json] in Hfiles. rewrite Hpay in Hfiles.
    discriminate Hfiles.
Qed.

End DeleteThenList.

Lemma delete_then_list_witness :
  let rt := Demo.runtime Demo.offline in
  let w := Demo.world Demo.disk in
  let name := "1700000000000-1.pdf" in
  let p := "/srv/athena/uploads/1700000000000-1.pdf" in
  let e := plain_error "connect ECONNREFUSED 127.0.0.1:8000" in
  decodeURIComponent rt name = Returned name ∧
  path_join rt [UPLOADS_DIR rt; name] = Fs.dir_prefix (UPLOADS_DIR rt) +:+ name ∧
  Fs.access (path_join rt [UPLOADS_DIR rt; name]) (store w) = Returned tt ∧
  Fs.unlink (path_join rt [UPLOADS_DIR rt; name]) (store w)
  = Returned (delete p Demo.disk) ∧
  upstream rt (uploads_call rt) = Thrown e ∧
  ∃ resp w' listing w'',
    delete_upload rt name w = (Returned resp, w') ∧
    code resp = 200 ∧
    list_uploads rt w' = (Returned listing, w'') ∧
    ∀ records r,
      prop (payload listing) "files" = JArr records →
      r ∈ records →
      prop r "name" ≠ JStr name.
Proof.
  intros rt w name p e.
  assert (H1 : decodeURIComponent rt name = Returned name) by reflexivity.
  assert (H2 : path_join rt [UPLOADS_DIR rt; name]
               = Fs.dir_prefix (UPLOADS_DIR rt) +:+ name) by (vm_compute; reflexivity).
  assert (H3 : Fs.access (path_join rt [UPLOADS_DIR rt; name]) (store w) = Returned tt)
    by (vm_compute; reflexivity).
  assert (H4 : Fs.unlink (path_join rt [UPLOADS_DIR rt; name]) (store w)
               = Returned (delete p Demo.disk)) by (vm_compute; reflexivity).
  assert (H5 : upstream rt (uploads_call rt) = Thrown e) by reflexivity.
  split; [exact H1 | split; [exact H2 | split; [exact H3 | split; [exact H4 |
    split; [exact H5 |]]]]].
  exact (delete_then_list rt name name w (delete p Demo.disk) e H1 H2 H3 H4 H5).
Defined.

(** * Properties of the frontend *)

(** ** The theme *)

Section Theme.

Import Frontend.

(** X12.  The theme survives a reload: the mode read back from
    [localStorage] after the effect has run is the mode the effect ran
    with, the document carries the matching [data-theme], and no other key
    of [localStorage] is touched.  Toggling twice gives the first mode
    back. *)
Theorem theme_survives_reload (isDarkMode : bool) (page : Page) :
  initial_isDarkMode (theme_effect isDarkMode page) = isDarkMode ∧
  data_theme (theme_effect isDarkMode page)
  = Some (if isDarkMode then "dark" else "light") ∧
  (∀ key, key ≠ "athena-theme" →
     localStorage (theme_effect isDarkMode page) !! key = localStorage page !! key) ∧
  (let '(once, page1) := toggleTheme isDarkMode page in
   let '(twice, page2) := toggleTheme once page1 in
   twice = isDarkMode ∧ initial_isDarkMode page1 = negb isDarkMode
   ∧ initial_isDarkMode page2 = isDarkMode).
Proof.
  assert (Hread : ∀ d p, initial_isDarkMode (theme_effect d p) = d).
  { intros d p. unfold initial_isDarkMode, theme_effect. cbn [localStorage].
    rewrite lookup_insert_eq. by destruct d. }
  split; [apply Hread |]. split; [reflexivity |]. split.
  - intros key Hkey. unfold theme_effect. cbn [localStorage].
    by rewrite lookup_insert_ne.
  - unfold toggleTheme. rewrite !Hread. by rewrite negb_involutive.
Qed.

End Theme.

(** ** JSON on the wire *)

Section Wire.

Import Frontend.

Lemma truthy_jsonify (v : JSValue) : truthy (jsonify v) = truthy v.
Proof. by destruct v. Qed.

Lemma prop_jsonify (fields : gmap string JSValue) (k : string) :
  prop (jsonify (JObj fields)) k = jsonify (prop (JObj fields) k).
Proof.
  cbn [jsonify prop]. rewrite lookup_omap.
  destruct (fields !! k) as [v |]; cbn; [| reflexivity].
  by destruct (jsonify v).
Qed.

Lemma jsonify_string (s : string) : jsonify (JStr s) = JStr s.
Proof. reflexivity. Qed.

End Wire.

(** ** The upload list *)

Section UploadList.

Import Frontend.

Variable b : Browser.

(** What [fetchUploads] makes of a body that parsed. *)
Lemma fetchUploads_parsed (uploads data : JSValue) (response : FetchResponse) :
  fetch b (uploads_request b) = Resolved response →
  json response = inr data →
  nullish data = false →
  (fetchUploads b uploads).1 = js_or (prop data "files") (JArr []).
Proof.
  intros Hfetch Hjson Hdata. unfold fetchUploads, read. fold (uploads_request b).
  cbn [fst]. by rewrite Hfetch, Hjson, Hdata.
Qed.

(** The 500 of the listing route carries an [error] and nothing else. *)
Lemma list_uploads_500 (rt : Runtime) (w w' : World) (resp : Response) :
  list_uploads rt w = (Returned resp, w') →
  code resp = 500 →
  ∃ msg, payload resp = obj [("error", JStr msg)].
Proof.
  unfold list_uploads, axios_get, axios. unfold_M.
  destruct (upstream rt _) as [answer | e].
  - intros [= <- _] Hcode. discriminate Hcode.
  - cbn [store]. destruct (Fs.readdir (UPLOADS_DIR rt) (store w)) as [names | err].
    + match goal with |- context [promise_all_map ?f ?l ?w1] =>
        destruct (records_run rt l w1) as (o & Hrun & _); rewrite Hrun
      end.
      destruct o as [records | err]; intros [= <- _] Hcode;
        [discriminate Hcode | by eexists].
    + intros [= <- _] _. by eexists.
Qed.

(** X13.  Refreshing the upload list.  When [fetch] fails, the list stays
    as it was.  When the proxy answers the listing with 500 (its upstream
    is unreachable and the upload directory cannot be listed), the view
    does not look at the status: the body has no [files], and the list
    becomes empty. *)
Theorem refresh_of_the_upload_list (uploads : JSValue) :
  (∀ e, fetch b (uploads_request b) = Rejected e →
        (fetchUploads b uploads).1 = uploads) ∧
  (∀ (rt : Runtime) (w w' : World) (resp : Response),
     list_uploads rt w = (Returned resp, w') →
     code resp = 500 →
     fetch b (uploads_request b) = Resolved (wire resp) →
     (fetchUploads b uploads).1 = JArr []).
Proof.
  split.
  - intros e Hfetch. unfold fetchUploads. fold (uploads_request b). by rewrite Hfetch.
  - intros rt w w' resp Hrun Hcode Hfetch.
    destruct (list_uploads_500 rt w w' resp Hrun Hcode) as [msg Hpayload].
    rewrite (fetchUploads_parsed uploads (jsonify (obj [("error", JStr msg)]))
               (wire resp) Hfetch).
    + unfold obj. rewrite prop_jsonify. unfold prop.
      rewrite (not_elem_of_list_to_map_1 (M := gmap string)); [reflexivity |].
      cbn. apply not_elem_of_cons. split; [discriminate | apply not_elem_of_nil].
    + unfold wire. by rewrite Hpayload.
    + reflexivity.
Qed.

End UploadList.

(** ** The related-papers view *)

Section RelatedView.

Import Frontend.

Variable b : Browser.

Lemma related_step_one_pane (st : RelatedState) (ev : RelatedEvent) :
  one_pane st → one_pane (related_step b st ev).
Proof.
  unfold one_pane. intros Hst. destruct ev as [text | selectedFile |];
    cbn [related_step].
  - exact Hst.
  - unfold handleRelatedPapers. destruct (negb (truthy selectedFile)); [exact Hst |].
    cbn [fst]. by destruct (try_fetch b _ _).
  - unfold handleSearch. destruct (String.eqb (trim b (searchQuery st)) "");
      [exact Hst |].
    cbn [fst]. destruct (try_fetch b _ _) as [err | data];
      [| destruct (read b data "results")]; cbn [results relatedPapers truthy];
      by rewrite andb_false_r.
Qed.

(** X14.  However the user types, searches by keywords and asks for the
    papers related to a document, and however the requests end, the view
    never holds both the keyword results and the related papers: starting
    a search of one kind clears what the other kind had found. *)
Theorem related_panes_exclusive (events : list RelatedEvent) :
  let st := foldl (related_step b) related_initial events in
  truthy (results st) && truthy (relatedPapers st) = false.
Proof.
  cbn zeta. change (one_pane (foldl (related_step b) related_initial events)).
  assert (Hinit : one_pane related_initial) by reflexivity.
  revert Hinit. generalize related_initial.
  induction events as [| ev events IH]; intros st Hst; [exact Hst |].
  cbn [foldl]. apply IH. by apply related_step_one_pane.
Qed.

End RelatedView.

(** ** The synthesis view *)

Section SynthesisForm.

Import Frontend.

Variable b : Browser.

Lemma synthesis_catch_nonempty (err : BrowserError) : synthesis_catch err ≠ "".
Proof.
  unfold synthesis_catch, network_error_message, or_string.
  destruct (is_network_error err); [discriminate |].
  destruct (_ || _); [discriminate |].
  destruct (String.eqb (err_message err) "") eqn:Hmsg; [discriminate |].
  by apply String.eqb_neq.
Qed.

(** X15.  Submitting the synthesis form.  A query that is empty once
    trimmed does nothing: no request, the state as it was.  Any other
    query sends exactly one POST with the trimmed query, and however the
    request ends the form is left not loading, with the query untouched
    and either a result and no error, or no result and an error message
    that is not empty (so that the banner shows). *)
Theorem synthesis_submit_settles (st : SynthesisState) :
  let '(st', requests) := synthesis_submit b st in
  if String.eqb (trim b (query st)) "" then st' = st ∧ requests = []
  else
    requests = [ {| fr_method := POST; fr_url := API_BASE b +:+ "/synthesis";
                    fr_json := Some (obj [("query", JStr (trim b (query st)))]) |} ] ∧
    synthesis_loading st' = false ∧
    query st' = query st ∧
    ((synthesis_error st' = JNull)
     ∨ (result st' = JNull ∧
        ∃ msg, synthesis_error st' = JStr msg ∧ msg ≠ "")).
Proof.
  unfold synthesis_submit.
  destruct (String.eqb (trim b (query st)) ""); [by split |].
  destruct (try_fetch b _ _) as [err | data]; repeat (split; [reflexivity |]).
  - right. split; [reflexivity |]. eexists. split; [reflexivity |].
    apply synthesis_catch_nonempty.
  - by left.
Qed.

End SynthesisForm.

(** ** The views against the proxy *)

Section ViewsAndProxy.

Import Frontend.

Variable b : Browser.

Lemma nonempty_is_truthy (s : string) :
  String.eqb s "" = false → truthy (JStr s) = true.
Proof. intros Hs. cbn [truthy]. by rewrite Hs. Qed.

(** Parsing keeps the required fields truthy. *)
Lemma parsed_body_passes (r : Passthrough) (kvs : list (string * JSValue)) :
  (∀ k, k ∈ required_fields r → truthy (prop (obj kvs) k) = true) →
  passes_validation r (jsonify (obj kvs)) = true.
Proof.
  intros Hreq. unfold passes_validation. apply forallb_forall. intros k Hk.
  unfold obj. rewrite prop_jsonify, truthy_jsonify.
  apply Hreq. by apply list_elem_of_In.
Qed.

(** A body whose required fields are truthy goes upstream, parsed. *)
Lemma parsed_body_goes_upstream (r : Passthrough) (kvs : list (string * JSValue))
    (rt : Runtime) (w : World) :
  (∀ k, k ∈ required_fields r → truthy (prop (obj kvs) k) = true) →
  ∃ resp,
    passthrough rt r (jsonify (obj kvs)) w
    = (Returned resp, sent (forwarded rt r (jsonify (obj kvs))) w).
Proof.
  intros Hreq. rewrite passthrough_cases. cbn [jsonify obj nullish].
  pose proof (parsed_body_passes r kvs Hreq) as Hpass.
  unfold obj in Hpass. cbn [jsonify] in Hpass. rewrite Hpass. by eexists.
Qed.

(** X16.  Whatever a view sends, the proxy takes: each of the four forms
    sends its request (when it sends one) to a path the proxy serves, with
    a body that passes that route's validation, so the proxy never answers
    it with its own 400 but hands it on to the upstream service.  The
    guards of the forms (a query that is not blank, a document that is
    selected) are at least as strict as the checks of the routes. *)
Theorem view_requests_reach_upstream :
  (∀ st request,
     (synthesis_submit b st).2 = [request] → reaches_upstream b request Synthesis) ∧
  (∀ selectedFile st request,
     (handleRelatedPapers b selectedFile st).2 = [request] →
     reaches_upstream b request RelatedPapers) ∧
  (∀ st request,
     (handleSearch b st).2 = [request] → reaches_upstream b request CitationSearch) ∧
  (∀ file st request,
     (qa_submit b file st).2 = [request] → reaches_upstream b request Ask).
Proof.
  split; [| split; [| split]].
  - intros st request. unfold synthesis_submit.
    destruct (String.eqb (trim b (query st)) "") eqn:Hblank; [discriminate |].
    intros [= <-]. exists "/synthesis". eexists.
    split; [reflexivity |]. split; [reflexivity |].
    split; [apply list_elem_of_In; simpl; tauto |]. split; [reflexivity |].
    intros rt w. apply parsed_body_goes_upstream. intros k Hk.
    cbn [required_fields] in Hk. apply list_elem_of_singleton in Hk as ->.
    rewrite <- (nonempty_is_truthy _ Hblank). f_equal. read_obj.
  - intros selectedFile st request. unfold handleRelatedPapers.
    destruct (truthy selectedFile) eqn:Hfile; cbn [negb]; [| discriminate].
    intros [= <-]. exists "/related-papers". eexists.
    split; [reflexivity |]. split; [reflexivity |].
    split; [apply list_elem_of_In; simpl; tauto |]. split; [reflexivity |].
    intros rt w. apply parsed_body_goes_upstream. intros k Hk.
    cbn [required_fields] in Hk. apply list_elem_of_singleton in Hk as ->.
    rewrite <- Hfile. f_equal. read_obj.
  - intros st request. unfold handleSearch.
    destruct (String.eqb (trim b (searchQuery st)) "") eqn:Hblank; [discriminate |].
    intros [= <-]. exists "/semantic-scholar/search". eexists.
    split; [reflexivity |]. split; [reflexivity |].
    split; [apply list_elem_of_In; simpl; tauto |]. split; [reflexivity |].
    intros rt w. apply parsed_body_goes_upstream. intros k Hk.
    cbn [required_fields] in Hk. apply list_elem_of_singleton in Hk as ->.
    rewrite <- (nonempty_is_truthy _ Hblank). f_equal. read_obj.
  - intros file st request. unfold qa_submit.
    destruct (String.eqb (trim b (question st)) "") eqn:Hblank; [discriminate |].
    destruct (truthy file) eqn:Hfile; cbn [negb orb]; [| discriminate].
    intros [= <-]. exists "/document/ask". eexists.
    split; [reflexivity |]. split; [reflexivity |].
    split; [apply list_elem_of_In; simpl; tauto |]. split; [reflexivity |].
    intros rt w. apply parsed_body_goes_upstream. intros k Hk.
    cbn [required_fields] in Hk.
    rewrite ?elem_of_cons, elem_of_nil in Hk. destruct Hk as [-> | [-> | []]].
    + rewrite <- Hfile. f_equal. read_obj.
    + rewrite <- (nonempty_is_truthy _ Hblank). f_equal. read_obj.
Qed.

(** X17.  From the upstream service to the banner.  When the upstream
    search fails with a [detail] string, the proxy answers with that
    string as [error] under the upstream status, and the keyword search of
    the related-papers view, receiving that answer, shows exactly that
    string; the results it had stay as they were. *)
Theorem upstream_detail_reaches_the_banner (rt : Runtime) (w w' : World)
    (st : RelatedState) (e : JSError) (upstream_answer : AxiosResponse)
    (detail : string) (resp : Response) :
  let sent_json := obj [("query", JStr (trim b (searchQuery st))); ("limit", JNum 10)] in
  String.eqb (trim b (searchQuery st)) "" = false →
  passthrough rt CitationSearch (jsonify sent_json) w = (Returned resp, w') →
  upstream rt (forwarded rt CitationSearch (jsonify sent_json)) = Thrown e →
  response e = Some upstream_answer →
  prop (data upstream_answer) "detail" = JStr detail →
  detail ≠ "" →
  code resp < 200 ∨ 299 < code resp →
  fetch b {| fr_method := POST; fr_url := API_BASE b +:+ "/semantic-scholar/search";
             fr_json := Some sent_json |} = Resolved (wire resp) →
  related_error (handleSearch b st).1 = JStr detail ∧
  results (handleSearch b st).1 = results st.
Proof.
  intros sent_json Hblank Hproxy Hdown Hresponse Hdetail Hne Hcode Hfetch.
  assert (Hresp : resp = res_status_json (error_status e) (obj [("error", JStr detail)])).
  { assert (Hpass : passes_validation CitationSearch (jsonify sent_json) = true).
    { apply parsed_body_passes. intros k Hk. cbn [required_fields] in Hk.
      apply list_elem_of_singleton in Hk as ->.
      rewrite <- (nonempty_is_truthy _ Hblank). f_equal. read_obj. }
    rewrite passthrough_cases in Hproxy.
    unfold sent_json, obj in Hproxy, Hpass, Hdown.
    cbn [jsonify nullish] in Hproxy, Hpass, Hdown.
    rewrite Hpass, Hdown in Hproxy.
    injection Hproxy as <- _. cbn [relayed]. f_equal.
    unfold error_detail. rewrite Hresponse, opt_prop_is_prop, Hdetail.
    unfold js_or. cbn [truthy]. apply String.eqb_neq in Hne. by rewrite Hne. }
  assert (Hok : ok (wire resp) = false).
  { unfold wire. cbn [ok]. destruct Hcode as [Hlow | Hhigh].
    - apply Z.leb_gt in Hlow. by rewrite Hlow.
    - apply Z.leb_gt in Hhigh. rewrite Hhigh. apply andb_false_r. }
  assert (Hjson : json (wire resp) = inr (jsonify (obj [("error", JStr detail)])))
    by (by rewrite Hresp).
  assert (Herror : prop (jsonify (obj [("error", JStr detail)])) "error" = JStr detail).
  { unfold obj. rewrite prop_jsonify. fold (obj [("error", JStr detail)]).
    rewrite prop_error_payload. reflexivity. }
  assert (Htruthy : truthy (JStr detail) = true).
  { cbn [truthy]. apply String.eqb_neq in Hne. by rewrite Hne. }
  unfold handleSearch. rewrite Hblank. fold sent_json. cbn [fst].
  unfold try_fetch. rewrite Hfetch, Hok.
  unfold error_of_response, read. rewrite Hjson. cbn [nullish jsonify obj].
  unfold obj in Herror. cbn [jsonify] in Herror. rewrite Herror.
  unfold js_or. rewrite !Htruthy. cbn [ToString].
  cbn [related_error results]. split; [| reflexivity].
  unfold related_catch, is_network_error, new_Error, or_string.
  cbn [err_name err_message].
  change (String.eqb "Error" "TypeError") with false. cbn [andb].
  apply String.eqb_neq in Hne. by rewrite Hne.
Qed.

End ViewsAndProxy.

Lemma refresh_of_the_upload_list_witness :
  let rt := Demo.runtime Demo.offline in
  let w := Demo.world ∅ in
  let resp := DemoBrowser.answer_of (list_uploads rt w) in
  let w' := (list_uploads rt w).2 in
  let down := DemoBrowser.browser DemoBrowser.unreachable in
  let up := DemoBrowser.browser (DemoBrowser.proxy_fetch rt w "http://localhost:3001") in
  let shown := JArr [obj [("filename", JStr "1700000000000-1.pdf")]] in
  (Frontend.fetch down (Frontend.uploads_request down)
   = Frontend.Rejected {| Frontend.err_name := "TypeError";
                          Frontend.err_message := "Failed to fetch" |} ∧
   (Frontend.fetchUploads down shown).1 = shown) ∧
  (list_uploads rt w = (Returned resp, w') ∧
   code resp = 500 ∧
   Frontend.fetch up (Frontend.uploads_request up) = Frontend.Resolved (wire resp) ∧
   (Frontend.fetchUploads up shown).1 = JArr []).
Proof.
  intros rt w resp w' down up shown.
  assert (H0 : Frontend.fetch down (Frontend.uploads_request down)
               = Frontend.Rejected {| Frontend.err_name := "TypeError";
                                      Frontend.err_message := "Failed to fetch" |})
    by reflexivity.
  assert (H1 : list_uploads rt w = (Returned resp, w')) by (vm_compute; reflexivity).
  assert (H2 : code resp = 500) by (vm_compute; reflexivity).
  assert (H3 : Frontend.fetch up (Frontend.uploads_request up)
               = Frontend.Resolved (wire resp)) by (vm_compute; reflexivity).
  split.
  - split; [exact H0 |].
    exact (proj1 (refresh_of_the_upload_list down shown) _ H0).
  - split; [exact H1 |]. split; [exact H2 |]. split; [exact H3 |].
    exact (proj2 (refresh_of_the_upload_list up shown) rt w w' resp H1 H2 H3).
Defined.

Lemma view_requests_reach_upstream_witness :
  let b := DemoBrowser.browser DemoBrowser.unreachable in
  let synthesis_form :=
    {| Frontend.query := "  attention in transformers "; Frontend.result := JNull;
       Frontend.synthesis_loading := false; Frontend.synthesis_error := JNull |} in
  let synthesis_request :=
    {| Frontend.fr_method := POST;
       Frontend.fr_url := "http://localhost:3001/api/synthesis";
       Frontend.fr_json := Some (obj [("query", JStr "attention in transformers")]) |} in
  let qa_form :=
    {| Frontend.question := "What is the main result?"; Frontend.answer := JNull;
       Frontend.qa_loading := false; Frontend.qa_error := JNull |} in
  let file := JStr "/srv/athena/uploads/1700000000000-1.pdf" in
  let qa_request :=
    {| Frontend.fr_method := POST;
       Frontend.fr_url := "http://localhost:3001/api/document/ask";
       Frontend.fr_json := Some (obj [("path", file);
                                      ("question", JStr "What is the main result?")]) |} in
  ((Frontend.synthesis_submit b synthesis_form).2 = [synthesis_request] ∧
   reaches_upstream b synthesis_request Synthesis) ∧
  ((Frontend.qa_submit b file qa_form).2 = [qa_request] ∧
   reaches_upstream b qa_request Ask).
Proof.
  intros b synthesis_form synthesis_request qa_form file qa_request.
  assert (H1 : (Frontend.synthesis_submit b synthesis_form).2 = [synthesis_request])
    by (vm_compute; reflexivity).
  assert (H2 : (Frontend.qa_submit b file qa_form).2 = [qa_request])
    by (vm_compute; reflexivity).
  split.
  - split; [exact H1 |].
    exact (proj1 (view_requests_reach_upstream b) synthesis_form synthesis_request H1).
  - split; [exact H2 |].
    exact (proj2 (proj2 (proj2 (view_requests_reach_upstream b)))
             file qa_form qa_request H2).
Defined.

Lemma upstream_detail_reaches_the_banner_witness :
  let upstream_answer :=
    {| JS.status := 429; JS.data := obj [("detail", JStr "Rate limit exceeded")] |} in
  let e := {| message := "Request failed with status code 429";
              response := Some upstream_answer |} in
  let rt := Demo.runtime (Demo.failing 429 (obj [("detail", JStr "Rate limit exceeded")])) in
  let w := Demo.world Demo.disk in
  let b := DemoBrowser.browser (DemoBrowser.proxy_fetch rt w "http://localhost:3001") in
  let st := {| Frontend.searchQuery := " graph neural networks ";
               Frontend.results := JArr [obj [("title", JStr "An earlier hit")]];
               Frontend.relatedPapers := JNull;
               Frontend.related_loading := false;
               Frontend.related_error := JNull |} in
  let sent_json := obj [("query", JStr "graph neural networks"); ("limit", JNum 10)] in
  let run := passthrough rt CitationSearch (Frontend.jsonify sent_json) w in
  let resp := DemoBrowser.answer_of run in
  (String.eqb (Frontend.trim b (Frontend.searchQuery st)) "" = false ∧
   run = (Returned resp, run.2) ∧
   upstream rt (forwarded rt CitationSearch (Frontend.jsonify sent_json)) = Thrown e ∧
   code resp = 429) ∧
  Frontend.related_error (Frontend.handleSearch b st).1 = JStr "Rate limit exceeded" ∧
  Frontend.results (Frontend.handleSearch b st).1 = Frontend.results st.
Proof.
  intros upstream_answer e rt w b st sent_json run resp.
  assert (H1 : String.eqb (Frontend.trim b (Frontend.searchQuery st)) "" = false)
    by (vm_compute; reflexivity).
  assert (H2 : run = (Returned resp, run.2)) by (vm_compute; reflexivity).
  assert (H3 : upstream rt (forwarded rt CitationSearch (Frontend.jsonify sent_json))
               = Thrown e) by (vm_compute; reflexivity).
  assert (H4 : response e = Some upstream_answer) by reflexivity.
  assert (H5 : prop (data upstream_answer) "detail" = JStr "Rate limit exceeded")
    by (vm_compute; reflexivity).
  assert (H6 : "Rate limit exceeded" ≠ "") by discriminate.
  assert (H7 : code resp = 429) by (vm_compute; reflexivity).
  assert (H8 : code resp < 200 ∨ 299 < code resp) by (right; rewrite H7; lia).
  assert (H9 : Frontend.fetch b
                 {| Frontend.fr_method := POST;
                    Frontend.fr_url := Frontend.API_BASE b +:+ "/semantic-scholar/search";
                    Frontend.fr_json :=
                      Some (obj [("query", JStr (Frontend.trim b (Frontend.searchQuery st)));
                                 ("limit", JNum 10)]) |}
               = Frontend.Resolved (wire resp)) by (vm_compute; reflexivity).
  split; [split; [exact H1 | split; [exact H2 | split; [exact H3 | exact H7]]] |].
  assert (Hsent : obj [("query", JStr (Frontend.trim b (Frontend.searchQuery st)));
                       ("limit", JNum 10)] = sent_json) by (vm_compute; reflexivity).
  refine (upstream_detail_reaches_the_banner b rt w run.2 st e upstream_answer
            "Rate limit exceeded" resp H1 _ _ H4 H5 H6 H8 H9).
  - rewrite Hsent. exact H2.
  - rewrite Hsent. exact H3.
Defined.

(** ** Uploading from the sidebar *)

Section UploadFromTheSidebar.

Import Frontend.

Variable rt : Runtime.

Lemma upload_parts_field (files : list BrowserFile) (p : Part) :
  p ∈ file_parts (FileItem <$> upload_parts files) → part_field p = "files".
Proof.
  unfold file_parts. intros Hp.
  apply list_elem_of_omap in Hp as (item & Hitem & Hsome).
  apply list_elem_of_fmap in Hitem as (sent & -> & Hsent).
  destruct (String.eqb _ _); [discriminate Hsome |]. injection Hsome as <-.
  apply list_elem_of_In, in_map_iff in Hsent as (file & <- & _). reflexivity.
Qed.

Lemma file_parts_length (items : list FormItem) :
  (length (file_parts items) ≤ length items)%nat.
Proof.
  induction items as [| item items IH]; [done |].
  destruct (file_parts_cons item items) as [-> | (sent & _ & _ & ->)];
    cbn [length]; lia.
Qed.

(** Storing a part fails with a file-system error only. *)
Lemma handleFile_error (file : Part) (w w1 : World) (e : JSError) :
  handleFile rt file w = (Thrown e, w1) →
  ∃ p, e = Fs.enoent "open" p ∨ e = Fs.eisdir "open" p ∨ e = Fs.enotdir "open" p.
Proof.
  unfold handleFile, storage_filename, storage_destination. unfold_M.
  cbn [store clock calls]. unfold Fs.write_file.
  destruct (Fs.lookup (UPLOADS_DIR rt) _) as [[dst | dst |] |];
    try (intros [= <- _]; eexists; tauto).
  match goal with |- context [Fs.lookup ?p ?s] =>
    destruct (Fs.lookup p s) as [[st | st |] |];
    try (intros [= <- _]; eexists; tauto);
    destruct (String.eqb p ""); try discriminate;
    intros [= <- _]; eexists; tauto
  end.
Qed.

(** X18.  The sidebar and the upload middleware agree on the form field:
    [handleFileUpload] appends every file as 'files', the field
    [upload.array] reads.  So an upload sent by the page is refused as
    'Unexpected field' only when it carries more than 10 files. *)
Theorem page_uploads_use_the_expected_field (files : list BrowserFile)
    (w w' : World) (e : JSError) :
  ingest rt (Multipart (FileItem <$> upload_parts files) None) w = (Thrown e, w') →
  message e = "Unexpected field" →
  (10 < length files)%nat.
Proof.
  intros Hrun Hmsg. unfold ingest, upload_array, mbind, mret, M_bind, M_ret in Hrun.
  destruct (multer_files rt "files" 10 [] (FileItem <$> upload_parts files) None w)
    as [[stored | e1] w1] eqn:Hm.
  - destruct (ingest_handler_returns rt (Some stored) w1) as (resp & w2 & Hh).
    rewrite Hh in Hrun. discriminate Hrun.
  - injection Hrun as -> ->.
    destruct (multer_files_rejection rt _ _ _ _ _ _ _ _ Hm)
      as [(_ & [(p & Hp & Hfield) | Hmany]) | [(-> & _) | [(-> & _)
         | [(p & w0 & w2 & _ & Hhandle) | [(-> & _) | [(-> & _)
         | [(-> & _) | Hfail]]]]]]]; try discriminate.
    + by rewrite (upload_parts_field files p Hp) in Hfield.
    + pose proof (file_parts_length (FileItem <$> upload_parts files)) as Hlen.
      rewrite length_fmap in Hlen. unfold upload_parts in Hlen at 2.
      rewrite length_map in Hlen. lia.
    + destruct (handleFile_error _ _ _ _ Hhandle) as (q & [-> | [-> | ->]]);
        discriminate Hmsg.
Qed.

End UploadFromTheSidebar.

Lemma page_uploads_use_the_expected_field_witness :
  let rt := Demo.runtime Demo.offline in
  let w := Demo.world Demo.disk in
  let files := replicate 11 {| Frontend.file_name := "survey.pdf";
                               Frontend.file_type := "application/pdf";
                               Frontend.file_size := 1000 |} in
  let e := plain_error "Unexpected field" in
  let w' := {| store := Demo.disk; calls := []; clock := 20 |} in
  ingest rt (Multipart (FileItem <$> Frontend.upload_parts files) None) w
  = (Thrown e, w') ∧
  message e = "Unexpected field" ∧
  (10 < length files)%nat.
Proof.
  intros rt w files e w'.
  assert (H1 : ingest rt (Multipart (FileItem <$> Frontend.upload_parts files) None) w
               = (Thrown e, w')) by (vm_compute; reflexivity).
  assert (H2 : message e = "Unexpected field") by reflexivity.
  split; [exact H1 | split; [exact H2 |]].
  exact (page_uploads_use_the_expected_field rt files w w' e H1 H2).
Defined.

(** ** The name of the downloaded report *)

Section DownloadName.

Import Download.

Lemma has_append (c : ascii) (s t : string) :
  has c (s +:+ t) = has c s || has c t.
Proof.
  induction s as [| a s IH]; [reflexivity |].
  change (String a s +:+ t) with (String a (s +:+ t)).
  cbn [has]. by rewrite IH, orb_assoc.
Qed.

(** No segment of a split holds the separator. *)
Lemma split_from_segments (c : ascii) (s cur seg : string) :
  has c cur = false → seg ∈ split_from c cur s → has c seg = false.
Proof.
  revert cur. induction s as [| a s IH]; intros cur Hcur Hseg; cbn in Hseg.
  - by apply list_elem_of_singleton in Hseg as ->.
  - destruct (Ascii.eqb a c) eqn:Hac.
    + apply elem_of_cons in Hseg as [-> | Hseg]; [exact Hcur |].
      by apply (IH "").
    + apply (IH (cur +:+ String a EmptyString)); [| exact Hseg].
      rewrite has_append, Hcur. cbn. by rewrite Hac.
Qed.

Lemma split_from_nonempty (c : ascii) (s cur : string) : split_from c cur s ≠ [].
Proof.
  revert cur. induction s as [| a s IH]; intros cur; cbn; [discriminate |].
  destruct (Ascii.eqb a c); [discriminate | apply IH].
Qed.

Lemma pop_is_a_segment (xs : list string) : xs ≠ [] → pop xs ∈ xs.
Proof.
  unfold pop. induction xs as [| x xs IH]; [done |]. intros _.
  destruct xs as [| y ys]; [apply list_elem_of_here |].
  apply list_elem_of_further. change (List.last (x :: y :: ys) "") with (List.last (y :: ys) "").
  by apply IH.
Qed.

Lemma pop_split_clean (c : ascii) (s : string) : has c (pop (split c s)) = false.
Proof.
  apply (split_from_segments c s "" _ eq_refl).
  apply pop_is_a_segment, split_from_nonempty.
Qed.

(** X19.  The report is saved, and asked for under [/outputs/], by its
    last path component: the name never holds a '/', whatever the path
    the upstream service reported, and for a path written with
    backslashes only it holds no backslash either. *)
Theorem download_name_is_a_last_component (report : string) :
  has "/" (fileName report) = false ∧
  (has "/" report = false → has "\" (fileName report) = false).
Proof.
  unfold fileName. split.
  - destruct (has "/" report) eqn:Hslash; [apply pop_split_clean |].
    destruct (has "\" report); [| by destruct (endsWith report ".tex")].
    assert (Hseg : pop (split "\" report) ∈ split "\" report)
      by apply pop_is_a_segment, split_from_nonempty.
    revert Hseg. unfold split.
    assert (Hgen : ∀ s cur seg, has "/" cur = false → has "/" s = false →
              seg ∈ split_from "\" cur s → has "/" seg = false).
    { induction s as [| a s IH]; intros cur seg Hcur Hs Hseg; cbn in Hseg.
      - by apply list_elem_of_singleton in Hseg as ->.
      - cbn in Hs. apply orb_false_iff in Hs as [Ha Hs].
        destruct (Ascii.eqb a "\"); [apply elem_of_cons in Hseg as [-> | Hseg];
          [exact Hcur | by apply (IH "")] |].
        apply (IH (cur +:+ String a EmptyString)); [| exact Hs | exact Hseg].
        rewrite has_append, Hcur. cbn. by rewrite Ha. }
    by apply Hgen.
  - intros ->. destruct (has "\" report) eqn:Hback; [apply pop_split_clean |].
    destruct (endsWith report ".tex"); [exact Hback | reflexivity].
Qed.

End DownloadName.

Lemma download_name_is_a_last_component_witness :
  let report := "C:\athena\outputs\athena_report.tex" in
  Download.has "/" report = false ∧
  Download.has "/" (Download.fileName report) = false ∧
  Download.has "\" (Download.fileName report) = false.
Proof.
  intros report.
  assert (H1 : Download.has "/" report = false) by reflexivity.
  split; [exact H1 |].
  split; [exact (proj1 (download_name_is_a_last_component report)) |].
  exact (proj2 (download_name_is_a_last_component report) H1).
Defined.
